(** * Email Productivity Agent: the LLM orchestration layer, its pipeline and
      its query router, embedded in Rocq.

    The development follows the Python sources:
    - [backend/llm_service.py]   (class LLMService, the remote-API provider),
    - [backend/ollama_service.py] (class OllamaService, the local provider),
    - [backend/unified_llm_service.py] (class UnifiedLLMService),
    - [backend/database.py]      (class Database),
    - [backend/email_processor.py] (class EmailProcessor),
    - [backend/agent_logic.py]   (class EmailAgent),
    - [backend/config.py]        (class Config).

    Conventions of the embedding:
    - Python text is a [string], read as a sequence of code points below
      256; Python integers are [Z]; counters that only grow from zero are
      [nat]; optional values are [option];
    - a call runs in a [World] (the store, the backends, the usage counters
      and a trace of what the run did to its collaborators) and either
      returns a value or raises: [M A] is the state-and-exception monad over
      it; a Python [float] is a binary64 number of [SpecFloat];
    - the backends are scripts: the reply to each invocation is given by the
      world, so that a statement quantified over worlds covers every
      behaviour of the model and of the network;
    - a statement of the store whose parameters can be bound returns when
      it reads; when it writes it may raise, as the sources expect (each
      write sits in a [try] block of its caller); binding an integer outside
      the 64-bit range of SQLite raises [OverflowError];
    - calls to the logger, the clock (the timestamps of log entries) and the
      streaming variant of the model call ([stream=True]) are left out. *)

From Stdlib Require Import ZArith QArith Ascii String List Lia Bool.
From Stdlib Require Import Floats.SpecFloat.
From stdpp Require Import base option list gmap strings pretty sorting.

Local Open Scope Z_scope.

(** ** Python's [str] methods used by the sources *)

Module PyStr.

(** [str.isspace] on one code point below 256: TAB..CR, FS..US, SPACE,
    NEL and NBSP. *)
Definition is_space (c : ascii) : bool :=
  let n := N_of_ascii c in
  ((9 <=? n) && (n <=? 13) || (28 <=? n) && (n <=? 32)
   || (n =? 133) || (n =? 160))%N.

(** [str.lower] on one code point below 256: A..Z and the Latin-1
    capitals (all of 0xC0..0xDE but the multiplication sign) move up by 32. *)
Definition lower_char (c : ascii) : ascii :=
  let n := N_of_ascii c in
  if ((65 <=? n) && (n <=? 90)
      || (192 <=? n) && (n <=? 222) && negb (n =? 215))%N
  then ascii_of_N (n + 32) else c.

Fixpoint lower (s : string) : string :=
  match s with
  | EmptyString => EmptyString
  | String c r => String (lower_char c) (lower r)
  end.

Fixpoint lstrip (s : string) : string :=
  match s with
  | EmptyString => EmptyString
  | String c r => if is_space c then lstrip r else s
  end.

Fixpoint rstrip (s : string) : string :=
  match s with
  | EmptyString => EmptyString
  | String c r =>
      match rstrip r with
      | EmptyString => if is_space c then EmptyString else String c EmptyString
      | r' => String c r'
      end
  end.

(** [s.strip()] *)
Definition strip (s : string) : string := lstrip (rstrip s).

(** [sub in s] *)
Fixpoint contains (sub s : string) : bool :=
  String.prefix sub s ||
  match s with
  | EmptyString => false
  | String _ r => contains sub r
  end.

(** [s.find(sub)]: the lowest index where [sub] starts, or -1. *)
Fixpoint find_from (sub s : string) (i : Z) : Z :=
  if String.prefix sub s then i
  else match s with
       | EmptyString => -1
       | String _ r => find_from sub r (i + 1)
       end.

Definition find (s sub : string) : Z := find_from sub s 0.

(** [s.rfind(sub)]: the highest index where [sub] starts, or -1. *)
Fixpoint rfind_from (sub s : string) (i : Z) : Z :=
  match s with
  | EmptyString => if String.prefix sub s then i else -1
  | String _ r =>
      let later := rfind_from sub r (i + 1) in
      if later =? -1 then (if String.prefix sub s then i else -1) else later
  end.

Definition rfind (s sub : string) : Z := rfind_from sub s 0.

(** [s[i:j]] with Python's treatment of negative and out-of-range bounds. *)
Definition slice (s : string) (i j : Z) : string :=
  let n := Z.of_nat (String.length s) in
  let norm k := if k <? 0 then Z.max 0 (k + n) else Z.min k n in
  let a := norm i in
  let b := norm j in
  String.substring (Z.to_nat a) (Z.to_nat (b - a)) s.

(** [s.replace(old, new)] for a non-empty [old]: occurrences are replaced
    from the left and do not overlap.  [skip] counts the characters of the
    occurrence just replaced that are still to be dropped. *)
Fixpoint replace_from (old new : string) (skip : nat) (s : string) : string :=
  match s with
  | EmptyString => EmptyString
  | String c r =>
      match skip with
      | S k => replace_from old new k r
      | O =>
          if String.prefix old s
          then new +:+ replace_from old new (String.length old - 1) r
          else String c (replace_from old new 0 r)
      end
  end.

Definition replace (s old new : string) : string := replace_from old new 0 s.

(** [sep.join(parts)] *)
Fixpoint join (sep : string) (parts : list string) : string :=
  match parts with
  | [] => EmptyString
  | [p] => p
  | p :: rest => p +:+ sep +:+ join sep rest
  end.

(** [len(s.split())]: the number of maximal runs of non-space characters.
    [inword] tells whether the previous character belonged to a run. *)
Fixpoint count_words (inword : bool) (s : string) : nat :=
  match s with
  | EmptyString => O
  | String c r =>
      if is_space c then count_words false r
      else ((if inword then 0 else 1) + count_words true r)%nat
  end.

(** Truthiness of a [str]: the empty string is falsy. *)
Definition truthy (s : string) : bool :=
  match s with EmptyString => false | _ => true end.

End PyStr.

(** ** Decoded JSON values and Python exceptions *)

(** What [json.loads] builds.  [JObject] lists the items of the decoded
    [dict] in insertion order, each key once. *)
#[warnings="-register-all"]
Inductive json :=
  | JNull
  | JBool (b : bool)
  | JInt (n : Z)
  | JFloat (repr : string)
  | JString (s : string)
  | JArray (items : list json)
  | JObject (fields : list (string * json)).

(** The exception classes that the sources name in an [except] clause or
    that the modelled operations raise.  The first group is the class tree
    of the [openai] package, the second that of [requests]. *)
Inductive exc_class :=
  | RateLimitError | APITimeoutError | APIConnectionError
  | BadRequestError | AuthenticationError | NotFoundError
  | InternalServerError | APIError
  | RequestsConnectionError | RequestsConnectTimeout | RequestsReadTimeout
  | KeyError | IndexError | ValueError | AttributeError
  | JSONDecodeError | RecursionError | OverflowError
  | SqliteError | OtherException.

(** An exception object: its class and [str(e)]. *)
Record py_exception := PyExc { exc_cls : exc_class; exc_str : string }.

(** [isinstance(e, openai.APIError)]: every class of the [openai] tree. *)
Definition is_APIError (c : exc_class) : bool :=
  match c with
  | RateLimitError | APITimeoutError | APIConnectionError | BadRequestError
  | AuthenticationError | NotFoundError | InternalServerError | APIError => true
  | _ => false
  end.

(** [isinstance(e, requests.exceptions.ConnectionError)]; [ConnectTimeout]
    derives from both [ConnectionError] and [Timeout]. *)
Definition is_requests_ConnectionError (c : exc_class) : bool :=
  match c with RequestsConnectionError | RequestsConnectTimeout => true | _ => false end.

Definition is_requests_Timeout (c : exc_class) : bool :=
  match c with RequestsConnectTimeout | RequestsReadTimeout => true | _ => false end.

(** [isinstance(e, json.JSONDecodeError)].  The class derives from
    [ValueError]; a plain [ValueError] is not one of its instances. *)
Definition is_JSONDecodeError (c : exc_class) : bool :=
  match c with JSONDecodeError => true | _ => false end.

(** The outcome of a Python call: a value, or a raised exception. *)
Inductive result (A : Type) :=
  | Ret (a : A)
  | Exc (e : py_exception).
Arguments Ret {A} a.
Arguments Exc {A} e.

Definition returned {A} (r : result A) : bool :=
  match r with Ret _ => true | Exc _ => false end.

(** ** Library functions that are not part of the repository *)

(** The Python runtime functions whose full behaviour the development does
    not fix.  Every statement below holds for each way of filling them in.
    - [json_loads s] is [json.loads(s)]: the decoded value, or the
      exception that the call raises: [json.JSONDecodeError] for a text that
      is not JSON, and also what the interpreter raises while it decodes,
      [ValueError] for an integer literal of more than 4300 digits and
      [RecursionError] for arrays or objects nested too deeply;
    - [format_beyond t v] is [t.format(email_content=v)] for a template [t]
      with a replacement field that carries a conversion, a format spec, an
      attribute or an index (see [PyFormat] for the plain fields);
    - [str_beyond v] is [str(v)] for a decoded float, list or dict;
    - [repr_str s] is [repr(s)] for a text [s]. *)
Record PyRuntime := {
  json_loads : string -> result json;
  format_beyond : string -> string -> result string;
  str_beyond : json -> string;
  repr_str : string -> string
}.

(** ** [backend/models.py] *)

Record Email := {
  email_id_of : Z;
  sender : string;
  subject : string;
  body : string;
  timestamp : string;          (* the ISO text kept in the TEXT column *)
  has_attachment : bool;
  category : option string;
  action_items : list json;
  processed : bool
}.

Record Prompt := {
  prompt_type : string;
  prompt_text : string;
  is_active : bool
}.

Record ProcessingLog := {
  log_email_id : Z;
  operation : string;
  status : string;
  llm_response : option string;
  error_message : option string
}.

Record AgentMessage := {
  msg_role : string;
  msg_content : string
}.

(** A chat message as handed to a provider: [{"role": .., "content": ..}]. *)
Record message := { role : string; content : string }.

(** ** The environment of one process *)

(** [backend/database.py]: the three tables the core reads and writes.
    [emails.id] is the primary key, [prompts.prompt_type] is UNIQUE. *)
Record Database := {
  emails : gmap Z Email;
  prompts : gmap string Prompt;
  processing_logs : list ProcessingLog
}.

(** The object returned by [client.chat.completions.create]: the [content]
    of each choice and [usage.total_tokens] when usage is reported. *)
Record chat_completion := {
  choices : list (option string);
  usage : option Z
}.

Inductive openai_reply :=
  | OpenAIReturns (r : chat_completion)
  | OpenAIRaises (e : py_exception).

(** The outcome of [requests.post] to Ollama: a status code and, for the
    body, the text under its ["response"] key; [None] stands for a body
    from which reading that text raises (not JSON, not an object, not a
    string). A missing key reads as the empty text. *)
Inductive ollama_reply :=
  | OllamaResponds (status_code : Z) (response_text : option string)
  | OllamaRaises (e : py_exception).

Inductive provider := Ollama | OpenAI.

Inductive llm_op :=
  | OpCategorize (email_content template : string)
  | OpExtract (email_content template : string)
  | OpReply (email_content template : string)
  | OpAnswer (query : string) (email_context : option string)
             (history : list message).

Inductive db_op :=
  | DbGetEmail (id : Z)
  | DbGetAllEmails (limit : Z)
  | DbGetPrompt (ty : string)
  | DbUpdateEmail (id : Z) (new_category : option string)
                  (new_items : option (list json)) (new_processed : option bool)
  | DbInsertLog (entry : ProcessingLog).

(** What a run does to its collaborators, in the order it happens. *)
Inductive event :=
  | EvCreate (messages : list message) (temperature : Q) (max_tokens : Z)
  | EvPost (prompt : string) (temperature : Q) (num_predict : Z)
  | EvSleep (seconds : Z)
  | EvLLM (op : llm_op)
  | EvDb (op : db_op)
  | EvIsInboxQuery (query : string).

(** The state a call runs in.  [openai_script] and [ollama_script] give the
    backend's reply to its n-th invocation, [write_fails] gives the exception
    that the n-th write to the store raises, if it raises one;
    [backend_calls] and [db_writes] count the invocations made so far.
    [total_tokens_used] is the attribute of that name of the [LLMService]
    object, a sum of integers; [ollama_total_tokens_used] is the attribute
    [total_tokens_used] of the [OllamaService] object, to which floats are
    added (the integer 0 it is created with reads as the float 0.0). *)
Record World := {
  w_db : Database;
  write_fails : nat -> option py_exception;
  db_writes : nat;
  openai_script : nat -> openai_reply;
  ollama_script : nat -> ollama_reply;
  backend_calls : nat;
  total_tokens_used : Q;
  ollama_total_tokens_used : spec_float;
  trace : list event
}.

Definition set_db (w : World) (d : Database) : World :=
  {| w_db := d; write_fails := write_fails w; db_writes := db_writes w;
     openai_script := openai_script w; ollama_script := ollama_script w;
     backend_calls := backend_calls w; total_tokens_used := total_tokens_used w;
     ollama_total_tokens_used := ollama_total_tokens_used w; trace := trace w |}.

Definition set_db_writes (w : World) (n : nat) : World :=
  {| w_db := w_db w; write_fails := write_fails w; db_writes := n;
     openai_script := openai_script w; ollama_script := ollama_script w;
     backend_calls := backend_calls w; total_tokens_used := total_tokens_used w;
     ollama_total_tokens_used := ollama_total_tokens_used w; trace := trace w |}.

Definition set_backend_calls (w : World) (n : nat) : World :=
  {| w_db := w_db w; write_fails := write_fails w; db_writes := db_writes w;
     openai_script := openai_script w; ollama_script := ollama_script w;
     backend_calls := n; total_tokens_used := total_tokens_used w;
     ollama_total_tokens_used := ollama_total_tokens_used w; trace := trace w |}.

Definition set_tokens (w : World) (t : Q) : World :=
  {| w_db := w_db w; write_fails := write_fails w; db_writes := db_writes w;
     openai_script := openai_script w; ollama_script := ollama_script w;
     backend_calls := backend_calls w; total_tokens_used := t;
     ollama_total_tokens_used := ollama_total_tokens_used w; trace := trace w |}.

Definition set_ollama_tokens (w : World) (t : spec_float) : World :=
  {| w_db := w_db w; write_fails := write_fails w; db_writes := db_writes w;
     openai_script := openai_script w; ollama_script := ollama_script w;
     backend_calls := backend_calls w; total_tokens_used := total_tokens_used w;
     ollama_total_tokens_used := t; trace := trace w |}.

Definition set_trace (w : World) (t : list event) : World :=
  {| w_db := w_db w; write_fails := write_fails w; db_writes := db_writes w;
     openai_script := openai_script w; ollama_script := ollama_script w;
     backend_calls := backend_calls w; total_tokens_used := total_tokens_used w;
     ollama_total_tokens_used := ollama_total_tokens_used w; trace := t |}.

(** ** The state-and-exception monad of the embedding *)

Definition M (A : Type) : Type := World -> result A * World.

Definition ret {A} (a : A) : M A := fun w => (Ret a, w).

Definition bind {A B} (m : M A) (k : A -> M B) : M B :=
  fun w => match m w with
           | (Ret a, w') => k a w'
           | (Exc e, w') => (Exc e, w')
           end.

Definition raise {A} (e : py_exception) : M A := fun w => (Exc e, w).

(** [try: m  except Exception as e: h e] *)
Definition try_except {A} (m : M A) (h : py_exception -> M A) : M A :=
  fun w => match m w with
           | (Ret a, w') => (Ret a, w')
           | (Exc e, w') => h e w'
           end.

Definition emit (e : event) : M unit :=
  fun w => (Ret tt, set_trace w (trace w ++ [e])).

(** Lift a pure outcome. *)
Definition lift {A} (r : result A) : M A := fun w => (r, w).

Declare Scope py_scope.
Delimit Scope py_scope with py.
Notation "x <- m ;; k" := (bind m (fun x => k))
  (at level 100, m at next level, right associativity) : py_scope.
Notation "m ;;; k" := (bind m (fun _ => k))
  (at level 100, right associativity) : py_scope.
Local Open Scope py_scope.

(** ** [str.format] with the single keyword argument [email_content] *)

Module PyFormat.

(** Where the scanner of the template stands: in literal text, just after
    an opening brace, just after a closing brace, inside a replacement
    field whose name read so far is [name], or inside the format spec that
    follows the colon of the field [name], with [depth] braces open. *)
Inductive state :=
  | InText
  | AfterOpen
  | AfterClose
  | InField (name : string)
  | InSpec (name : string) (depth : nat).

Definition is_digit (c : ascii) : bool :=
  let n := N_of_ascii c in ((48 <=? n) && (n <=? 57))%N.

Fixpoint all_digits (s : string) : bool :=
  match s with
  | EmptyString => true
  | String c r => is_digit c && all_digits r
  end.

Fixpoint decimal_value (acc : Z) (s : string) : Z :=
  match s with
  | EmptyString => acc
  | String c r => decimal_value (acc * 10 + (Z.of_N (N_of_ascii c) - 48)) r
  end.

(** Looking up the plain field [name] among the arguments
    [(), {"email_content": v}]: an empty or numeric name indexes the empty
    positional tuple, any other name is a keyword. *)
Definition lookup (rt : PyRuntime) (name v : string) : result string :=
  if String.eqb name "" then
    Exc (PyExc IndexError "Replacement index 0 out of range for positional args tuple")
  else if all_digits name then
    if decimal_value 0 name <=? 9223372036854775807
    then Exc (PyExc IndexError
                ("Replacement index " +:+ pretty (decimal_value 0 name)
                 +:+ " out of range for positional args tuple"))
    else Exc (PyExc ValueError "Too many decimal digits in format string")
  else if String.eqb name "email_content" then Ret v
  else Exc (PyExc KeyError (repr_str rt name)).

Definition prepend (p : string) (r : option (result string)) : option (result string) :=
  match r with
  | Some (Ret s) => Some (Ret (p +:+ s))
  | other => other
  end.

(** One pass over the template, left to right.  A field is parsed to its
    closing brace before its name is looked up.  [None] means that the
    call is outside the fragment fixed here: a field with a conversion, an
    attribute or an index was met, or a format spec is to be applied to
    [email_content]. *)
Fixpoint format_from (rt : PyRuntime) (st : state) (v t : string)
  : option (result string) :=
  let field name c r :=
    if Ascii.eqb c "}" then
      match lookup rt name v with
      | Ret s => prepend s (format_from rt InText v r)
      | Exc e => Some (Exc e)
      end
    else if Ascii.eqb c "{" then
      Some (Exc (PyExc ValueError "unexpected '{' in field name"))
    else if Ascii.eqb c ":" then format_from rt (InSpec name 1) v r
    else if Ascii.eqb c "!" || Ascii.eqb c "." || Ascii.eqb c "["
    then None
    else format_from rt (InField (name +:+ String c EmptyString)) v r in
  match t with
  | EmptyString =>
      match st with
      | InText => Some (Ret EmptyString)
      | AfterOpen => Some (Exc (PyExc ValueError "Single '{' encountered in format string"))
      | AfterClose => Some (Exc (PyExc ValueError "Single '}' encountered in format string"))
      | InField _ => Some (Exc (PyExc ValueError "expected '}' before end of string"))
      | InSpec _ _ => Some (Exc (PyExc ValueError "unmatched '{' in format spec"))
      end
  | String c r =>
      match st with
      | InText =>
          if Ascii.eqb c "{" then format_from rt AfterOpen v r
          else if Ascii.eqb c "}" then format_from rt AfterClose v r
          else prepend (String c EmptyString) (format_from rt InText v r)
      | AfterOpen =>
          if Ascii.eqb c "{" then prepend "{" (format_from rt InText v r)
          else field EmptyString c r
      | AfterClose =>
          if Ascii.eqb c "}" then prepend "}" (format_from rt InText v r)
          else Some (Exc (PyExc ValueError "Single '}' encountered in format string"))
      | InField name => field name c r
      | InSpec name depth =>
          if Ascii.eqb c "{" then format_from rt (InSpec name (S depth)) v r
          else if Ascii.eqb c "}" then
            match depth with
            | S (S d) => format_from rt (InSpec name (S d)) v r
            | _ =>
                match lookup rt name v with
                | Ret _ => None
                | Exc e => Some (Exc e)
                end
            end
          else format_from rt (InSpec name depth) v r
      end
  end.

(** [template.format(email_content=v)] *)
Definition format (rt : PyRuntime) (template v : string) : result string :=
  match format_from rt InText v template with
  | Some r => r
  | None => format_beyond rt template v
  end.

End PyFormat.

(** ** [backend/database.py] *)

Module Db.

(** The integers that [sqlite3] can bind to a parameter: those of a signed
    64-bit INTEGER.  Binding any other [int] raises [OverflowError] before
    the statement runs. *)
Definition int64 (n : Z) : bool := (- 2 ^ 63 <=? n) && (n <? 2 ^ 63).

Definition too_large : py_exception :=
  PyExc OverflowError "Python int too large to convert to SQLite INTEGER".

(** Reading a table: a [SELECT], recorded in the trace; it returns. *)
Definition read {A} (op : db_op) (f : Database -> A) : M A :=
  emit (EvDb op) ;;; (fun w => (Ret (f (w_db w)), w)).

(** Writing inside [get_connection]: the statement either raises, and the
    transaction is rolled back, or it is committed. *)
Definition write (op : db_op) (f : Database -> Database) : M unit :=
  emit (EvDb op) ;;;
  (fun w =>
     let w1 := set_db_writes w (S (db_writes w)) in
     match write_fails w (db_writes w) with
     | Some e => (Exc e, w1)
     | None => (Ret tt, set_db w1 (f (w_db w)))
     end).

(** [SELECT * FROM emails WHERE id = ?].  The column [id] is the INTEGER
    PRIMARY KEY of the table: the ids of its rows are 64-bit integers, so an
    id under which a row is found is one of them; any other id finds no row,
    and one outside the 64-bit range cannot even be bound. *)
Definition get_email (email_id : Z) : M (option Email) :=
  emit (EvDb (DbGetEmail email_id)) ;;;
  (fun w =>
     match emails (w_db w) !! email_id with
     | Some email => (Ret (Some email), w)
     | None => if int64 email_id then (Ret None, w) else (Exc too_large, w)
     end).

(** [ORDER BY timestamp DESC]: later timestamps first, the TEXT column
    being compared byte by byte.  The statement is answered by walking the
    index [idx_emails_timestamp] of [init_database] backwards, which yields
    rows with equal timestamps in descending order of their id. *)
Definition before (a b : Email) : bool :=
  match String.compare (timestamp a) (timestamp b) with
  | Gt => true
  | Eq => email_id_of b <=? email_id_of a
  | Lt => false
  end.

Fixpoint insert_sorted (e : Email) (l : list Email) : list Email :=
  match l with
  | [] => [e]
  | x :: r => if before e x then e :: l else x :: insert_sorted e r
  end.

Definition order_by_timestamp_desc (l : list Email) : list Email :=
  foldr insert_sorted [] l.

Definition all_rows (db : Database) : list Email :=
  order_by_timestamp_desc (snd <$> map_to_list (emails db)).

(** [SELECT * FROM emails ORDER BY timestamp DESC LIMIT ?]: a negative
    limit is no limit. *)
Definition get_all_emails (limit : Z) : M (list Email) :=
  if int64 limit then
    read (DbGetAllEmails limit)
      (fun db => if limit <? 0 then all_rows db
                 else take (Z.to_nat limit) (all_rows db))
  else emit (EvDb (DbGetAllEmails limit)) ;;; raise too_large.

(** The [UPDATE emails SET ... WHERE id = ?] of [update_email]: only the
    fields given (not [None]) are assigned. *)
Definition set_fields (new_category : option string)
    (new_items : option (list json)) (new_processed : option bool)
    (e : Email) : Email :=
  {| email_id_of := email_id_of e;
     sender := sender e; subject := subject e; body := body e;
     timestamp := timestamp e; has_attachment := has_attachment e;
     category := match new_category with Some c => Some c | None => category e end;
     action_items := match new_items with Some l => l | None => action_items e end;
     processed := match new_processed with Some b => b | None => processed e end |}.

Definition is_Some_b {A} (o : option A) : bool :=
  match o with Some _ => true | None => false end.

(** With no field given no statement is executed; with one, the id is
    bound as the last parameter of the [UPDATE]. *)
Definition update_email (email_id : Z) (new_category : option string)
    (new_items : option (list json)) (new_processed : option bool) : M unit :=
  let op := DbUpdateEmail email_id new_category new_items new_processed in
  if is_Some_b new_category || is_Some_b new_items || is_Some_b new_processed then
    if int64 email_id then
      write op
        (fun db =>
           {| emails := alter (set_fields new_category new_items new_processed)
                              email_id (emails db);
              prompts := prompts db;
              processing_logs := processing_logs db |})
    else emit (EvDb op) ;;; raise too_large
  else write op (fun db => db).

(** [SELECT * FROM prompts WHERE prompt_type = ? AND is_active = 1] *)
Definition get_prompt (ty : string) : M (option Prompt) :=
  read (DbGetPrompt ty)
    (fun db => match prompts db !! ty with
               | Some p => if is_active p then Some p else None
               | None => None
               end).

Definition insert_log (log : ProcessingLog) : M unit :=
  if int64 (log_email_id log) then
    write (DbInsertLog log)
      (fun db =>
         {| emails := emails db;
            prompts := prompts db;
            processing_logs := processing_logs db ++ [log] |})
  else emit (EvDb (DbInsertLog log)) ;;; raise too_large.

End Db.

(** ** [backend/config.py] *)

Module Config.
Definition CATEGORIZATION_TEMPERATURE : Q := 3 # 10.
Definition ACTION_EXTRACTION_TEMPERATURE : Q := 5 # 10.
Definition DRAFT_GENERATION_TEMPERATURE : Q := 8 # 10.
Definition AGENT_RESPONSE_TEMPERATURE : Q := 7 # 10.
Definition MAX_CONVERSATION_HISTORY : nat := 5.

(** [Config.validate()].  The class attributes it reads are arguments;
    [mkdir] is the outcome of creating the directory of the database file,
    [probe] the outcome of [requests.get(f"{OLLAMA_BASE_URL}/api/tags",
    timeout=2)]: the status code of the response, or the exception raised
    (the bare [except:] of the source catches whatever is raised). *)
Definition validate (LLM_PROVIDER OPENAI_API_KEY OLLAMA_BASE_URL : string)
    (mkdir : result unit) (probe : result Z) : result (bool * string) :=
  match mkdir with
  | Exc e => Exc e
  | Ret _ =>
      if String.eqb LLM_PROVIDER "openai" then
        if negb (PyStr.truthy OPENAI_API_KEY) then
          Ret (false, "OPENAI_API_KEY not set in environment variables")
        else if negb (String.prefix "sk-" OPENAI_API_KEY) then
          Ret (false, "Invalid OPENAI_API_KEY format")
        else Ret (true, "")
      else if String.eqb LLM_PROVIDER "ollama" then
        match probe with
        | Ret status_code =>
            if negb (status_code =? 200) then
              Ret (false, "Ollama not responding at " +:+ OLLAMA_BASE_URL
                          +:+ ". Please start Ollama.")
            else Ret (true, "")
        | Exc _ => Ret (false, "Ollama not running. Please start Ollama with: ollama serve")
        end
      else Ret (true, "")
  end.

End Config.

(** [l[-n:]] for a positive [n]: the last [n] elements. *)
Definition last_n {A} (n : nat) (l : list A) : list A :=
  drop (length l - n) l.

(** ** The response interpreters

    Both provider classes carry the same code after their model call
    ([categorize_email] and [extract_action_items], from [if response:] on);
    it is embedded once. *)

Module Interpret.

Definition valid_categories : list string :=
  ["Important"; "Newsletter"; "Spam"; "To-Do"].

(** [for cat in cats: if cat.lower() in category.lower(): return cat] *)
Fixpoint first_match (cats : list string) (category : string) : option string :=
  match cats with
  | [] => None
  | cat :: rest =>
      if PyStr.contains (PyStr.lower cat) (PyStr.lower category)
      then Some cat
      else first_match rest category
  end.

Definition category_of_response (response : option string) : option string :=
  match response with
  | Some r =>
      if PyStr.truthy r then
        let category := PyStr.strip r in
        match first_match valid_categories category with
        | Some cat => Some cat
        | None => Some category
        end
      else None
  | None => None
  end.

(** The [try] block of [extract_action_items] and its one handler,
    [except json.JSONDecodeError]: any other exception of [json.loads]
    leaves the function. *)
Definition action_items_of_response (rt : PyRuntime) (response : option string)
  : result (list json) :=
  match response with
  | Some r =>
      if PyStr.truthy r then
        let response := PyStr.strip r in
        let start_idx := PyStr.find response "[" in
        let end_idx := PyStr.rfind response "]" in
        if negb (start_idx =? -1) && negb (end_idx =? -1) then
          let json_str := PyStr.slice response start_idx (end_idx + 1) in
          match json_loads rt json_str with
          | Ret (JArray action_items) => Ret action_items
          | Ret _ => Ret []
          | Exc e => if is_JSONDecodeError (exc_cls e) then Ret [] else Exc e
          end
        else Ret []
      else Ret []
  | None => Ret []
  end.

End Interpret.

(** ** [backend/llm_service.py]: the remote-API provider *)

(** How one turn of a retry loop ends: with the value the function returns,
    or by going on to the next attempt. *)
Inductive loop_step (A : Type) :=
  | Return (a : A)
  | Continue.
Arguments Return {A} a.
Arguments Continue {A}.

Definition sleep (seconds : Z) : M unit := emit (EvSleep seconds).

Module LLMService.
Section Service.

Context (rt : PyRuntime).
(** [self.max_retries = config.MAX_RETRIES] *)
Context (max_retries : Z).

(** [self.client.chat.completions.create(...)]: the next reply of the
    backend. *)
Definition create (messages : list message) (temperature : Q) (max_tokens : Z)
  : M chat_completion :=
  emit (EvCreate messages temperature max_tokens) ;;;
  (fun w =>
     let w1 := set_backend_calls w (S (backend_calls w)) in
     match openai_script w (backend_calls w) with
     | OpenAIReturns r => (Ret r, w1)
     | OpenAIRaises e => (Exc e, w1)
     end).

Definition add_tokens (t : Z) : M unit :=
  fun w => (Ret tt, set_tokens w (total_tokens_used w + inject_Z t)%Q).

(** The [try] block of the loop body (with [stream=False]). *)
Definition attempt_body (messages : list message) (temperature : Q)
    (max_tokens : Z) : M (loop_step (option string)) :=
  response <- create messages temperature max_tokens ;;
  match usage response with
  | Some t => add_tokens t
  | None => ret tt
  end ;;;
  match choices response with
  | c :: _ => ret (Return c)
  | [] => raise (PyExc IndexError "list index out of range")
  end.

(** The [except] clauses, in their order. *)
Definition on_exception (attempt : Z) (e : py_exception)
  : M (loop_step (option string)) :=
  match exc_cls e with
  | RateLimitError =>
      if attempt <? max_retries - 1
      then sleep (2 ^ attempt) ;;; ret Continue
      else ret (Return None)
  | APITimeoutError =>
      if attempt <? max_retries - 1
      then sleep 1 ;;; ret Continue
      else ret (Return None)
  | c =>
      if is_APIError c then
        if attempt <? max_retries - 1
        then sleep 1 ;;; ret Continue
        else ret (Return None)
      else ret (Return None)
  end.

(** [for attempt in range(self.max_retries): ...] with [remaining] turns
    left, then the final [return None]. *)
Fixpoint attempts (remaining : nat) (attempt : Z) (messages : list message)
    (temperature : Q) (max_tokens : Z) : M (option string) :=
  match remaining with
  | O => ret None
  | S remaining' =>
      step <- try_except (attempt_body messages temperature max_tokens)
                         (on_exception attempt) ;;
      match step with
      | Return v => ret v
      | Continue => attempts remaining' (attempt + 1) messages temperature max_tokens
      end
  end.

Definition _call_llm (messages : list message) (temperature : Q) (max_tokens : Z)
  : M (option string) :=
  attempts (Z.to_nat max_retries) 0 messages temperature max_tokens.

Definition categorize_email (email_content categorization_prompt : string)
  : M (option string) :=
  emit (EvLLM (OpCategorize email_content categorization_prompt)) ;;;
  prompt <- lift (PyFormat.format rt categorization_prompt email_content) ;;
  let messages :=
    [ {| role := "system";
         content := "You are an email classification expert. Respond with ONLY the category name." |};
      {| role := "user"; content := prompt |} ] in
  response <- _call_llm messages Config.CATEGORIZATION_TEMPERATURE 50 ;;
  ret (Interpret.category_of_response response).

Definition extract_action_items (email_content action_prompt : string)
  : M (list json) :=
  emit (EvLLM (OpExtract email_content action_prompt)) ;;;
  prompt <- lift (PyFormat.format rt action_prompt email_content) ;;
  let messages :=
    [ {| role := "system";
         content := "You are an expert at extracting actionable tasks from emails. Always respond with valid JSON." |};
      {| role := "user"; content := prompt |} ] in
  response <- _call_llm messages Config.ACTION_EXTRACTION_TEMPERATURE 500 ;;
  lift (Interpret.action_items_of_response rt response).

Definition generate_reply (email_content context reply_prompt : string)
    (user_instruction : option string) : M (option string) :=
  emit (EvLLM (OpReply email_content reply_prompt)) ;;;
  prompt <- lift (PyFormat.format rt reply_prompt email_content) ;;
  let prompt :=
    match user_instruction with
    | Some i => if PyStr.truthy i
                then prompt +:+ "

Additional Instructions: " +:+ i
                else prompt
    | None => prompt
    end in
  let messages :=
    [ {| role := "system";
         content := "You are a professional email assistant. Write clear, concise, and appropriate email responses." |};
      {| role := "user"; content := prompt |} ] in
  _call_llm messages Config.DRAFT_GENERATION_TEMPERATURE 800.

Definition answer_system_prompt : string :=
  "You are an intelligent email productivity assistant. "
  +:+ "Help users manage their inbox, understand emails, and draft responses. "
  +:+ "Be concise, helpful, and professional. "
  +:+ "If you reference specific emails, cite them clearly.".

(** The text of the final user message of [answer_query]. *)
Definition full_query (query : string) (email_context prompt_context : option string)
  : string :=
  let q :=
    match email_context with
    | Some c => if PyStr.truthy c
                then "Email Context:
" +:+ c +:+ "

User Query: " +:+ query
                else query
    | None => query
    end in
  match prompt_context with
  | Some c => if PyStr.truthy c
              then q +:+ "

Prompt Configuration: " +:+ c
              else q
  | None => q
  end.

(** An absent [conversation_history] and an empty one are both falsy and
    are both the empty list here. *)
Definition answer_query (query : string) (email_context prompt_context : option string)
    (conversation_history : list message) : M (option string) :=
  emit (EvLLM (OpAnswer query email_context conversation_history)) ;;;
  let messages :=
    [ {| role := "system"; content := answer_system_prompt |} ]
    ++ last_n Config.MAX_CONVERSATION_HISTORY conversation_history
    ++ [ {| role := "user"; content := full_query query email_context prompt_context |} ] in
  _call_llm messages Config.AGENT_RESPONSE_TEMPERATURE 1000.

End Service.
End LLMService.

(** ** [backend/ollama_service.py]: the local provider *)

Module OllamaService.
Section Service.

Context (rt : PyRuntime).

(** [self.max_retries = 3] *)
Definition max_retries : Z := 3.

Definition _messages_to_prompt (messages : list message) : string :=
  let part (msg : message) : list string :=
    if String.eqb (role msg) "system" then ["System: " +:+ content msg +:+ "
"]
    else if String.eqb (role msg) "user" then ["User: " +:+ content msg +:+ "
"]
    else if String.eqb (role msg) "assistant" then ["Assistant: " +:+ content msg +:+ "
"]
    else [] in
  PyStr.join "
" (concat (map part messages) ++ ["Assistant: "]).

(** [requests.post(url, json=payload, timeout=self.timeout)], the payload
    holding the prompt, the temperature and [num_predict]. *)
Definition post (prompt : string) (temperature : Q) (max_tokens : Z)
  : M (Z * option string) :=
  emit (EvPost prompt temperature max_tokens) ;;;
  (fun w =>
     let w1 := set_backend_calls w (S (backend_calls w)) in
     match ollama_script w (backend_calls w) with
     | OllamaResponds code text => (Ret (code, text), w1)
     | OllamaRaises e => (Exc e, w1)
     end).

(** The float [1.3]: the binary64 number nearest to 13/10,
    5854679515581645 * 2^-52. *)
Definition float_1_3 : spec_float := S754_finite false 5854679515581645 (-52).

(** [float(n)] as Python converts the left operand of [n * 1.3]: the
    binary64 number nearest to [n], ties to even ([len] is below 2^63, far
    from the range where the conversion fails). *)
Definition float_of_int (n : Z) : spec_float := binary_normalize 53 1024 n 0 false.

(** [self.total_tokens_used += len(content.split()) * 1.3], in binary64
    arithmetic. *)
Definition add_estimate (content : string) : M unit :=
  fun w =>
    (Ret tt,
     set_ollama_tokens w
       (SFadd 53 1024 (ollama_total_tokens_used w)
          (SFmul 53 1024 (float_of_int (Z.of_nat (PyStr.count_words false content)))
             float_1_3))).

Definition attempt_body (prompt : string) (temperature : Q)
    (max_tokens : Z) : M (loop_step (option string)) :=
  response <- post prompt temperature max_tokens ;;
  let '(status_code, text) := response in
  if status_code =? 200 then
    match text with
    | Some content => add_estimate content ;;; ret (Return (Some content))
    | None => raise (PyExc ValueError "response body cannot be read")
    end
  else if status_code =? 404 then ret (Return None)
  else ret Continue.

Definition on_exception (attempt : Z) (e : py_exception)
  : M (loop_step (option string)) :=
  if is_requests_ConnectionError (exc_cls e) then
    if attempt <? max_retries - 1
    then sleep 2 ;;; ret Continue
    else ret (Return None)
  else if is_requests_Timeout (exc_cls e) then
    if attempt <? max_retries - 1
    then sleep 1 ;;; ret Continue
    else ret (Return None)
  else ret (Return None).

Fixpoint attempts (remaining : nat) (attempt : Z) (prompt : string)
    (temperature : Q) (max_tokens : Z) : M (option string) :=
  match remaining with
  | O => ret None
  | S remaining' =>
      step <- try_except (attempt_body prompt temperature max_tokens)
                         (on_exception attempt) ;;
      match step with
      | Return v => ret v
      | Continue => attempts remaining' (attempt + 1) prompt temperature max_tokens
      end
  end.

Definition _call_llm (messages : list message) (temperature : Q) (max_tokens : Z)
  : M (option string) :=
  let prompt := _messages_to_prompt messages in
  attempts (Z.to_nat max_retries) 0 prompt temperature max_tokens.

Definition categorize_email (email_content categorization_prompt : string)
  : M (option string) :=
  emit (EvLLM (OpCategorize email_content categorization_prompt)) ;;;
  let prompt := PyStr.replace categorization_prompt "{email_content}" email_content in
  let messages :=
    [ {| role := "system";
         content := "You are an email classification expert. Respond with ONLY the category name." |};
      {| role := "user"; content := prompt |} ] in
  response <- _call_llm messages (3 # 10) 50 ;;
  ret (Interpret.category_of_response response).

Definition extract_action_items (email_content action_prompt : string)
  : M (list json) :=
  emit (EvLLM (OpExtract email_content action_prompt)) ;;;
  let prompt := PyStr.replace action_prompt "{email_content}" email_content in
  let messages :=
    [ {| role := "system";
         content := "You are an expert at extracting actionable tasks from emails. Always respond with valid JSON." |};
      {| role := "user"; content := prompt |} ] in
  response <- _call_llm messages (5 # 10) 500 ;;
  lift (Interpret.action_items_of_response rt response).

Definition generate_reply (email_content context reply_prompt : string)
    (user_instruction : option string) : M (option string) :=
  emit (EvLLM (OpReply email_content reply_prompt)) ;;;
  let prompt := PyStr.replace reply_prompt "{email_content}" email_content in
  let prompt :=
    match user_instruction with
    | Some i => if PyStr.truthy i
                then prompt +:+ "

Additional Instructions: " +:+ i
                else prompt
    | None => prompt
    end in
  let messages :=
    [ {| role := "system";
         content := "You are a professional email assistant. Write clear, concise, and appropriate email responses." |};
      {| role := "user"; content := prompt |} ] in
  _call_llm messages (8 # 10) 800.

Definition answer_query (query : string) (email_context prompt_context : option string)
    (conversation_history : list message) : M (option string) :=
  emit (EvLLM (OpAnswer query email_context conversation_history)) ;;;
  let messages :=
    [ {| role := "system"; content := LLMService.answer_system_prompt |} ]
    ++ last_n 5 conversation_history
    ++ [ {| role := "user";
            content := LLMService.full_query query email_context prompt_context |} ] in
  _call_llm messages (7 # 10) 1000.

End Service.
End OllamaService.

(** ** [backend/unified_llm_service.py] *)

Module UnifiedLLMService.

(** [__init__]: the provider named by [config.LLM_PROVIDER], or
    [ValueError] for any other name. *)
Definition select (llm_provider : string) : result provider :=
  if String.eqb llm_provider "ollama" then Ret Ollama
  else if String.eqb llm_provider "openai" then Ret OpenAI
  else Exc (PyExc ValueError ("Unknown LLM provider: " +:+ llm_provider)).

Section Service.

Context (rt : PyRuntime) (max_retries : Z).
(** [self.service], chosen once at construction. *)
Context (service : provider).

Definition categorize_email (email_content categorization_prompt : string)
  : M (option string) :=
  match service with
  | Ollama => OllamaService.categorize_email email_content categorization_prompt
  | OpenAI => LLMService.categorize_email rt max_retries email_content categorization_prompt
  end.

Definition extract_action_items (email_content action_prompt : string)
  : M (list json) :=
  match service with
  | Ollama => OllamaService.extract_action_items rt email_content action_prompt
  | OpenAI => LLMService.extract_action_items rt max_retries email_content action_prompt
  end.

Definition generate_reply (email_content context reply_prompt : string)
    (user_instruction : option string) : M (option string) :=
  match service with
  | Ollama => OllamaService.generate_reply email_content context reply_prompt user_instruction
  | OpenAI => LLMService.generate_reply rt max_retries email_content context reply_prompt
                user_instruction
  end.

Definition answer_query (query : string) (email_context prompt_context : option string)
    (conversation_history : list message) : M (option string) :=
  match service with
  | Ollama => OllamaService.answer_query query email_context prompt_context conversation_history
  | OpenAI => LLMService.answer_query max_retries query email_context prompt_context
                conversation_history
  end.

End Service.
End UnifiedLLMService.

(** ** [backend/email_processor.py]: the processing pipeline *)

(** Truthiness of an optional text: [None] and the empty text are falsy. *)
Definition truthy_opt (o : option string) : bool :=
  match o with Some s => PyStr.truthy s | None => false end.

(** [f"From: {email.sender}\nSubject: {email.subject}\n\n{email.body}"] *)
Definition email_content_of (email : Email) : string :=
  "From: " +:+ sender email +:+ "
Subject: " +:+ subject email +:+ "

" +:+ body email.

(** The dictionary returned by [batch_process_emails]. *)
Record batch_results := {
  total : nat;
  successful : nat;
  failed : nat;
  errors : list string
}.

Module EmailProcessor.
Section Pipeline.

Context (rt : PyRuntime) (max_retries : Z) (service : provider).

Definition _log_processing (email_id : Z) (operation status : string)
    (llm_response error : option string) : M unit :=
  let log := {| log_email_id := email_id; operation := operation;
                status := status; llm_response := llm_response;
                error_message := error |} in
  try_except (Db.insert_log log) (fun _ => ret tt).

Definition _categorize_email (email : Email) : M (option string) :=
  prompt_obj <- Db.get_prompt "categorization" ;;
  match prompt_obj with
  | None => ret None
  | Some p =>
      category <- UnifiedLLMService.categorize_email rt max_retries service
                    (email_content_of email) (prompt_text p) ;;
      (if truthy_opt category
       then _log_processing (email_id_of email) "categorization" "success" category None
       else _log_processing (email_id_of email) "categorization" "failed" None
              (Some "LLM returned no category")) ;;;
      ret category
  end.

Definition _extract_action_items (email : Email) : M (list json) :=
  prompt_obj <- Db.get_prompt "action_extraction" ;;
  match prompt_obj with
  | None => ret []
  | Some p =>
      action_items <- UnifiedLLMService.extract_action_items rt max_retries service
                        (email_content_of email) (prompt_text p) ;;
      match action_items with
      | _ :: _ =>
          _log_processing (email_id_of email) "action_extraction" "success"
            (Some ("Found " +:+ pretty (length action_items) +:+ " action items")) None
      | [] =>
          _log_processing (email_id_of email) "action_extraction" "success"
            (Some "No action items found") None
      end ;;;
      ret action_items
  end.

Definition process_email (email_id : Z) : M bool :=
  email <- Db.get_email email_id ;;
  match email with
  | None => ret false
  | Some email =>
      category <- _categorize_email email ;;
      match category with
      | Some c =>
          if PyStr.truthy c then
            action_items <- _extract_action_items email ;;
            try_except
              (Db.update_email email_id (Some c) (Some action_items) (Some true) ;;;
               _log_processing email_id "complete_processing" "success"
                 (Some ("Category: " +:+ c +:+ ", Actions: "
                        +:+ pretty (length action_items))) None ;;;
               ret true)
              (fun e =>
                 _log_processing email_id "database_update" "failed" None
                   (Some (exc_str e)) ;;;
                 ret false)
          else
            _log_processing email_id "categorization" "failed" None
              (Some "LLM categorization failed") ;;;
            ret false
      | None =>
          _log_processing email_id "categorization" "failed" None
            (Some "LLM categorization failed") ;;;
          ret false
      end
  end.

(** One turn of the loop of [batch_process_emails]. *)
Definition batch_step (results : batch_results) (email_id : Z) : M batch_results :=
  try_except
    (ok <- process_email email_id ;;
     if ok : bool then
       ret {| total := total results; successful := S (successful results);
              failed := failed results; errors := errors results |}
     else
       ret {| total := total results; successful := successful results;
              failed := S (failed results);
              errors := errors results
                        ++ ["Email " +:+ pretty email_id +:+ " processing failed"] |})
    (fun e =>
       ret {| total := total results; successful := successful results;
              failed := S (failed results);
              errors := errors results
                        ++ ["Email " +:+ pretty email_id +:+ ": " +:+ exc_str e] |}).

Fixpoint batch_loop (email_ids : list Z) (results : batch_results) : M batch_results :=
  match email_ids with
  | [] => ret results
  | email_id :: rest =>
      results' <- batch_step results email_id ;;
      batch_loop rest results'
  end.

Definition batch_process_emails (email_ids : list Z) : M batch_results :=
  batch_loop email_ids
    {| total := length email_ids; successful := 0; failed := 0; errors := [] |}.

End Pipeline.
End EmailProcessor.

(** ** [backend/agent_logic.py]: the query router *)

Module EmailAgent.
Section Agent.

Context (rt : PyRuntime) (max_retries : Z) (service : provider).

Definition fallback : string :=
  "I apologize, but I'm having trouble processing your request. Please try again.".

Definition inbox_keywords : list string :=
  ["show"; "list"; "urgent"; "important"; "all";
   "how many"; "what"; "tasks"; "emails from"].

Definition is_inbox_query (query : string) : bool :=
  let query_lower := PyStr.lower query in
  existsb (fun keyword => PyStr.contains keyword query_lower) inbox_keywords.

Definition _is_inbox_query (query : string) : M bool :=
  emit (EvIsInboxQuery query) ;;; ret (is_inbox_query query).

Definition py_type_name (v : json) : string :=
  match v with
  | JNull => "NoneType" | JBool _ => "bool" | JInt _ => "int"
  | JFloat _ => "float" | JString _ => "str" | JArray _ => "list"
  | JObject _ => "dict"
  end.

(** [item.get(key, default)]: defined on a [dict] only. *)
Definition item_get (item : json) (key : string) (default : json) : result json :=
  match item with
  | JObject fields =>
      match find (fun kv => String.eqb (fst kv) key) fields with
      | Some kv => Ret (snd kv)
      | None => Ret default
      end
  | _ => Exc (PyExc AttributeError
                ("'" +:+ py_type_name item +:+ "' object has no attribute 'get'"))
  end.

(** [str(v)] inside an f-string. *)
Definition py_str (v : json) : string :=
  match v with
  | JString s => s
  | JNull => "None"
  | JBool true => "True"
  | JBool false => "False"
  | JInt n => pretty n
  | _ => str_beyond rt v
  end.

(** [str(email.timestamp)]: the ISO text with a blank for the [T]. *)
Definition str_datetime (iso : string) : string := PyStr.replace iso "T" " ".

(** [x or default] on an optional text. *)
Definition or_default (o : option string) (default : string) : string :=
  match o with
  | Some s => if PyStr.truthy s then s else default
  | None => default
  end.

Fixpoint task_lines (items : list json) : result (list string) :=
  match items with
  | [] => Ret []
  | item :: rest =>
      match item_get item "task" (JString "Unknown") with
      | Ret t =>
          match task_lines rest with
          | Ret ls => Ret (("  - " +:+ py_str t) :: ls)
          | Exc e => Exc e
          end
      | Exc e => Exc e
      end
  end.

Definition _build_email_context (email : Email) : result string :=
  let context_parts :=
    [ "Email ID: " +:+ pretty (email_id_of email);
      "From: " +:+ sender email;
      "Subject: " +:+ subject email;
      "Date: " +:+ str_datetime (timestamp email);
      "Category: " +:+ or_default (category email) "Uncategorized";
      "
Content:
" +:+ body email ] in
  match action_items email with
  | [] => Ret (PyStr.join "
" context_parts)
  | items =>
      match task_lines items with
      | Ret ls =>
          Ret (PyStr.join "
" (context_parts
              ++ ["
Action Items: " +:+ pretty (length items)] ++ ls))
      | Exc e => Exc e
      end
  end.

(** [categories[cat] = categories.get(cat, 0) + 1] on a dictionary kept
    in insertion order. *)
Fixpoint count_up (cat : string) (categories : list (string * nat))
  : list (string * nat) :=
  match categories with
  | [] => [(cat, 1%nat)]
  | (k, v) :: rest =>
      if String.eqb k cat then (k, S v) :: rest else (k, v) :: count_up cat rest
  end.

Definition _build_inbox_context (query : string) : M string :=
  all_emails <- Db.get_all_emails 100 ;;
  match all_emails with
  | [] => ret "Inbox is empty."
  | _ =>
      let categories :=
        fold_left (fun acc email => count_up (or_default (category email) "Uncategorized") acc)
                  all_emails [] in
      let total_actions :=
        fold_left (fun acc email => (acc + length (action_items email))%nat) all_emails 0%nat in
      let context_parts :=
        [ "Total Emails: " +:+ pretty (length all_emails);
          "Categories: "
            +:+ PyStr.join ", " (map (fun kv => fst kv +:+ ": " +:+ pretty (snd kv)) categories);
          "Total Action Items: " +:+ pretty total_actions;
          "
Recent Emails:" ]
        ++ map (fun email => "  - [" +:+ or_default (category email) "N/A" +:+ "] "
                             +:+ subject email +:+ " from " +:+ sender email)
               (take 5 all_emails) in
      ret (PyStr.join "
" context_parts)
  end.

(** [if selected_email_id:] holds for an id that is given and is not 0;
    the result is that id. *)
Definition truthy_id (selected_email_id : option Z) : option Z :=
  match selected_email_id with
  | Some id => if id =? 0 then None else Some id
  | None => None
  end.

(** The history handed to the model: the last five messages, when a
    non-empty history is given. *)
Definition recent_messages (conversation_history : option (list AgentMessage))
  : list message :=
  match conversation_history with
  | Some (m :: l) =>
      map (fun msg => {| role := msg_role msg; content := msg_content msg |})
          (last_n 5 (m :: l))
  | _ => []
  end.

Definition handle_query (user_query : string) (selected_email_id : option Z)
    (conversation_history : option (list AgentMessage)) : M string :=
  let messages := recent_messages conversation_history in
  email_context <-
    match truthy_id selected_email_id with
    | Some id =>
        email <- Db.get_email id ;;
        match email with
        | Some email => c <- lift (_build_email_context email) ;; ret (Some c)
        | None => ret None
        end
    | None =>
        inbox <- _is_inbox_query user_query ;;
        if inbox : bool
        then (c <- _build_inbox_context user_query ;; ret (Some c))
        else ret None
    end ;;
  response <- UnifiedLLMService.answer_query max_retries service
                user_query email_context None messages ;;
  match response with
  | Some r => if PyStr.truthy r then ret r else ret fallback
  | None => ret fallback
  end.

Definition summary_query : string :=
  "Please provide a concise summary of this email in 2-3 sentences.".

Definition summarize_email (email_id : Z) : M string :=
  email <- Db.get_email email_id ;;
  match email with
  | None => ret "Email not found."
  | Some email =>
      email_context <- lift (_build_email_context email) ;;
      response <- UnifiedLLMService.answer_query max_retries service
                    summary_query (Some email_context) None [] ;;
      ret (or_default response "Unable to generate summary.")
  end.

End Agent.
End EmailAgent.

(** * The vocabulary of the statements *)

(** [stays P m]: running [m] leaves the [emails] table as it was and adds to
    the trace only events that satisfy [P]. *)
Definition stays {A} (P : event -> Prop) (m : M A) : Prop :=
  forall w,
    emails (w_db (m w).2) = emails (w_db w)
    /\ exists evs, trace (m w).2 = trace w ++ evs /\ Forall P evs.

(** The events of a provider's transport: a backend invocation or a sleep. *)
Definition transport_event (e : event) : Prop :=
  match e with
  | EvCreate _ _ _ | EvPost _ _ _ | EvSleep _ => True
  | _ => False
  end.

(** The events of a categorization: the provider operation and its
    transport. *)
Definition categorize_event (e : event) : Prop :=
  match e with
  | EvCreate _ _ _ | EvPost _ _ _ | EvSleep _ | EvLLM (OpCategorize _ _) => True
  | _ => False
  end.

Definition extract_event (e : event) : Prop :=
  match e with
  | EvCreate _ _ _ | EvPost _ _ _ | EvSleep _ | EvLLM (OpExtract _ _) => True
  | _ => False
  end.

Definition answer_event (e : event) : Prop :=
  match e with
  | EvCreate _ _ _ | EvPost _ _ _ | EvSleep _ | EvLLM (OpAnswer _ _ _) => True
  | _ => False
  end.

(** The events of a run that neither extracts tasks nor updates an Item. *)
Definition no_extract_no_update (e : event) : Prop :=
  match e with
  | EvLLM (OpExtract _ _) => False
  | EvDb (DbUpdateEmail _ _ _ _) => False
  | _ => True
  end.

(** The events of a run that does not look an Item up. *)
Definition no_lookup (e : event) : Prop :=
  match e with
  | EvDb (DbGetEmail _) => False
  | _ => True
  end.

(** The transport events of [n] attempts of which none succeeds and all are
    retried: [n] invocations [call], with a sleep of [delay attempt] seconds
    between one attempt and the next. *)
Fixpoint retry_trace (call : event) (delay : Z -> Z) (n : nat) (attempt : Z) : list event :=
  match n with
  | O => []
  | S n' =>
      call :: match n' with
              | O => []
              | S _ => EvSleep (delay attempt) :: retry_trace call delay n' (attempt + 1)
              end
  end.

(** The seconds slept after a failed attempt that is retried. *)
Definition backoff_delay (c : exc_class) (attempt : Z) : Z :=
  match c with
  | RateLimitError => 2 ^ attempt
  | _ => 1
  end.

(** The backend invocations and the sleeps of a list of events. *)
Definition calls_of (evs : list event) : list event :=
  omap (fun e => match e with
               | EvCreate _ _ _ | EvPost _ _ _ => Some e
               | _ => None
               end) evs.

Definition sleeps_of (evs : list event) : list Z :=
  omap (fun e => match e with EvSleep s => Some s | _ => None end) evs.

(** A text made of white space only; the first and the last character of a
    text. *)
Fixpoint all_space (s : string) : bool :=
  match s with
  | EmptyString => true
  | String c r => PyStr.is_space c && all_space r
  end.

Definition first_char (s : string) : option ascii :=
  match s with
  | EmptyString => None
  | String c _ => Some c
  end.

Fixpoint last_char (s : string) : option ascii :=
  match s with
  | EmptyString => None
  | String c EmptyString => Some c
  | String _ r => last_char r
  end.

(** [name] occurs in the lower-cased [text] in lower case. *)
Definition occurs_in (name text : string) : Prop :=
  exists a b, PyStr.lower text = a +:+ PyStr.lower name +:+ b.

(** White space, character by character: the code points below 256 that
    Python's [str.strip()] removes, TAB, LF, VT, FF, CR, FS, GS, RS, US,
    SPACE, NEL and NBSP. *)
Definition white_space (c : ascii) : Prop :=
  In (N_of_ascii c) [9; 10; 11; 12; 13; 28; 29; 30; 31; 32; 133; 160]%N.

(** A text made of white space only, and a text that neither starts nor
    ends with white space. *)
Fixpoint blank (s : string) : Prop :=
  match s with
  | EmptyString => True
  | String c r => white_space c /\ blank r
  end.

Definition trimmed (t : string) : Prop :=
  (forall c, first_char t = Some c -> ~ white_space c)
  /\ (forall c, last_char t = Some c -> ~ white_space c).

(** The capital letters below 256: A to Z, and the Latin-1 capitals (0xC0 to
    0xDE without the multiplication sign); the small letter of each lies 32
    code points higher. *)
Definition capital (n : N) : Prop :=
  (65 <= n <= 90 \/ (192 <= n <= 222 /\ n <> 215))%N.

(** Two characters that are equal up to letter case, and two texts that
    are equal up to letter case, character by character. *)
Definition same_letter (a b : ascii) : Prop :=
  N_of_ascii a = N_of_ascii b
  \/ (capital (N_of_ascii a) /\ N_of_ascii b = (N_of_ascii a + 32)%N)
  \/ (capital (N_of_ascii b) /\ N_of_ascii a = (N_of_ascii b + 32)%N).

Fixpoint same_text (s t : string) : Prop :=
  match s, t with
  | EmptyString, EmptyString => True
  | String a s', String b t' => same_letter a b /\ same_text s' t'
  | _, _ => False
  end.

(** [name] is named in [text]: some part of the text reads as the name up
    to letter case. *)
Definition named_in (name text : string) : Prop :=
  exists a m b, text = a +:+ m +:+ b /\ same_text m name.

(** What the task-list interpreter makes of the text handed to the parser:
    the array it decodes to; the empty list when it decodes to another value
    or is no JSON; the exception of the parser when that is no
    [JSONDecodeError]. *)
Definition decoded_array (rt : PyRuntime) (json_str : string) : result (list json) :=
  match json_loads rt json_str with
  | Ret (JArray items) => Ret items
  | Ret _ => Ret []
  | Exc e => if is_JSONDecodeError (exc_cls e) then Ret [] else Exc e
  end.

(** [emits P m]: running [m] adds to the trace only events that satisfy
    [P] (whatever it does to the store). *)
Definition emits {A} (P : event -> Prop) (m : M A) : Prop :=
  forall w, exists evs, trace (m w).2 = trace w ++ evs /\ Forall P evs.

(** The Item lookups of a list of events, in order. *)
Definition lookups_of (evs : list event) : list Z :=
  omap (fun e => match e with EvDb (DbGetEmail id) => Some id | _ => None end) evs.

(** The outcome of each item of a batch, the items being run one after the
    other from the world [w]. *)
Fixpoint item_outcomes (rt : PyRuntime) (max_retries : Z) (service : provider)
    (email_ids : list Z) (w : World) : list (result bool) :=
  match email_ids with
  | [] => []
  | email_id :: rest =>
      let '(r, w1) := EmailProcessor.process_email rt max_retries service email_id w in
      r :: item_outcomes rt max_retries service rest w1
  end.

(** An item fails when its processing returns False or raises. *)
Definition item_failed (r : result bool) : bool :=
  match r with
  | Ret true => false
  | _ => true
  end.

(** The number of failed items among the outcomes of a batch. *)
Fixpoint count_failed (outcomes : list (result bool)) : nat :=
  match outcomes with
  | [] => 0
  | r :: rest => ((if item_failed r then 1 else 0) + count_failed rest)%nat
  end.

(** A decoded value that is a [dict]. *)
Definition is_object (v : json) : Prop :=
  match v with JObject _ => True | _ => False end.

(** The contexts handed to the answer operation by a list of events. *)
Definition answer_contexts (evs : list event) : list (option string) :=
  omap (fun e => match e with EvLLM (OpAnswer _ c _) => Some c | _ => None end) evs.

(** What [get_email] answers in a store: the row found; none for an id
    that can be bound and finds no row; [OverflowError] for any other. *)
Definition looked_up (db : Database) (email_id : Z) : result (option Email) :=
  match emails db !! email_id with
  | Some email => Ret (Some email)
  | None => if Db.int64 email_id then Ret None else Exc Db.too_large
  end.

(** ** The vocabulary of the further properties *)

(** The seconds the local provider sleeps after a failed request that it
    retries. *)
Definition ollama_backoff (c : exc_class) : Z :=
  if is_requests_ConnectionError c then 2 else 1.

(** An exception of [requests] that the local provider retries: a
    connection error or a timeout. *)
Definition retried_by_ollama (e : py_exception) : Prop :=
  is_requests_ConnectionError (exc_cls e) || is_requests_Timeout (exc_cls e) = true.

(** The transport events of failed attempts that are all retried: each
    invocation [call] is followed by the sleep that its exception earns at
    its attempt. *)
Fixpoint failed_attempts (call : event) (delay : exc_class -> Z -> Z)
    (attempt : Z) (es : list py_exception) : list event :=
  match es with
  | [] => []
  | e :: es' =>
      call :: EvSleep (delay (exc_cls e) attempt)
        :: failed_attempts call delay (attempt + 1) es'
  end.

(** [returns m]: a run of [m] returns a value, it does not raise, whatever
    the world it starts in. *)
Definition returns {A} (m : M A) : Prop := forall w, returned (m w).1 = true.

(** The attempts one model call may make: [self.max_retries] of the
    provider in use. *)
Definition attempts_limit (service : provider) (max_retries : Z) : nat :=
  match service with
  | Ollama => Z.to_nat OllamaService.max_retries
  | OpenAI => Z.to_nat max_retries
  end.

(** [calls_within n m]: a run of [m] invokes the backend at most [n] times. *)
Definition calls_within {A} (n : nat) (m : M A) : Prop :=
  forall w, (backend_calls w <= backend_calls (m w).2 <= backend_calls w + n)%nat.

(** [raises_only Q m]: whatever a run of [m] raises satisfies [Q]. *)
Definition raises_only {A} (Q : py_exception -> Prop) (m : M A) : Prop :=
  forall w e, (m w).1 = Exc e -> Q e.

(** An exception that [json.loads] raises on some text and that is no
    [JSONDecodeError]. *)
Definition raised_by_loads (rt : PyRuntime) (e : py_exception) : Prop :=
  exists json_str,
    json_loads rt json_str = Exc e /\ is_JSONDecodeError (exc_cls e) = false.

(** The entry that an item of a batch leaves in the error list: none when
    its processing returned True. *)
Definition error_text (email_id : Z) (outcome : result bool) : option string :=
  match outcome with
  | Ret true => None
  | Ret false => Some ("Email " +:+ pretty email_id +:+ " processing failed")
  | Exc e => Some ("Email " +:+ pretty email_id +:+ ": " +:+ exc_str e)
  end.

(** The error list of a batch run; empty when the run raised. *)
Definition errors_of_run (run : result batch_results * World) : list string :=
  match run.1 with
  | Ret results => errors results
  | Exc _ => []
  end.

Definition batch_errors (ids : list Z) (outcomes : list (result bool)) : list string :=
  omap (fun p => error_text p.1 p.2) (zip ids outcomes).

(** [evolves R m]: whatever a run of [m] does and however it ends, the
    store it leaves is related by [R] to the store it started from. *)
Definition evolves {A} (R : Database -> Database -> Prop) (m : M A) : Prop :=
  forall w, R (w_db w) (w_db (m w).2).

(** Two rows with the same content: all the columns that the pipeline does
    not compute. *)
Definition same_content (e e' : Email) : Prop :=
  email_id_of e' = email_id_of e /\ sender e' = sender e /\ subject e' = subject e
  /\ body e' = body e /\ timestamp e' = timestamp e
  /\ has_attachment e' = has_attachment e.

(** What pipeline runs on the ids in [touched] may do to the store: the
    prompts are as they were, the log has only grown at its end, no row of
    [emails] has appeared or disappeared, every row has kept its content, and
    the rows of the other ids are as they were. *)
Definition pipeline_step (touched : Z -> Prop) (db db' : Database) : Prop :=
  prompts db' = prompts db
  /\ (exists entries, processing_logs db' = processing_logs db ++ entries)
  /\ forall id,
       match emails db !! id, emails db' !! id with
       | None, None => True
       | Some e, Some e' => same_content e e' /\ (~ touched id -> e' = e)
       | _, _ => False
       end.

(** A text without braces. *)
Definition brace_free (s : string) : Prop :=
  PyStr.contains "{" s = false /\ PyStr.contains "}" s = false.

(** The row [a] is not older than the row [b]: its timestamp text does not
    sort before that of [b]. *)
Definition not_older (a b : Email) : Prop :=
  String.compare (timestamp a) (timestamp b) <> Lt.

(** The row [a] comes before the row [b] in the answer of
    [get_all_emails]: its timestamp text sorts after that of [b], or the
    timestamps are equal and its id is not the smaller one. *)
Definition comes_first (a b : Email) : Prop :=
  String.compare (timestamp a) (timestamp b) = Gt
  \/ (timestamp a = timestamp b /\ email_id_of b <= email_id_of a).

(** The label under which the collection context counts an Item. *)
Definition category_label (email : Email) : string :=
  EmailAgent.or_default (category email) "Uncategorized".

(** The number of rows with the label [k]. *)
Fixpoint labelled (k : string) (l : list Email) : nat :=
  match l with
  | [] => 0
  | e :: r => ((if String.eqb (category_label e) k then 1 else 0) + labelled k r)%nat
  end.

(** [categories.get(k, 0)] on a dictionary kept as a list of items. *)
Fixpoint count_of (k : string) (categories : list (string * nat)) : nat :=
  match categories with
  | [] => 0
  | (k', v) :: rest => if String.eqb k' k then v else count_of k rest
  end.

(** * The data of the concrete runs *)

(** ** A decoder for the runs *)

(** [MiniJson.loads] decodes a fragment of JSON: arrays, objects, texts
    without escapes, integers and the three literals.  It raises
    [JSONDecodeError] outside the fragment, and the [ValueError] of the
    interpreter on an integer of more than 4300 digits, when the scan reaches
    it.  It fills the [json_loads] field of the runtime of the runs below; the
    theorems hold for every runtime. *)
Module MiniJson.

Definition invalid {A} : result A := Exc (PyExc JSONDecodeError "Expecting value").

(** [sys.get_int_max_str_digits()] *)
Definition int_max_str_digits : nat := 4300.

Definition too_many_digits {A} (n : nat) : result A :=
  Exc (PyExc ValueError
         ("Exceeds the limit (4300 digits) for integer string conversion: value has "
          +:+ pretty n
          +:+ " digits; use sys.set_int_max_str_digits() to increase the limit")).

Definition quote_char : ascii := ascii_of_N 34.
Definition backslash_char : ascii := ascii_of_N 92.

Definition is_ws (c : ascii) : bool :=
  let n := N_of_ascii c in ((n =? 32) || (n =? 9) || (n =? 10) || (n =? 13))%N.

Fixpoint skip_ws (s : string) : string :=
  match s with
  | EmptyString => EmptyString
  | String c r => if is_ws c then skip_ws r else s
  end.

(** The text up to the closing quote, and what follows the quote. *)
Fixpoint string_body (s : string) : option (string * string) :=
  match s with
  | EmptyString => None
  | String c r =>
      if Ascii.eqb c quote_char then Some (EmptyString, r)
      else if Ascii.eqb c backslash_char || (N_of_ascii c <? 32)%N then None
      else match string_body r with
           | Some (t, rest) => Some (String c t, rest)
           | None => None
           end
  end.

Fixpoint digits (s : string) : string * string :=
  match s with
  | EmptyString => (EmptyString, EmptyString)
  | String c r =>
      if PyFormat.is_digit c
      then let '(ds, rest) := digits r in (String c ds, rest)
      else (EmptyString, s)
  end.

Definition integer (s : string) : result (json * string) :=
  let '(negative, s1) :=
    match s with
    | String c r => if Ascii.eqb c "-" then (true, r) else (false, s)
    | EmptyString => (false, s)
    end in
  let '(ds, rest) := digits s1 in
  let fraction :=
    match rest with
    | String c _ => Ascii.eqb c "." || Ascii.eqb c "e" || Ascii.eqb c "E"
    | EmptyString => false
    end in
  let number :=
    if (int_max_str_digits <? String.length ds)%nat
    then too_many_digits (String.length ds)
    else Ret (JInt ((if negative then -1 else 1) * PyFormat.decimal_value 0 ds), rest) in
  match ds with
  | EmptyString => invalid
  | String d (String _ _) =>
      if Ascii.eqb d "0" || fraction then invalid else number
  | _ =>
      if fraction then invalid else number
  end.

(** [d[k] = v] on a dictionary kept as a list of items. *)
Fixpoint set_item (k : string) (v : json) (d : list (string * json)) : list (string * json) :=
  match d with
  | [] => [(k, v)]
  | (k', v') :: rest =>
      if String.eqb k' k then (k', v) :: rest else (k', v') :: set_item k v rest
  end.

Definition literal (name : string) (v : json) (s : string) : result (json * string) :=
  if String.prefix name s
  then Ret (v, String.substring (String.length name) (String.length s) s)
  else invalid.

Fixpoint value (fuel : nat) (s : string) {struct fuel} : result (json * string) :=
  match fuel with
  | O => invalid
  | S fuel' =>
      match skip_ws s with
      | EmptyString => invalid
      | String c r =>
          if Ascii.eqb c "[" then
            match skip_ws r with
            | String c2 r2 =>
                if Ascii.eqb c2 "]" then Ret (JArray [], r2)
                else match elements fuel' r [] with
                     | Ret (items, rest) => Ret (JArray items, rest)
                     | Exc e => Exc e
                     end
            | EmptyString => invalid
            end
          else if Ascii.eqb c "{" then
            match skip_ws r with
            | String c2 r2 =>
                if Ascii.eqb c2 "}" then Ret (JObject [], r2)
                else match members fuel' r [] with
                     | Ret (fields, rest) => Ret (JObject fields, rest)
                     | Exc e => Exc e
                     end
            | EmptyString => invalid
            end
          else if Ascii.eqb c quote_char then
            match string_body r with
            | Some (t, rest) => Ret (JString t, rest)
            | None => invalid
            end
          else if Ascii.eqb c "n" then literal "null" JNull (String c r)
          else if Ascii.eqb c "t" then literal "true" (JBool true) (String c r)
          else if Ascii.eqb c "f" then literal "false" (JBool false) (String c r)
          else integer (String c r)
      end
  end
with elements (fuel : nat) (s : string) (acc : list json) {struct fuel}
  : result (list json * string) :=
  match fuel with
  | O => invalid
  | S fuel' =>
      match value fuel' s with
      | Ret (v, r) =>
          match skip_ws r with
          | String c r' =>
              if Ascii.eqb c "," then elements fuel' r' (acc ++ [v])
              else if Ascii.eqb c "]" then Ret (acc ++ [v], r')
              else invalid
          | EmptyString => invalid
          end
      | Exc e => Exc e
      end
  end
with members (fuel : nat) (s : string) (acc : list (string * json)) {struct fuel}
  : result (list (string * json) * string) :=
  match fuel with
  | O => invalid
  | S fuel' =>
      match skip_ws s with
      | String c r =>
          if Ascii.eqb c quote_char then
            match string_body r with
            | Some (k, r1) =>
                match skip_ws r1 with
                | String c1 r2 =>
                    if Ascii.eqb c1 ":" then
                      match value fuel' r2 with
                      | Ret (v, r3) =>
                          match skip_ws r3 with
                          | String c3 r4 =>
                              if Ascii.eqb c3 "," then members fuel' r4 (set_item k v acc)
                              else if Ascii.eqb c3 "}" then Ret (set_item k v acc, r4)
                              else invalid
                          | EmptyString => invalid
                          end
                      | Exc e => Exc e
                      end
                    else invalid
                | EmptyString => invalid
                end
            | None => invalid
            end
          else invalid
      | EmptyString => invalid
      end
  end.

Definition loads (s : string) : result json :=
  match value (S (2 * String.length s)) s with
  | Ret (v, rest) =>
      match skip_ws rest with
      | EmptyString => Ret v
      | _ => invalid
      end
  | Exc e => Exc e
  end.

End MiniJson.

(** The double quote, to write JSON texts. *)
Definition dq : string := String MiniJson.quote_char EmptyString.

(** The runtime of the runs below.  The runs never reach [format_beyond]
    and [str_beyond]; [repr_str] is [repr] on a text without quotes or
    escapes. *)
Definition example_runtime : PyRuntime :=
  {| json_loads := MiniJson.loads;
     format_beyond := fun _ _ => Exc (PyExc ValueError "format spec");
     str_beyond := fun _ => "<object>";
     repr_str := fun s => "'" +:+ s +:+ "'" |}.

(** ** The store and the backends of the runs *)

Definition email1 : Email :=
  {| email_id_of := 1; sender := "ann@example.com"; subject := "Report";
     body := "Please send the report by Friday.";
     timestamp := "2025-11-24T10:00:00"; has_attachment := false;
     category := None; action_items := []; processed := false |}.

Definition email2 : Email :=
  {| email_id_of := 2; sender := "bob@example.com"; subject := "Budget";
     body := "The budget needs your review.";
     timestamp := "2025-11-25T09:30:00"; has_attachment := true;
     category := Some "Important";
     action_items := [JObject [("task", JString "Review budget")]];
     processed := true |}.

Definition categorization_prompt : Prompt :=
  {| prompt_type := "categorization";
     prompt_text := "Categorize this email: {email_content}";
     is_active := true |}.

(** An extraction template that shows the model the JSON it is to answer. *)
Definition json_template : string :=
  "List the tasks as JSON, like [{" +:+ dq +:+ "task" +:+ dq +:+ ": " +:+ dq +:+ "..."
  +:+ dq +:+ "}], for this email: {email_content}".

Definition extraction_prompt : Prompt :=
  {| prompt_type := "action_extraction"; prompt_text := json_template;
     is_active := true |}.

Definition store : Database :=
  {| emails := {[ 1 := email1; 2 := email2 ]};
     prompts := {[ "categorization" := categorization_prompt;
                   "action_extraction" := extraction_prompt ]};
     processing_logs := [] |}.

Definition world (db : Database) (openai : nat -> openai_reply)
    (ollama : nat -> ollama_reply) : World :=
  {| w_db := db; write_fails := fun _ => None; db_writes := 0;
     openai_script := openai; ollama_script := ollama;
     backend_calls := 0; total_tokens_used := 0;
     ollama_total_tokens_used := S754_zero false; trace := [] |}.

Definition openai_rate_limited : nat -> openai_reply :=
  fun _ => OpenAIRaises (PyExc RateLimitError "Rate limit reached").

Definition openai_bad_request : nat -> openai_reply :=
  fun _ => OpenAIRaises (PyExc BadRequestError "Invalid request").

Definition openai_answers (text : string) : nat -> openai_reply :=
  fun _ => OpenAIReturns {| choices := [Some text]; usage := Some 12 |}.

(** A local model that names a category, then lists one task. *)
Definition ollama_tasks : nat -> ollama_reply :=
  fun n =>
    match n with
    | O => OllamaResponds 200 (Some "This looks Important to me")
    | _ => OllamaResponds 200
             (Some ("Sure, here you go: [{" +:+ dq +:+ "task" +:+ dq +:+ ": "
                    +:+ dq +:+ "Reply" +:+ dq +:+ "}] thanks!"))
    end.

(** A local model that names a category, then lists its task as a text. *)
Definition ollama_text_tasks : nat -> ollama_reply :=
  fun n =>
    match n with
    | O => OllamaResponds 200 (Some "To-Do")
    | _ => OllamaResponds 200 (Some ("[" +:+ dq +:+ "Call Bob" +:+ dq +:+ "]"))
    end.

(** A local server without the model. *)
Definition ollama_no_model : nat -> ollama_reply :=
  fun _ => OllamaResponds 404 None.

Definition w_tasks : World := world store openai_rate_limited ollama_tasks.
Definition w_text_tasks : World := world store openai_rate_limited ollama_text_tasks.
Definition w_no_model : World := world store openai_bad_request ollama_no_model.

Definition chat : list message :=
  [ {| role := "system"; content := "You are an email classification expert." |};
    {| role := "user"; content := "Categorize this email: hello" |} ].

(** The Item of the first run after it: categorized, its task stored as the
    text the model listed. *)
Definition email1_text_task : Email :=
  {| email_id_of := 1; sender := "ann@example.com"; subject := "Report";
     body := "Please send the report by Friday.";
     timestamp := "2025-11-24T10:00:00"; has_attachment := false;
     category := Some "To-Do"; action_items := [JString "Call Bob"];
     processed := true |}.

(** The world left by processing Item 1 with the model that lists its task
    as a text. *)
Definition w_after_text_tasks : World :=
  (EmailProcessor.process_email example_runtime 3 Ollama 1 w_text_tasks).2.

(** ** The worlds of the further runs *)

(** A local server that answers every request with an internal error. *)
Definition ollama_server_error : nat -> ollama_reply :=
  fun _ => OllamaResponds 500 None.

Definition connection_refused : py_exception :=
  PyExc RequestsConnectionError "Connection refused".

Definition read_timed_out : py_exception :=
  PyExc RequestsReadTimeout "Read timed out".

(** A local server that cannot be reached. *)
Definition ollama_unreachable : nat -> ollama_reply :=
  fun n =>
    match n with
    | 1%nat => OllamaRaises read_timed_out
    | _ => OllamaRaises connection_refused
    end.

(** A local server that comes up after the first request, and one that has
    come up without the model. *)
Definition ollama_late : nat -> ollama_reply :=
  fun n =>
    match n with
    | O => OllamaRaises connection_refused
    | _ => OllamaResponds 200 (Some "To-Do, I think")
    end.

Definition ollama_late_no_model : nat -> ollama_reply :=
  fun n =>
    match n with
    | O => OllamaRaises connection_refused
    | _ => OllamaResponds 404 None
    end.

Definition rate_limited : py_exception := PyExc RateLimitError "Rate limit reached".
Definition timed_out : py_exception := PyExc APITimeoutError "Request timed out.".
Definition no_connection : py_exception := PyExc APIConnectionError "Connection error.".

Definition completion : chat_completion :=
  {| choices := [Some "Spam"]; usage := Some 12 |}.

(** A remote API that fails twice, then answers; and one that fails three
    times. *)
Definition openai_recovering : nat -> openai_reply :=
  fun n =>
    match n with
    | O => OpenAIRaises rate_limited
    | 1%nat => OpenAIRaises timed_out
    | _ => OpenAIReturns completion
    end.

Definition openai_failing : nat -> openai_reply :=
  fun n =>
    match n with
    | O => OpenAIRaises rate_limited
    | 1%nat => OpenAIRaises timed_out
    | _ => OpenAIRaises no_connection
    end.

Definition w_server_error : World := world store openai_recovering ollama_server_error.
Definition w_unreachable : World := world store openai_failing ollama_unreachable.
Definition w_late : World := world store openai_recovering ollama_late.
Definition w_late_no_model : World := world store openai_failing ollama_late_no_model.

(** A store whose prompts were never loaded, one without the extraction
    prompt, and one without Items. *)
Definition store_without_prompts : Database :=
  {| emails := {[ 1 := email1; 2 := email2 ]}; prompts := empty; processing_logs := [] |}.

Definition store_without_extraction : Database :=
  {| emails := {[ 1 := email1; 2 := email2 ]};
     prompts := {[ "categorization" := categorization_prompt ]};
     processing_logs := [] |}.

Definition empty_store : Database :=
  {| emails := empty; prompts := prompts store; processing_logs := [] |}.

Definition w_without_prompts : World :=
  world store_without_prompts openai_rate_limited ollama_tasks.
Definition w_without_extraction : World :=
  world store_without_extraction openai_rate_limited ollama_tasks.
Definition w_empty : World := world empty_store openai_rate_limited ollama_tasks.

(** A text of [n] copies of one character, and a model answer that lists
    one integer of 4301 digits. *)
Fixpoint repeat_char (c : ascii) (n : nat) : string :=
  match n with
  | O => EmptyString
  | S n' => String c (repeat_char c n')
  end.

Definition long_integer : string := "[" +:+ repeat_char "1" 4301 +:+ "]".

(** A local model that names a category, then lists the long integer. *)
Definition ollama_long_integer : nat -> ollama_reply :=
  fun n =>
    match n with
    | O => OllamaResponds 200 (Some "To-Do")
    | _ => OllamaResponds 200 (Some long_integer)
    end.

Definition w_long_integer : World := world store openai_rate_limited ollama_long_integer.

(** A store that refuses its third write: in a run of [process_email] the
    first two writes are the log entries of the categorization and of the
    extraction, the third is the update of the Item. *)
Definition locked : py_exception := PyExc SqliteError "database is locked".

Definition w_locked : World :=
  {| w_db := store;
     write_fails := fun n => match n with 2%nat => Some locked | _ => None end;
     db_writes := 0;
     openai_script := openai_rate_limited; ollama_script := ollama_tasks;
     backend_calls := 0; total_tokens_used := 0;
     ollama_total_tokens_used := S754_zero false; trace := [] |}.

(** Three Items received at the same second. *)
Definition same_second (id : Z) : Email :=
  {| email_id_of := id; sender := "ann@example.com"; subject := "Minutes";
     body := "The minutes are attached.";
     timestamp := "2025-11-26T08:00:00"; has_attachment := true;
     category := None; action_items := []; processed := false |}.

Definition store_same_second : Database :=
  {| emails := {[ 1 := email1; 3 := same_second 3; 4 := same_second 4;
                  (-5) := same_second (-5) ]};
     prompts := prompts store; processing_logs := [] |}.

Definition w_same_second : World :=
  world store_same_second openai_rate_limited ollama_tasks.

(** A conversation of six messages. *)
Definition turn (n : Z) : AgentMessage :=
  {| msg_role := "user"; msg_content := "message " +:+ pretty n |}.

Definition last_five : list AgentMessage := [turn 2; turn 3; turn 4; turn 5; turn 6].

(** * Reasoning about runs *)

(** ** The text operations on examples *)

Example strip_ex : PyStr.strip "  To-Do
 " = "To-Do".
Proof. reflexivity. Qed.

Example find_ex : PyStr.find "ab[c]d]" "[" = 2 /\ PyStr.rfind "ab[c]d]" "]" = 6
                  /\ PyStr.find "abc" "[" = -1 /\ PyStr.rfind "abc" "]" = -1.
Proof. repeat split; reflexivity. Qed.

Example slice_ex : PyStr.slice "ab[c]d]e" 2 7 = "[c]d]" /\ PyStr.slice "] [" 2 1 = "".
Proof. split; reflexivity. Qed.

Example replace_ex :
  PyStr.replace "a {email_content} b {email_content}" "{email_content}" "X{email_content}"
  = "a X{email_content} b X{email_content}".
Proof. reflexivity. Qed.

Example lower_ex : PyStr.lower "This looks IMPORTANT" = "this looks important".
Proof. reflexivity. Qed.

Example category_ex :
  Interpret.category_of_response (Some "This looks Important to me") = Some "Important"
  /\ Interpret.category_of_response (Some " spam or newsletter? ") = Some "Newsletter"
  /\ Interpret.category_of_response (Some " Personal ") = Some "Personal"
  /\ Interpret.category_of_response (Some "  ") = Some ""
  /\ Interpret.category_of_response (Some "") = None.
Proof. repeat split; reflexivity. Qed.

(** ** What a computation leaves alone *)

Lemma stays_ret {A} P (a : A) : stays P (ret a).
Proof. intros w; split; [reflexivity|]. exists []. by rewrite app_nil_r. Qed.

Lemma stays_raise {A} P e : stays P (@raise A e).
Proof. intros w; split; [reflexivity|]. exists []. by rewrite app_nil_r. Qed.

Lemma stays_lift {A} P (r : result A) : stays P (lift r).
Proof. intros w; split; [reflexivity|]. exists []. by rewrite app_nil_r. Qed.

Lemma stays_emit P e : P e -> stays P (emit e).
Proof.
  intros He w; split; [reflexivity|]. exists [e]. split; [reflexivity|].
  by constructor.
Qed.

Lemma stays_bind {A B} P (m : M A) (k : A -> M B) :
  stays P m -> (forall a, stays P (k a)) -> stays P (bind m k).
Proof.
  intros Hm Hk w. unfold bind.
  destruct (Hm w) as [Hdb [evs [Htr Hall]]].
  destruct (m w) as [[a|e] w1]; simpl in *.
  - destruct (Hk a w1) as [Hdb' [evs' [Htr' Hall']]]. split.
    + by rewrite Hdb', Hdb.
    + exists (evs ++ evs'). rewrite Htr', Htr, app_assoc. split; [done|].
      by apply Forall_app.
  - split; [done|]. by exists evs.
Qed.

Lemma stays_try_except {A} P (m : M A) (h : py_exception -> M A) :
  stays P m -> (forall e, stays P (h e)) -> stays P (try_except m h).
Proof.
  intros Hm Hh w. unfold try_except.
  destruct (Hm w) as [Hdb [evs [Htr Hall]]].
  destruct (m w) as [[a|e] w1]; simpl in *.
  - split; [done|]. by exists evs.
  - destruct (Hh e w1) as [Hdb' [evs' [Htr' Hall']]]. split.
    + by rewrite Hdb', Hdb.
    + exists (evs ++ evs'). rewrite Htr', Htr, app_assoc. split; [done|].
      by apply Forall_app.
Qed.

Lemma stays_weaken {A} (P Q : event -> Prop) (m : M A) :
  (forall e, P e -> Q e) -> stays P m -> stays Q m.
Proof.
  intros HPQ Hm w. destruct (Hm w) as [Hdb [evs [Htr Hall]]].
  split; [done|]. exists evs. split; [done|].
  eapply Forall_impl; eauto.
Qed.

Lemma stays_read {A} P op (f : Database -> A) : P (EvDb op) -> stays P (Db.read op f).
Proof.
  intros HP. unfold Db.read. apply stays_bind; [by apply stays_emit|].
  intros _ w; split; [reflexivity|]. exists []. by rewrite app_nil_r.
Qed.

Lemma stays_write P op (f : Database -> Database) :
  P (EvDb op) -> (forall db, emails (f db) = emails db) -> stays P (Db.write op f).
Proof.
  intros HP Hf. unfold Db.write. apply stays_bind; [by apply stays_emit|].
  intros _ w. simpl. destruct (write_fails w (db_writes w)); simpl.
  - split; [reflexivity|]. exists []. by rewrite app_nil_r.
  - split; [apply Hf|]. exists []. by rewrite app_nil_r.
Qed.

Lemma stays_refused {A} P op : P (EvDb op) -> stays P (bind (emit (EvDb op)) (fun _ => @raise A Db.too_large)).
Proof. intros HP. apply stays_bind; [by apply stays_emit|intros; apply stays_raise]. Qed.

Lemma stays_insert_log P log : P (EvDb (DbInsertLog log)) -> stays P (Db.insert_log log).
Proof.
  intros HP. unfold Db.insert_log.
  destruct (Db.int64 (log_email_id log)); [by apply stays_write|by apply stays_refused].
Qed.

Lemma stays_get_email P email_id : P (EvDb (DbGetEmail email_id)) -> stays P (Db.get_email email_id).
Proof.
  intros HP. unfold Db.get_email. apply stays_bind; [by apply stays_emit|].
  intros _ w. destruct (emails (w_db w) !! email_id); [|destruct (Db.int64 email_id)];
    (split; [reflexivity|]); exists []; by rewrite app_nil_r.
Qed.

Lemma stays_get_all_emails P limit :
  P (EvDb (DbGetAllEmails limit)) -> stays P (Db.get_all_emails limit).
Proof.
  intros HP. unfold Db.get_all_emails.
  destruct (Db.int64 limit); [by apply stays_read|by apply stays_refused].
Qed.

(** ** The provider clients return: [_call_llm] never raises *)

Section CallLLM.

Context (rt : PyRuntime) (max_retries : Z).

Lemma openai_step_returns attempt messages temperature max_tokens w :
  exists step w',
    try_except (LLMService.attempt_body messages temperature max_tokens)
               (LLMService.on_exception max_retries attempt) w = (Ret step, w').
Proof.
  unfold try_except, LLMService.attempt_body, LLMService.create, bind, emit.
  simpl. destruct (openai_script w (backend_calls w)) as [r|e]; simpl.
  - destruct (usage r); simpl; destruct (choices r); simpl; eauto.
    all: unfold LLMService.on_exception; simpl; eauto.
  - unfold LLMService.on_exception.
    destruct (exc_cls e); simpl;
      destruct (attempt <? max_retries - 1); simpl; eauto.
Qed.

Lemma openai_attempts_returns remaining : forall attempt messages temperature max_tokens w,
  exists v w',
    LLMService.attempts max_retries remaining attempt messages temperature max_tokens w
    = (Ret v, w').
Proof.
  induction remaining as [|n IH]; intros; simpl; [by eexists _, _|].
  unfold bind at 1.
  destruct (openai_step_returns attempt messages temperature max_tokens w)
    as [step [w1 ->]].
  destruct step; [by eexists _, _ | apply IH].
Qed.

Lemma openai_call_llm_returns messages temperature max_tokens w :
  exists v w',
    LLMService._call_llm max_retries messages temperature max_tokens w = (Ret v, w').
Proof. apply openai_attempts_returns. Qed.

Lemma ollama_step_returns attempt prompt temperature max_tokens w :
  exists step w',
    try_except (OllamaService.attempt_body prompt temperature max_tokens)
               (OllamaService.on_exception attempt) w = (Ret step, w').
Proof.
  unfold try_except, OllamaService.attempt_body, OllamaService.post, bind, emit.
  simpl. destruct (ollama_script w (backend_calls w)) as [code text|e]; simpl.
  - destruct (code =? 200); [|destruct (code =? 404); simpl; eauto].
    destruct text; simpl; eauto.
  - unfold OllamaService.on_exception.
    destruct (is_requests_ConnectionError (exc_cls e));
      [|destruct (is_requests_Timeout (exc_cls e))];
      try destruct (attempt <? OllamaService.max_retries - 1); simpl; eauto.
Qed.

Lemma ollama_attempts_returns remaining : forall attempt prompt temperature max_tokens w,
  exists v w',
    OllamaService.attempts remaining attempt prompt temperature max_tokens w
    = (Ret v, w').
Proof.
  induction remaining as [|n IH]; intros; simpl; [by eexists _, _|].
  unfold bind at 1.
  destruct (ollama_step_returns attempt prompt temperature max_tokens w)
    as [step [w1 ->]].
  destruct step; [by eexists _, _ | apply IH].
Qed.

Lemma ollama_call_llm_returns messages temperature max_tokens w :
  exists v w',
    OllamaService._call_llm messages temperature max_tokens w = (Ret v, w').
Proof. apply ollama_attempts_returns. Qed.

(** Each turn of the local provider's loop invokes the backend once, so a
    call of [_call_llm] invokes it at least once. *)
Lemma ollama_turn_calls attempt prompt temperature max_tokens w :
  backend_calls (try_except (OllamaService.attempt_body prompt temperature max_tokens)
                   (OllamaService.on_exception attempt) w).2
  = S (backend_calls w).
Proof.
  unfold try_except, OllamaService.attempt_body, OllamaService.post, bind, emit.
  simpl. destruct (ollama_script w (backend_calls w)) as [code text|e]; simpl.
  - destruct (code =? 200); [|by destruct (code =? 404)].
    by destruct text.
  - unfold OllamaService.on_exception.
    destruct (is_requests_ConnectionError (exc_cls e));
      [|destruct (is_requests_Timeout (exc_cls e))];
      try destruct (attempt <? OllamaService.max_retries - 1); reflexivity.
Qed.

Lemma ollama_attempts_calls remaining : forall attempt prompt temperature max_tokens w,
  (backend_calls w
   <= backend_calls (OllamaService.attempts remaining attempt prompt temperature
                       max_tokens w).2)%nat.
Proof.
  induction remaining as [|n IH]; intros; cbn [OllamaService.attempts]; [done|].
  unfold bind at 1.
  pose proof (ollama_turn_calls attempt prompt temperature max_tokens w) as Hturn.
  destruct (ollama_step_returns attempt prompt temperature max_tokens w)
    as [step [w1 Hstep]].
  rewrite Hstep in Hturn |- *. cbn [snd] in Hturn.
  destruct step as [v|]; [cbn; lia|].
  specialize (IH (attempt + 1) prompt temperature max_tokens w1). lia.
Qed.

Lemma ollama_call_llm_calls messages temperature max_tokens w :
  (backend_calls w
   < backend_calls (OllamaService._call_llm messages temperature max_tokens w).2)%nat.
Proof.
  unfold OllamaService._call_llm.
  change (Z.to_nat OllamaService.max_retries) with 3%nat.
  cbn [OllamaService.attempts]. unfold bind at 1.
  pose proof (ollama_turn_calls 0 (OllamaService._messages_to_prompt messages)
                temperature max_tokens w) as Hturn.
  destruct (ollama_step_returns 0 (OllamaService._messages_to_prompt messages)
              temperature max_tokens w) as [step [w1 Hstep]].
  rewrite Hstep in Hturn |- *. cbn [snd] in Hturn.
  destruct step as [v|]; [cbn; lia|].
  pose proof (ollama_attempts_calls 2 (0 + 1) (OllamaService._messages_to_prompt messages)
                temperature max_tokens w1) as Hrest.
  cbn [OllamaService.attempts] in Hrest |- *. lia.
Qed.

End CallLLM.

(** ** The store and the trace under the provider and pipeline operations *)

Ltac stays_case :=
  match goal with
  | |- stays _ (match ?x with _ => _ end) => destruct x
  | |- stays _ (let '(_, _) := ?x in _) => destruct x
  end.

Ltac stays_step :=
  first
    [ apply stays_ret
    | apply stays_raise
    | apply stays_lift
    | apply stays_emit; exact I
    | apply stays_read; exact I
    | apply stays_write; [exact I | intros; reflexivity]
    | apply stays_bind; [|intros]
    | apply stays_try_except; [|intros]
    | stays_case ].

Ltac stays_auto := repeat stays_step.

Section Frames.

Context (rt : PyRuntime) (max_retries : Z) (service : provider).

Lemma stays_sleep n : stays transport_event (sleep n).
Proof. unfold sleep. stays_auto. Qed.

Lemma stays_openai_add_tokens P t : stays P (LLMService.add_tokens t).
Proof. intros w; split; [reflexivity|]. exists []. by rewrite app_nil_r. Qed.

Lemma stays_ollama_add_estimate P c : stays P (OllamaService.add_estimate c).
Proof. intros w; split; [reflexivity|]. exists []. by rewrite app_nil_r. Qed.

Lemma stays_openai_create messages temperature max_tokens :
  stays transport_event (LLMService.create messages temperature max_tokens).
Proof.
  unfold LLMService.create. apply stays_bind; [stays_auto|].
  intros _ w. simpl. destruct (openai_script w (backend_calls w)); simpl;
    (split; [reflexivity|]; exists []; by rewrite app_nil_r).
Qed.

Lemma stays_ollama_post prompt temperature max_tokens :
  stays transport_event (OllamaService.post prompt temperature max_tokens).
Proof.
  unfold OllamaService.post. apply stays_bind; [stays_auto|].
  intros _ w. simpl. destruct (ollama_script w (backend_calls w)); simpl;
    (split; [reflexivity|]; exists []; by rewrite app_nil_r).
Qed.

Lemma stays_openai_attempts remaining : forall attempt messages temperature max_tokens,
  stays transport_event
    (LLMService.attempts max_retries remaining attempt messages temperature max_tokens).
Proof.
  induction remaining as [|n IH]; intros; simpl; [stays_auto|].
  apply stays_bind.
  - apply stays_try_except.
    + unfold LLMService.attempt_body.
      apply stays_bind; [apply stays_openai_create|]. intros r.
      apply stays_bind; [destruct (usage r); [apply stays_openai_add_tokens|stays_auto]|].
      intros _. stays_auto.
    + intros e. unfold LLMService.on_exception.
      destruct (exc_cls e); simpl; destruct (attempt <? max_retries - 1);
        repeat first [apply stays_sleep | stays_step].
  - intros [v|]; [stays_auto | apply IH].
Qed.

Lemma stays_openai_call_llm messages temperature max_tokens :
  stays transport_event (LLMService._call_llm max_retries messages temperature max_tokens).
Proof. apply stays_openai_attempts. Qed.

Lemma stays_ollama_attempts remaining : forall attempt prompt temperature max_tokens,
  stays transport_event
    (OllamaService.attempts remaining attempt prompt temperature max_tokens).
Proof.
  induction remaining as [|n IH]; intros; simpl; [stays_auto|].
  apply stays_bind.
  - apply stays_try_except.
    + unfold OllamaService.attempt_body.
      apply stays_bind; [apply stays_ollama_post|]. intros [code text].
      destruct (code =? 200); [|stays_auto].
      destruct text; [|stays_auto].
      apply stays_bind; [apply stays_ollama_add_estimate|]. intros _. stays_auto.
    + intros e. unfold OllamaService.on_exception.
      destruct (is_requests_ConnectionError (exc_cls e));
        [|destruct (is_requests_Timeout (exc_cls e))];
        try destruct (attempt <? OllamaService.max_retries - 1);
        repeat first [apply stays_sleep | stays_step].
  - intros [v|]; [stays_auto | apply IH].
Qed.

Lemma stays_ollama_call_llm messages temperature max_tokens :
  stays transport_event (OllamaService._call_llm messages temperature max_tokens).
Proof. apply stays_ollama_attempts. Qed.

Lemma transport_categorize e : transport_event e -> categorize_event e.
Proof. by destruct e. Qed.

Lemma transport_extract e : transport_event e -> extract_event e.
Proof. by destruct e. Qed.

Lemma transport_answer e : transport_event e -> answer_event e.
Proof. by destruct e. Qed.

Lemma stays_categorize_email content template :
  stays categorize_event
    (UnifiedLLMService.categorize_email rt max_retries service content template).
Proof.
  destruct service; simpl.
  - unfold OllamaService.categorize_email.
    apply stays_bind; [stays_auto|]. intros _.
    apply stays_bind; [|intros; stays_auto].
    eapply stays_weaken; [apply transport_categorize|apply stays_ollama_call_llm].
  - unfold LLMService.categorize_email.
    apply stays_bind; [stays_auto|]. intros _.
    apply stays_bind; [stays_auto|]. intros prompt.
    apply stays_bind; [|intros; stays_auto].
    eapply stays_weaken; [apply transport_categorize|apply stays_openai_call_llm].
Qed.

Lemma stays_extract_action_items content template :
  stays extract_event
    (UnifiedLLMService.extract_action_items rt max_retries service content template).
Proof.
  destruct service; simpl.
  - unfold OllamaService.extract_action_items.
    apply stays_bind; [stays_auto|]. intros _.
    apply stays_bind; [|intros; stays_auto].
    eapply stays_weaken; [apply transport_extract|apply stays_ollama_call_llm].
  - unfold LLMService.extract_action_items.
    apply stays_bind; [stays_auto|]. intros _.
    apply stays_bind; [stays_auto|]. intros prompt.
    apply stays_bind; [|intros; stays_auto].
    eapply stays_weaken; [apply transport_extract|apply stays_openai_call_llm].
Qed.

Lemma stays_answer_query query context prompt_context history :
  stays answer_event
    (UnifiedLLMService.answer_query max_retries service query context prompt_context history).
Proof.
  destruct service; simpl.
  - unfold OllamaService.answer_query.
    apply stays_bind; [stays_auto|]. intros _.
    eapply stays_weaken; [apply transport_answer|apply stays_ollama_call_llm].
  - unfold LLMService.answer_query.
    apply stays_bind; [stays_auto|]. intros _.
    eapply stays_weaken; [apply transport_answer|apply stays_openai_call_llm].
Qed.

End Frames.

(** ** The pipeline, step by step *)

Lemma bind_run {A B} (m : M A) (k : A -> M B) w :
  bind m k w = match m w with
               | (Ret a, w') => k a w'
               | (Exc e, w') => (Exc e, w')
               end.
Proof. reflexivity. Qed.

Lemma int64_true (n : Z) : Db.int64 n = true <-> - 2 ^ 63 <= n < 2 ^ 63.
Proof. unfold Db.int64. rewrite andb_true_iff, Z.leb_le, Z.ltb_lt. tauto. Qed.

Lemma int64_false (n : Z) : Db.int64 n = false <-> ~ - 2 ^ 63 <= n < 2 ^ 63.
Proof.
  rewrite <- int64_true. by destruct (Db.int64 n).
Qed.

Lemma get_email_run email_id w :
  Db.get_email email_id w
  = (looked_up (w_db w) email_id,
     set_trace w (trace w ++ [EvDb (DbGetEmail email_id)])).
Proof.
  unfold Db.get_email, looked_up, bind, emit. cbn [w_db set_trace].
  destruct (emails (w_db w) !! email_id); [reflexivity|].
  by destruct (Db.int64 email_id).
Qed.

(** The read of [_build_inbox_context]: the first hundred rows. *)
Lemma get_all_emails_run w :
  Db.get_all_emails 100 w
  = (Ret (take 100 (Db.all_rows (w_db w))),
     set_trace w (trace w ++ [EvDb (DbGetAllEmails 100)])).
Proof. reflexivity. Qed.

Lemma looked_up_found db email_id email :
  emails db !! email_id = Some email -> looked_up db email_id = Ret (Some email).
Proof. unfold looked_up. by intros ->. Qed.

Lemma looked_up_missing db email_id :
  emails db !! email_id = None -> Db.int64 email_id = true ->
  looked_up db email_id = Ret None.
Proof. unfold looked_up. by intros -> ->. Qed.

(** [update_email] either raises and leaves the table as it was, or returns
    and has assigned the given fields of the row. *)
Lemma update_email_run email_id new_category new_items w :
  let op := DbUpdateEmail email_id (Some new_category) (Some new_items) (Some true) in
  let m := Db.update_email email_id (Some new_category) (Some new_items) (Some true) in
  trace (m w).2 = trace w ++ [EvDb op]
  /\ match (m w).1 with
     | Ret _ =>
         emails (w_db (m w).2)
         = alter (Db.set_fields (Some new_category) (Some new_items) (Some true))
                 email_id (emails (w_db w))
     | Exc _ => emails (w_db (m w).2) = emails (w_db w)
     end.
Proof.
  simpl. unfold Db.update_email, Db.write, bind, emit, raise. simpl.
  destruct (Db.int64 email_id); simpl; [|auto].
  destruct (write_fails w (db_writes w)); simpl; auto.
Qed.

Section PipelineFacts.

Context (rt : PyRuntime) (max_retries : Z) (service : provider).

Abbreviation _log_processing := EmailProcessor._log_processing.
Abbreviation _categorize_email := (EmailProcessor._categorize_email rt max_retries service).
Abbreviation _extract_action_items :=
  (EmailProcessor._extract_action_items rt max_retries service).
Abbreviation process_email := (EmailProcessor.process_email rt max_retries service).

Lemma log_processing_returns email_id operation status response error w :
  (_log_processing email_id operation status response error w).1 = Ret tt.
Proof.
  unfold EmailProcessor._log_processing, try_except, Db.insert_log, Db.write, bind,
    emit, raise.
  simpl. destruct (Db.int64 email_id); simpl; [|done].
  by destruct (write_fails w (db_writes w)).
Qed.

Lemma stays_log_processing (P : event -> Prop) email_id operation status response error :
  (forall entry, P (EvDb (DbInsertLog entry))) ->
  stays P (_log_processing email_id operation status response error).
Proof.
  intros HP. unfold EmailProcessor._log_processing.
  apply stays_try_except; [|intros; apply stays_ret].
  apply stays_insert_log, HP.
Qed.

Lemma stays_categorize (P : event -> Prop) email :
  (forall e, categorize_event e -> P e) ->
  (forall ty, P (EvDb (DbGetPrompt ty))) ->
  (forall entry, P (EvDb (DbInsertLog entry))) ->
  stays P (_categorize_email email).
Proof.
  intros HC HG HL. unfold EmailProcessor._categorize_email.
  apply stays_bind; [apply stays_read, HG|]. intros [p|]; [|apply stays_ret].
  apply stays_bind.
  { eapply stays_weaken; [apply HC|apply stays_categorize_email]. }
  intros c. apply stays_bind; [|intros; apply stays_ret].
  destruct (truthy_opt c); by apply stays_log_processing.
Qed.

Lemma stays_extract (P : event -> Prop) email :
  (forall e, extract_event e -> P e) ->
  (forall ty, P (EvDb (DbGetPrompt ty))) ->
  (forall entry, P (EvDb (DbInsertLog entry))) ->
  stays P (_extract_action_items email).
Proof.
  intros HC HG HL. unfold EmailProcessor._extract_action_items.
  apply stays_bind; [apply stays_read, HG|]. intros [p|]; [|apply stays_ret].
  apply stays_bind.
  { eapply stays_weaken; [apply HC|apply stays_extract_action_items]. }
  intros items. apply stays_bind; [|intros; apply stays_ret].
  destruct items; by apply stays_log_processing.
Qed.

Lemma categorize_no_extract e : categorize_event e -> no_extract_no_update e.
Proof. destruct e as [| | |[]| |]; simpl; tauto. Qed.

(** The tail of [process_email] after a categorization without result. *)
Lemma abort_run email_id w :
  exists w',
    bind (_log_processing email_id "categorization" "failed" None
            (Some "LLM categorization failed"))
         (fun _ => ret false) w = (Ret false, w')
    /\ emails (w_db w') = emails (w_db w)
    /\ exists evs, trace w' = trace w ++ evs /\ Forall no_extract_no_update evs.
Proof.
  pose proof (log_processing_returns email_id "categorization" "failed" None
                (Some "LLM categorization failed") w) as Hret.
  destruct (stays_log_processing no_extract_no_update email_id "categorization"
              "failed" None (Some "LLM categorization failed") (fun _ => I) w)
    as [Hdb Htr].
  rewrite bind_run.
  destruct (_log_processing _ _ _ _ _ w) as [r w1]. simpl in *. subst r.
  exists w1. auto.
Qed.

End PipelineFacts.

(** ** Claims about one pipeline run *)

Section PipelineClaims.

Context (rt : PyRuntime) (max_retries : Z) (service : provider).

Abbreviation categorize := (EmailProcessor._categorize_email rt max_retries service).
Abbreviation extract := (EmailProcessor._extract_action_items rt max_retries service).
Abbreviation process := (EmailProcessor.process_email rt max_retries service).

(** C2.  When the categorization of a stored Item returns no result (none,
    or the empty text), [process_email] returns False, the [emails] table is
    what it was before the run (so the Item and its processed flag are
    unchanged: a flag that was false remains false), and the run's events
    hold neither a task extraction nor an update of an Item. *)
Theorem C2_no_category_aborts (email_id : Z) (email : Email) (w w1 : World)
    (c : option string) :
  emails (w_db w) !! email_id = Some email ->
  categorize email (Db.get_email email_id w).2 = (Ret c, w1) ->
  truthy_opt c = false ->
  exists w',
    process email_id w = (Ret false, w')
    /\ emails (w_db w') = emails (w_db w)
    /\ emails (w_db w') !! email_id = Some email
    /\ processed <$> emails (w_db w') !! email_id = Some (processed email)
    /\ exists evs, trace w' = trace w ++ evs /\ Forall no_extract_no_update evs.
Proof.
  intros Hget Hcat Hfalsy.
  rewrite get_email_run in Hcat. cbn [snd] in Hcat.
  pose proof (stays_categorize rt max_retries service no_extract_no_update email
                (categorize_no_extract) (fun _ => I) (fun _ => I)
                (set_trace w (trace w ++ [EvDb (DbGetEmail email_id)])))
    as [Hdb1 [evs1 [Htr1 Hall1]]].
  rewrite Hcat in Hdb1, Htr1. simpl in Hdb1, Htr1.
  destruct (abort_run email_id w1) as [w' [Hrun [Hdb2 [evs2 [Htr2 Hall2]]]]].
  exists w'.
  assert (Hp : process email_id w = (Ret false, w')).
  { unfold EmailProcessor.process_email.
    rewrite bind_run, get_email_run, (looked_up_found _ _ _ Hget).
    rewrite bind_run, Hcat.
    destruct c as [[|a s]|]; simpl in Hfalsy; try discriminate; exact Hrun. }
  split; [exact Hp|].
  assert (Hdb : emails (w_db w') = emails (w_db w)) by (by rewrite Hdb2, Hdb1).
  split; [exact Hdb|]. split; [by rewrite Hdb|]. split; [by rewrite Hdb, Hget|].
  exists ([EvDb (DbGetEmail email_id)] ++ evs1 ++ evs2).
  split.
  - rewrite Htr2, Htr1. by rewrite <- !app_assoc.
  - repeat apply Forall_app_2; auto. by constructor.
Qed.

(** What the three steps other than the update do to the [emails] table:
    nothing. *)
Lemma emails_after_log email_id operation status response error w :
  emails (w_db (EmailProcessor._log_processing email_id operation status response error w).2)
  = emails (w_db w).
Proof.
  apply (stays_log_processing (fun _ => True) email_id operation status response error
           (fun _ => I) w).
Qed.

Lemma emails_after_categorize email w :
  emails (w_db (categorize email w).2) = emails (w_db w).
Proof.
  apply (stays_categorize rt max_retries service (fun _ => True) email
           (fun _ _ => I) (fun _ => I) (fun _ => I) w).
Qed.

Lemma emails_after_extract email w :
  emails (w_db (extract email w).2) = emails (w_db w).
Proof.
  apply (stays_extract rt max_retries service (fun _ => True) email
           (fun _ _ => I) (fun _ => I) (fun _ => I) w).
Qed.

(** C1 (as amended).  For a stored Item, the processed flag is true after
    [process_email] if and only if it was true before the run (the run never
    resets it), or the categorization of the run returned a non-empty
    result, its task extraction returned (with any number of tasks, zero
    included) and the update of the Item was committed. *)
Theorem C1_processed_iff (email_id : Z) (email : Email) (w : World) :
  emails (w_db w) !! email_id = Some email ->
  processed <$> emails (w_db (process email_id w).2) !! email_id = Some true
  <-> processed email = true
      \/ exists c items w1 w2 w3,
           categorize email (Db.get_email email_id w).2 = (Ret (Some c), w1)
           /\ c <> EmptyString
           /\ extract email w1 = (Ret items, w2)
           /\ Db.update_email email_id (Some c) (Some items) (Some true) w2 = (Ret tt, w3).
Proof.
  intros Hget.
  assert (Hkeep : forall w', emails (w_db w') = emails (w_db w) ->
                    processed <$> emails (w_db w') !! email_id = Some true
                    <-> processed email = true).
  { intros w' ->. rewrite Hget. cbn. split; [by intros [= ->]|by intros ->]. }
  unfold EmailProcessor.process_email.
  rewrite bind_run, get_email_run, (looked_up_found _ _ _ Hget). cbn [snd].
  set (w0 := set_trace w (trace w ++ [EvDb (DbGetEmail email_id)])).
  assert (Hw0 : emails (w_db w0) = emails (w_db w)) by reflexivity.
  rewrite bind_run.
  pose proof (emails_after_categorize email w0) as Hc.
  destruct (categorize email w0) as [[c|e] w1] eqn:Hcat; cbn [snd] in Hc.
  2:{ cbn [snd]. rewrite (Hkeep w1) by (by rewrite Hc). split; [by left|].
      intros [H|(c & items & w1' & w2 & w3 & H & _)]; [exact H|discriminate H]. }
  assert (Habort :
    processed <$>
      emails (w_db (bind (EmailProcessor._log_processing email_id "categorization"
                            "failed" None (Some "LLM categorization failed"))
                         (fun _ => ret false) w1).2) !! email_id = Some true
    <-> processed email = true).
  { apply Hkeep. destruct (abort_run email_id w1) as [w' [-> [Hdb _]]].
    cbn [snd]. by rewrite Hdb, Hc. }
  destruct c as [[|a s]|].
  - rewrite Habort. split; [by left|].
    intros [H|(c & items & w1' & w2 & w3 & H & Hne & _)]; [exact H|].
    by injection H as <- _.
  - cbn [PyStr.truthy]. rewrite bind_run.
    pose proof (emails_after_extract email w1) as He.
    destruct (extract email w1) as [[items|e] w2] eqn:Hext; cbn [snd] in He.
    2:{ cbn [snd]. rewrite (Hkeep w2) by (by rewrite He, Hc). split; [by left|].
        intros [H|(c & items & w1' & w2' & w3 & H & _ & H' & _)]; [exact H|].
        injection H as <- <-. rewrite Hext in H'. discriminate H'. }
    unfold try_except. rewrite bind_run.
    pose proof (update_email_run email_id (String a s) items w2) as [_ Hu].
    cbn zeta in Hu.
    destruct (Db.update_email email_id (Some (String a s)) (Some items) (Some true) w2)
      as [[[]|e] w3] eqn:Hupd; cbn [fst snd] in Hu.
    + rewrite bind_run.
      pose proof (emails_after_log email_id "complete_processing" "success"
                    (Some ("Category: " +:+ String a s +:+ ", Actions: "
                           +:+ pretty (length items))) None w3) as Hl.
      pose proof (log_processing_returns email_id "complete_processing" "success"
                    (Some ("Category: " +:+ String a s +:+ ", Actions: "
                           +:+ pretty (length items))) None w3) as Hr.
      destruct (EmailProcessor._log_processing email_id "complete_processing" _ _ _ w3)
        as [r w4]; cbn [fst snd] in Hl, Hr; subst r.
      unfold ret; cbn [snd].
      split; [|intros _; rewrite Hl, Hu, He, Hc, Hw0, lookup_alter_eq, Hget; reflexivity].
      intros _. right. exists (String a s), items, w1, w2, w3. by repeat split.
    + rewrite bind_run.
      pose proof (emails_after_log email_id "database_update" "failed" None
                    (Some (exc_str e)) w3) as Hl.
      pose proof (log_processing_returns email_id "database_update" "failed" None
                    (Some (exc_str e)) w3) as Hr.
      destruct (EmailProcessor._log_processing email_id "database_update" _ _ _ w3)
        as [r w4]; cbn [fst snd] in Hl, Hr; subst r.
      unfold ret; cbn [snd].
      rewrite (Hkeep w4) by (by rewrite Hl, Hu, He, Hc). split; [by left|].
      intros [H|(c & items' & w1' & w2' & w3' & H & _ & H' & H'')]; [exact H|].
      injection H as <- <-. rewrite Hext in H'. injection H' as <- <-.
      rewrite Hupd in H''. discriminate H''.
  - rewrite Habort. split; [by left|].
    intros [H|(c & items & w1' & w2 & w3 & H & _)]; [exact H|]. discriminate H.
Qed.

End PipelineClaims.

(** ** The retry loop of the remote-API provider *)

Lemma retry_trace_calls messages temperature max_tokens delay n attempt :
  length (calls_of (retry_trace (EvCreate messages temperature max_tokens) delay n attempt)) = n.
Proof.
  revert attempt. induction n as [|n IH]; intros attempt; [reflexivity|].
  destruct n as [|n]; [reflexivity|].
  change (S (length (calls_of (retry_trace (EvCreate messages temperature max_tokens)
                                 delay (S n) (attempt + 1)))) = S (S n)).
  by rewrite IH.
Qed.

Lemma retry_trace_sleeps messages temperature max_tokens delay n attempt :
  sleeps_of (retry_trace (EvCreate messages temperature max_tokens) delay n attempt)
  = map (fun k => delay (attempt + Z.of_nat k)) (seq 0 (n - 1)).
Proof.
  revert attempt. induction n as [|n IH]; intros attempt; [reflexivity|].
  destruct n as [|n]; [reflexivity|].
  change (delay attempt
            :: sleeps_of (retry_trace (EvCreate messages temperature max_tokens)
                            delay (S n) (attempt + 1))
          = map (fun k => delay (attempt + Z.of_nat k)) (seq 0 (S n))).
  rewrite IH. simpl. rewrite Z.add_0_r, Nat.sub_0_r. f_equal.
  rewrite <- seq_shift, map_map. apply map_ext. intros k. f_equal. lia.
Qed.

Section OpenAIRetry.

Context (max_retries : Z) (messages : list message) (temperature : Q) (max_tokens : Z).

Abbreviation call := (EvCreate messages temperature max_tokens).

Lemma on_exception_api attempt e :
  is_APIError (exc_cls e) = true ->
  LLMService.on_exception max_retries attempt e
  = if attempt <? max_retries - 1
    then bind (sleep (backoff_delay (exc_cls e) attempt)) (fun _ => ret Continue)
    else ret (Return None).
Proof. destruct e as [c s]; destruct c; simpl; intros; try discriminate; reflexivity. Qed.

Lemma on_exception_other attempt e :
  is_APIError (exc_cls e) = false ->
  LLMService.on_exception max_retries attempt e = ret (Return None).
Proof. destruct e as [c s]; destruct c; simpl; intros; try discriminate; reflexivity. Qed.

(** A backend whose every reply is an exception of the API family: all the
    turns of the loop are used. *)
Lemma attempts_all_fail (delay : Z -> Z) remaining : forall attempt w,
  (forall n, exists e, openai_script w n = OpenAIRaises e
                       /\ is_APIError (exc_cls e) = true
                       /\ forall a, backoff_delay (exc_cls e) a = delay a) ->
  attempt + Z.of_nat remaining = max_retries ->
  exists w',
    LLMService.attempts max_retries remaining attempt messages temperature max_tokens w
    = (Ret None, w')
    /\ backend_calls w' = (backend_calls w + remaining)%nat
    /\ trace w' = trace w ++ retry_trace call delay remaining attempt
    /\ w_db w' = w_db w
    /\ total_tokens_used w' = total_tokens_used w.
Proof.
  induction remaining as [|n IH]; intros attempt w Hscript Hsum.
  - exists w. simpl. rewrite app_nil_r, Nat.add_0_r. by repeat split.
  - destruct (Hscript (backend_calls w)) as [e [Hs [Hapi Hd]]].
    cbn [LLMService.attempts]. rewrite bind_run.
    unfold try_except, LLMService.attempt_body. rewrite bind_run.
    unfold LLMService.create. rewrite bind_run. unfold emit at 1. cbn beta iota.
    cbn [openai_script set_trace backend_calls]. rewrite Hs.
    rewrite on_exception_api by exact Hapi.
    destruct (attempt <? max_retries - 1) eqn:Hlt.
    + apply Z.ltb_lt in Hlt. destruct n as [|n]; [lia|].
      rewrite bind_run. unfold sleep, emit. cbn beta iota. unfold ret at 1.
      cbn beta iota.
      match goal with
      | |- context [LLMService.attempts _ _ _ _ _ _ ?w1] =>
          destruct (IH (attempt + 1) w1) as [w' (Hrun & Hcalls & Htr & Hdb & Htok)];
          [exact Hscript | lia |]
      end.
      exists w'. split; [exact Hrun|]. rewrite Hcalls, Htr, Hdb, Htok.
      cbn [backend_calls trace w_db total_tokens_used set_trace set_backend_calls].
      rewrite Hd. repeat split; [lia|].
      by rewrite <- !app_assoc.
    + apply Z.ltb_ge in Hlt. destruct n as [|n]; [|lia].
      unfold ret. cbn beta iota. eexists. split; [reflexivity|].
      cbn [backend_calls trace w_db total_tokens_used set_trace set_backend_calls].
      repeat split. lia.
Qed.

(** C5.  Against a backend that reports rate-limiting on every attempt,
    [_call_llm] returns None after invoking the backend exactly MAX_RETRIES
    times, having slept 2^attempt seconds after each attempt but the last. *)
Theorem C5_rate_limited_retries (w : World) :
  0 <= max_retries ->
  (forall n, exists e, openai_script w n = OpenAIRaises e /\ exc_cls e = RateLimitError) ->
  exists w' evs,
    LLMService._call_llm max_retries messages temperature max_tokens w = (Ret None, w')
    /\ trace w' = trace w ++ evs
    /\ evs = retry_trace call (fun attempt => 2 ^ attempt) (Z.to_nat max_retries) 0
    /\ Z.of_nat (length (calls_of evs)) = max_retries
    /\ Z.of_nat (backend_calls w' - backend_calls w) = max_retries
    /\ sleeps_of evs
       = map (fun k => 2 ^ Z.of_nat k) (seq 0 (Z.to_nat max_retries - 1)).
Proof.
  intros Hpos Hscript.
  destruct (attempts_all_fail (fun attempt => 2 ^ attempt) (Z.to_nat max_retries) 0 w)
    as [w' (Hrun & Hcalls & Htr & _)].
  { intros n. destruct (Hscript n) as [e [Hs Hc]]. exists e.
    rewrite Hc. by repeat split. }
  { lia. }
  exists w', (retry_trace call (fun attempt => 2 ^ attempt) (Z.to_nat max_retries) 0).
  split; [exact Hrun|]. split; [exact Htr|]. split; [reflexivity|].
  rewrite retry_trace_calls, retry_trace_sleeps, Hcalls.
  repeat split; try lia.
Qed.

(** C6 (as amended).  A backend that fails every attempt with one exception
    that is neither a rate-limit nor a timeout error: when the exception
    belongs to the API error family (connectivity, malformed request,
    unsupported model, ...) the call is retried after a sleep of one second
    until MAX_RETRIES attempts are made; otherwise the first attempt is the
    only one and nothing is slept.  Either way the call returns None. *)
Theorem C6_other_errors (w : World) (e : py_exception) :
  0 < max_retries ->
  exc_cls e <> RateLimitError ->
  exc_cls e <> APITimeoutError ->
  (forall n, openai_script w n = OpenAIRaises e) ->
  exists w',
    LLMService._call_llm max_retries messages temperature max_tokens w = (Ret None, w')
    /\ trace w' = trace w ++
         (if is_APIError (exc_cls e)
          then retry_trace call (fun _ => 1) (Z.to_nat max_retries) 0
          else [call]).
Proof.
  intros Hpos Hrl Hto Hscript.
  destruct (is_APIError (exc_cls e)) eqn:Hapi.
  - destruct (attempts_all_fail (fun _ => 1) (Z.to_nat max_retries) 0 w)
      as [w' (Hrun & _ & Htr & _)].
    { intros n. exists e. split; [apply Hscript|]. split; [exact Hapi|].
      intros a. destruct e as [c s]; destruct c; simpl in *; congruence. }
    { lia. }
    by exists w'.
  - unfold LLMService._call_llm.
    destruct (Z.to_nat max_retries) as [|n] eqn:Hn; [lia|].
    cbn [LLMService.attempts]. rewrite bind_run.
    unfold try_except, LLMService.attempt_body. rewrite bind_run.
    unfold LLMService.create. rewrite bind_run. unfold emit at 1. cbn beta iota.
    cbn [openai_script set_trace backend_calls]. rewrite Hscript.
    rewrite on_exception_other by exact Hapi.
    unfold ret. cbn beta iota. eexists. split; reflexivity.
Qed.

End OpenAIRetry.

(** ** Facts about the text operations *)

Section StringFacts.

Lemma str_app_cons (x : ascii) (a b : string) : String x a +:+ b = String x (a +:+ b).
Proof. reflexivity. Qed.

Lemma str_app_nil_l (b : string) : EmptyString +:+ b = b.
Proof. reflexivity. Qed.

Lemma str_app_assoc (a b c : string) : (a +:+ b) +:+ c = a +:+ (b +:+ c).
Proof.
  induction a as [|x a IH]; [reflexivity|]. rewrite !str_app_cons. by f_equal.
Qed.

Lemma str_app_nil_r (a : string) : a +:+ EmptyString = a.
Proof.
  induction a as [|x a IH]; [reflexivity|]. rewrite str_app_cons. by f_equal.
Qed.

Lemma str_length_app (a b : string) :
  String.length (a +:+ b) = (String.length a + String.length b)%nat.
Proof.
  induction a as [|x a IH]; [reflexivity|].
  rewrite str_app_cons. cbn [String.length Nat.add]. by f_equal.
Qed.

Lemma prefix_nil (s : string) : String.prefix EmptyString s = true.
Proof. by destruct s. Qed.

Lemma prefix_spec (sub s : string) :
  String.prefix sub s = true <-> exists b, s = sub +:+ b.
Proof.
  revert s. induction sub as [|c sub IH]; intros s.
  - rewrite prefix_nil. split; [intros _; by exists s|done].
  - destruct s as [|d s]; cbn [String.prefix].
    + split; [discriminate|intros [b Hb]; discriminate].
    + destruct (ascii_dec c d) as [->|Hne].
      * rewrite IH. split; intros [b Hb]; exists b.
        -- rewrite str_app_cons. by rewrite Hb.
        -- rewrite str_app_cons in Hb. by injection Hb.
      * split; [discriminate|]. intros [b Hb]. rewrite str_app_cons in Hb.
        injection Hb as -> _. by destruct Hne.
Qed.

(** [sub in s] holds exactly when [s] reads [a + sub + b]. *)
Lemma contains_spec (sub s : string) :
  PyStr.contains sub s = true <-> exists a b, s = a +:+ sub +:+ b.
Proof.
  induction s as [|c s IH]; cbn [PyStr.contains].
  - rewrite orb_false_r, prefix_spec. split.
    + intros [b Hb]. by exists EmptyString, b.
    + intros [a [b H]]. destruct a; [by exists b|discriminate].
  - rewrite orb_true_iff, prefix_spec, IH. split.
    + intros [[b Hb]|[a [b Hab]]]; [by exists EmptyString, b|].
      exists (String c a), b. rewrite str_app_cons. by rewrite Hab.
    + intros [a [b H]]. destruct a as [|c' a]; [left; by exists b|].
      right. rewrite str_app_cons in H. injection H as -> H. by exists a, b.
Qed.

Lemma contains_false_cons (sub : string) (c : ascii) (s : string) :
  PyStr.contains sub (String c s) = false ->
  String.prefix sub (String c s) = false /\ PyStr.contains sub s = false.
Proof. cbn [PyStr.contains]. by intros [? ?]%orb_false_elim. Qed.

(** Whether a one-character text is a prefix depends on the first character
    alone. *)
Lemma prefix_char_cons (c d : ascii) (s t : string) :
  String.prefix (String c EmptyString) (String d s)
  = String.prefix (String c EmptyString) (String d t).
Proof.
  cbn [String.prefix]. destruct (ascii_dec c d); [by rewrite !prefix_nil|reflexivity].
Qed.

Lemma prefix_char_same (c : ascii) (s : string) :
  String.prefix (String c EmptyString) (String c s) = true.
Proof. cbn [String.prefix]. destruct (ascii_dec c c); [apply prefix_nil|done]. Qed.

Lemma find_from_none (c : ascii) (s : string) (i : Z) :
  PyStr.contains (String c EmptyString) s = false ->
  PyStr.find_from (String c EmptyString) s i = -1.
Proof.
  revert i. induction s as [|d s IH]; intros i H.
  - reflexivity.
  - apply contains_false_cons in H as [Hp Hc].
    cbn [PyStr.find_from]. rewrite Hp. by apply IH.
Qed.

Lemma find_from_first (c : ascii) (a b : string) (i : Z) :
  PyStr.contains (String c EmptyString) a = false ->
  PyStr.find_from (String c EmptyString) (a +:+ String c b) i
  = i + Z.of_nat (String.length a).
Proof.
  revert i. induction a as [|d a IH]; intros i H.
  - rewrite str_app_nil_l. cbn [PyStr.find_from]. rewrite prefix_char_same.
    cbn [String.length]. lia.
  - apply contains_false_cons in H as [Hp Hc].
    rewrite str_app_cons. cbn [PyStr.find_from].
    rewrite (prefix_char_cons c d _ a), Hp, IH by exact Hc.
    cbn [String.length]. lia.
Qed.

Lemma rfind_from_none (c : ascii) (s : string) (i : Z) :
  PyStr.contains (String c EmptyString) s = false ->
  PyStr.rfind_from (String c EmptyString) s i = -1.
Proof.
  revert i. induction s as [|d s IH]; intros i H.
  - reflexivity.
  - apply contains_false_cons in H as [Hp Hc].
    cbn [PyStr.rfind_from]. rewrite IH by exact Hc. by rewrite Hp.
Qed.

Lemma rfind_from_last (c : ascii) (a b : string) (i : Z) :
  0 <= i ->
  PyStr.contains (String c EmptyString) b = false ->
  PyStr.rfind_from (String c EmptyString) (a +:+ String c b) i
  = i + Z.of_nat (String.length a).
Proof.
  revert i. induction a as [|d a IH]; intros i Hi H.
  - rewrite str_app_nil_l. cbn [PyStr.rfind_from].
    rewrite rfind_from_none by exact H. rewrite prefix_char_same.
    change (-1 =? -1) with true. cbn [String.length]. lia.
  - rewrite str_app_cons. cbn [PyStr.rfind_from]. rewrite IH by (lia || exact H).
    destruct (i + 1 + Z.of_nat (String.length a) =? -1) eqn:E;
      [apply Z.eqb_eq in E; lia|].
    cbn [String.length]. lia.
Qed.

Lemma substring_none (n : nat) (s : string) : String.substring n 0 s = EmptyString.
Proof.
  revert s. induction n as [|n IH]; intros s; destruct s; cbn [String.substring]; auto.
Qed.

Lemma substring_head (s b : string) :
  String.substring 0 (String.length s) (s +:+ b) = s.
Proof.
  induction s as [|c s IH].
  - rewrite str_app_nil_l. by destruct b.
  - rewrite str_app_cons. cbn [String.length String.substring]. by rewrite IH.
Qed.

Lemma substring_skip (a t : string) (m : nat) :
  String.substring (String.length a) m (a +:+ t) = String.substring 0 m t.
Proof.
  induction a as [|c a IH]; [reflexivity|].
  rewrite str_app_cons. cbn [String.length String.substring]. exact IH.
Qed.

(** [(a + s + b)[len(a) : len(a) + len(s)]] is [s]. *)
Lemma slice_middle (a s b : string) :
  PyStr.slice (a +:+ s +:+ b) (Z.of_nat (String.length a))
              (Z.of_nat (String.length a) + Z.of_nat (String.length s)) = s.
Proof.
  unfold PyStr.slice. rewrite !str_length_app.
  destruct (Z.ltb_spec (Z.of_nat (String.length a)) 0); [lia|].
  destruct (Z.ltb_spec (Z.of_nat (String.length a) + Z.of_nat (String.length s)) 0); [lia|].
  rewrite !Z.min_l by lia.
  rewrite Nat2Z.id.
  replace (Z.to_nat (Z.of_nat (String.length a) + Z.of_nat (String.length s)
                     - Z.of_nat (String.length a))) with (String.length s) by lia.
  by rewrite substring_skip, substring_head.
Qed.

(** A slice whose end does not lie after its start is empty. *)
Lemma slice_empty (s : string) (i j : Z) :
  0 <= j <= i -> PyStr.slice s i j = EmptyString.
Proof.
  intros H. unfold PyStr.slice.
  destruct (Z.ltb_spec i 0); [lia|]. destruct (Z.ltb_spec j 0); [lia|].
  replace (Z.to_nat (Z.min j (Z.of_nat (String.length s))
                     - Z.min i (Z.of_nat (String.length s)))) with 0%nat by lia.
  apply substring_none.
Qed.

(** What [strip] removes: [s] reads [a + s.strip() + b] with [a] and [b]
    made of white space, and [s.strip()] neither starts nor ends with white
    space. *)
Lemma lstrip_spec (s : string) :
  exists a, s = a +:+ PyStr.lstrip s
            /\ all_space a = true
            /\ forall c, first_char (PyStr.lstrip s) = Some c -> PyStr.is_space c = false.
Proof.
  induction s as [|c r (a & Hr & Ha & Hf)].
  - by exists EmptyString.
  - cbn [PyStr.lstrip]. destruct (PyStr.is_space c) eqn:Hc.
    + exists (String c a). rewrite str_app_cons, <- Hr. cbn [all_space].
      by rewrite Hc, Ha.
    + exists EmptyString. repeat split. intros c' [= <-]. exact Hc.
Qed.

Lemma rstrip_spec (s : string) :
  exists b, s = PyStr.rstrip s +:+ b
            /\ all_space b = true
            /\ forall c, last_char (PyStr.rstrip s) = Some c -> PyStr.is_space c = false.
Proof.
  induction s as [|c r (b & Hr & Hb & Hl)].
  - by exists EmptyString.
  - cbn [PyStr.rstrip]. destruct (PyStr.rstrip r) as [|d t] eqn:Ht.
    + rewrite str_app_nil_l in Hr. subst r.
      destruct (PyStr.is_space c) eqn:Hc.
      * exists (String c b). cbn [all_space]. rewrite Hc, Hb. by repeat split.
      * exists b. repeat split; [exact Hb|]. intros c' [= <-]. exact Hc.
    + exists b. rewrite str_app_cons, <- Hr. repeat split; [exact Hb|].
      intros c' H. apply Hl. exact H.
Qed.

Lemma last_char_lstrip (t : string) (c : ascii) :
  last_char (PyStr.lstrip t) = Some c -> last_char t = Some c.
Proof.
  induction t as [|d r IH]; [done|]. cbn [PyStr.lstrip].
  destruct (PyStr.is_space d); [|done].
  intros H. specialize (IH H). destruct r; [discriminate|exact IH].
Qed.

Lemma strip_spec (s : string) :
  exists a b,
    s = a +:+ PyStr.strip s +:+ b
    /\ all_space a = true /\ all_space b = true
    /\ (forall c, first_char (PyStr.strip s) = Some c -> PyStr.is_space c = false)
    /\ (forall c, last_char (PyStr.strip s) = Some c -> PyStr.is_space c = false).
Proof.
  destruct (rstrip_spec s) as (b & Hs & Hb & Hl).
  destruct (lstrip_spec (PyStr.rstrip s)) as (a & Hr & Ha & Hf).
  exists a, b. unfold PyStr.strip. repeat split; try done.
  - by rewrite <- str_app_assoc, <- Hr.
  - intros c H. apply Hl. by apply last_char_lstrip.
Qed.

(** White space and letter case, as the statements spell them out, are
    what [str.strip] and [str.lower] implement. *)
Lemma is_space_white (c : ascii) : PyStr.is_space c = true <-> white_space c.
Proof.
  unfold PyStr.is_space, white_space. cbn zeta. cbn [In].
  rewrite !orb_true_iff, !andb_true_iff, !N.leb_le, !N.eqb_eq. lia.
Qed.

Lemma all_space_blank (s : string) : all_space s = true <-> blank s.
Proof.
  induction s as [|c s IH]; [done|]. cbn [all_space blank].
  by rewrite andb_true_iff, is_space_white, IH.
Qed.

Lemma N_of_lower_char (c : ascii) :
  (capital (N_of_ascii c) /\ N_of_ascii (PyStr.lower_char c) = N_of_ascii c + 32
   \/ ~ capital (N_of_ascii c) /\ N_of_ascii (PyStr.lower_char c) = N_of_ascii c)%N.
Proof.
  unfold PyStr.lower_char, capital. cbn zeta.
  pose proof (N_ascii_bounded c) as Hb.
  destruct (_ || _) eqn:E.
  - left. rewrite orb_true_iff, !andb_true_iff, negb_true_iff, !N.leb_le, N.eqb_neq in E.
    split; [lia|]. apply N_ascii_embedding. lia.
  - right. rewrite orb_false_iff, !andb_false_iff, negb_false_iff, !N.leb_gt, N.eqb_eq in E.
    split; [lia|reflexivity].
Qed.

Lemma lower_char_same_letter (a b : ascii) :
  PyStr.lower_char a = PyStr.lower_char b <-> same_letter a b.
Proof.
  unfold same_letter.
  destruct (N_of_lower_char a) as [[Ha Hla]|[Ha Hla]];
    destruct (N_of_lower_char b) as [[Hb Hlb]|[Hb Hlb]].
  all: split;
    [ intros H; apply (f_equal N_of_ascii) in H; rewrite Hla, Hlb in H;
      unfold capital in *; lia
    | intros H;
      rewrite <- (ascii_N_embedding (PyStr.lower_char a)),
              <- (ascii_N_embedding (PyStr.lower_char b)), Hla, Hlb;
      f_equal; unfold capital in *; lia ].
Qed.

Lemma lower_app (a b : string) : PyStr.lower (a +:+ b) = PyStr.lower a +:+ PyStr.lower b.
Proof.
  induction a as [|c a IH]; [reflexivity|].
  rewrite str_app_cons. cbn [PyStr.lower]. by rewrite IH, str_app_cons.
Qed.

Lemma lower_split (x : string) : forall s y,
  PyStr.lower s = x +:+ y ->
  exists s1 s2, s = s1 +:+ s2 /\ PyStr.lower s1 = x /\ PyStr.lower s2 = y.
Proof.
  induction x as [|c x IH]; intros s y H.
  - exists EmptyString, s. by repeat split.
  - destruct s as [|d s]; [discriminate|].
    rewrite str_app_cons in H. cbn [PyStr.lower] in H. injection H as Hc Hs.
    destruct (IH s y Hs) as (s1 & s2 & -> & H1 & H2).
    exists (String d s1), s2. rewrite str_app_cons. cbn [PyStr.lower].
    by rewrite Hc, H1.
Qed.

Lemma same_text_lower (m : string) : forall name,
  same_text m name <-> PyStr.lower m = PyStr.lower name.
Proof.
  induction m as [|c m IH]; intros [|d name]; cbn [same_text PyStr.lower]; try done.
  rewrite <- lower_char_same_letter, IH. split.
  - by intros [-> ->].
  - by intros [= -> ->].
Qed.

(** Occurring in the lower-cased text is being named in the text. *)
Lemma occurs_in_named (name text : string) : occurs_in name text <-> named_in name text.
Proof.
  unfold occurs_in, named_in. split.
  - intros (a' & b' & H).
    destruct (lower_split a' text _ H) as (a & rest & -> & Ha & Hrest).
    destruct (lower_split (PyStr.lower name) rest _ Hrest) as (m & b & -> & Hm & Hb).
    exists a, m, b. split; [reflexivity|]. by apply same_text_lower.
  - intros (a & m & b & -> & Hm%same_text_lower).
    exists (PyStr.lower a), (PyStr.lower b). by rewrite !lower_app, Hm.
Qed.

(** [str.strip] removes the white space at the two ends, and nothing else. *)
Lemma strip_trims (s : string) :
  exists a b, s = a +:+ PyStr.strip s +:+ b /\ blank a /\ blank b /\ trimmed (PyStr.strip s).
Proof.
  destruct (strip_spec s) as (a & b & Hs & Ha & Hb & Hf & Hl).
  exists a, b. split; [exact Hs|].
  split; [by apply all_space_blank|]. split; [by apply all_space_blank|].
  split; intros c Hc Hw%is_space_white.
  - by rewrite (Hf c Hc) in Hw.
  - by rewrite (Hl c Hc) in Hw.
Qed.

End StringFacts.

(** ** Claims about the response interpreters *)

Lemma contains_occurs (name text : string) :
  PyStr.contains (PyStr.lower name) (PyStr.lower text) = true <-> occurs_in name text.
Proof. apply contains_spec. Qed.

Lemma first_match_spec (cats : list string) (category : string) :
  match Interpret.first_match cats category with
  | Some c =>
      exists before after,
        cats = before ++ c :: after
        /\ occurs_in c category
        /\ Forall (fun c' => ~ occurs_in c' category) before
  | None => Forall (fun c' => ~ occurs_in c' category) cats
  end.
Proof.
  induction cats as [|cat rest IH]; cbn [Interpret.first_match]; [constructor|].
  destruct (PyStr.contains (PyStr.lower cat) (PyStr.lower category)) eqn:E.
  - exists [], rest. split; [reflexivity|]. split; [by apply contains_occurs|constructor].
  - assert (Hno : ~ occurs_in cat category).
    { intros H%contains_occurs. congruence. }
    destruct (Interpret.first_match rest category) as [c|].
    + destruct IH as (before & after & -> & Hin & Hall).
      exists (cat :: before), after. split; [reflexivity|]. split; [exact Hin|].
      by constructor.
    + by constructor.
Qed.

(** C3.  For a non-empty raw response [r], with [t] the response without
    the white space at its two ends, the category interpreter returns a
    value: the first of Important, Newsletter, Spam, To-Do, in this order,
    that is named in [t] up to letter case, or, when none is, [t] itself.
    It returns none when the model call gave none. *)
Theorem C3_category_total (r : string) :
  r <> EmptyString ->
  (exists a t b c,
     r = a +:+ t +:+ b /\ blank a /\ blank b /\ trimmed t
     /\ Interpret.category_of_response (Some r) = Some c
     /\ ((exists before after,
            ["Important"; "Newsletter"; "Spam"; "To-Do"] = before ++ c :: after
            /\ named_in c t
            /\ Forall (fun c' => ~ named_in c' t) before)
         \/ (Forall (fun c' => ~ named_in c' t)
               ["Important"; "Newsletter"; "Spam"; "To-Do"]
             /\ c = t)))
  /\ Interpret.category_of_response None = None.
Proof.
  intros Hne. split; [|reflexivity].
  destruct (strip_spec r) as (a & b & Hr & Ha & Hb & Hf & Hl).
  exists a, (PyStr.strip r), b.
  assert (Hno : forall l, Forall (fun c' => ~ occurs_in c' (PyStr.strip r)) l ->
                          Forall (fun c' => ~ named_in c' (PyStr.strip r)) l).
  { intros l Hl'. eapply Forall_impl; [exact Hl'|].
    intros c' H Hn. by apply H, occurs_in_named. }
  assert (Htrim : trimmed (PyStr.strip r)).
  { split; intros c Hc Hw%is_space_white.
    - by rewrite (Hf c Hc) in Hw.
    - by rewrite (Hl c Hc) in Hw. }
  unfold Interpret.category_of_response.
  destruct r as [|x r]; [done|]. cbn [PyStr.truthy].
  pose proof (first_match_spec Interpret.valid_categories (PyStr.strip (String x r))) as H.
  destruct (Interpret.first_match Interpret.valid_categories (PyStr.strip (String x r)))
    as [c|].
  - exists c. split; [exact Hr|]. split; [by apply all_space_blank|].
    split; [by apply all_space_blank|]. split; [exact Htrim|].
    split; [reflexivity|]. left.
    destruct H as (before & after & Hcats & Hin & Hall).
    exists before, after. split; [exact Hcats|].
    split; [by apply occurs_in_named|by apply Hno].
  - exists (PyStr.strip (String x r)). split; [exact Hr|].
    split; [by apply all_space_blank|]. split; [by apply all_space_blank|].
    split; [exact Htrim|]. split; [reflexivity|]. right.
    split; [by apply Hno|reflexivity].
Qed.

Lemma str_app_char (c : ascii) (s : string) : String c EmptyString +:+ s = String c s.
Proof. reflexivity. Qed.

(** The positions of the brackets in a text whose first opening bracket
    precedes its last closing bracket, and in one where it is the other way
    round. *)
Lemma bracketed_find (a mid b : string) :
  PyStr.contains "[" a = false ->
  PyStr.find (a +:+ "[" +:+ mid +:+ "]" +:+ b) "[" = Z.of_nat (String.length a).
Proof.
  intros Ha. unfold PyStr.find. rewrite str_app_char.
  by rewrite (find_from_first _ a _ 0 Ha).
Qed.

Lemma bracketed_rfind (a mid b : string) :
  PyStr.contains "]" b = false ->
  PyStr.rfind (a +:+ "[" +:+ mid +:+ "]" +:+ b) "]"
  = Z.of_nat (String.length a) + Z.of_nat (String.length mid) + 1.
Proof.
  intros Hb. unfold PyStr.rfind.
  replace (a +:+ "[" +:+ mid +:+ "]" +:+ b)
    with ((a +:+ "[" +:+ mid) +:+ String "]" b)
    by (by rewrite !str_app_assoc).
  rewrite (rfind_from_last _ (a +:+ "[" +:+ mid) b 0) by (lia || exact Hb).
  rewrite !str_length_app. cbn [String.length]. lia.
Qed.

Lemma reversed_find (a mid b : string) :
  PyStr.contains "[" (a +:+ "]" +:+ mid) = false ->
  PyStr.find (a +:+ "]" +:+ mid +:+ "[" +:+ b) "["
  = Z.of_nat (String.length a) + Z.of_nat (String.length mid) + 1.
Proof.
  intros Ha. unfold PyStr.find.
  replace (a +:+ "]" +:+ mid +:+ "[" +:+ b)
    with ((a +:+ "]" +:+ mid) +:+ String "[" b)
    by (by rewrite !str_app_assoc).
  rewrite (find_from_first _ (a +:+ "]" +:+ mid) b 0 Ha).
  rewrite !str_length_app. cbn [String.length]. lia.
Qed.

Lemma reversed_rfind (a mid b : string) :
  PyStr.contains "]" (mid +:+ "[" +:+ b) = false ->
  PyStr.rfind (a +:+ "]" +:+ mid +:+ "[" +:+ b) "]" = Z.of_nat (String.length a).
Proof.
  intros Hb. unfold PyStr.rfind. rewrite str_app_char.
  by rewrite (rfind_from_last _ a (mid +:+ "[" +:+ b) 0) by (lia || exact Hb).
Qed.

(** C4 (with the failing case).  With [r] the trimmed response (the
    response without the white space at its two ends): when [r]
    has no opening or no closing bracket the interpreter returns the empty
    list; when the first opening bracket comes before the last closing
    bracket, the text from the one through the other is handed to
    [json.loads]: an array is returned as it is, any other value gives the
    empty list, and so does a [JSONDecodeError]; every other exception of
    [json.loads] (the ValueError of an integer of more than 4300 digits, the
    RecursionError of deep nesting) is raised to the caller.  When the last
    closing bracket comes before the first opening bracket the text parsed
    is empty.  A failed model call gives the empty list. *)
Theorem C4_task_list_interpreter (rt : PyRuntime) (response : string) :
  let r := PyStr.strip response in
  let items := Interpret.action_items_of_response rt (Some response) in
  (PyStr.contains "[" r = false \/ PyStr.contains "]" r = false -> items = Ret [])
  /\ (forall a mid b,
        r = a +:+ "[" +:+ mid +:+ "]" +:+ b ->
        PyStr.contains "[" a = false ->
        PyStr.contains "]" b = false ->
        match json_loads rt ("[" +:+ mid +:+ "]") with
        | Ret (JArray parsed) => items = Ret parsed
        | Ret _ => items = Ret []
        | Exc e =>
            if is_JSONDecodeError (exc_cls e) then items = Ret [] else items = Exc e
        end)
  /\ (forall a mid b,
        r = a +:+ "]" +:+ mid +:+ "[" +:+ b ->
        PyStr.contains "[" (a +:+ "]" +:+ mid) = false ->
        PyStr.contains "]" (mid +:+ "[" +:+ b) = false ->
        items = decoded_array rt EmptyString)
  /\ Interpret.action_items_of_response rt None = Ret []
  /\ exists a b, response = a +:+ r +:+ b /\ blank a /\ blank b /\ trimmed r.
Proof.
  cbn zeta. unfold Interpret.action_items_of_response.
  split; [|split; [|split; [|split; [reflexivity|apply strip_trims]]]].
  - intros H. destruct response as [|x s]; [reflexivity|]. cbn [PyStr.truthy].
    unfold PyStr.find, PyStr.rfind.
    destruct H as [H|H].
    + by rewrite (find_from_none _ _ _ H).
    + rewrite (rfind_from_none _ _ _ H). by rewrite andb_false_r.
  - intros a mid b Hr Ha Hb.
    destruct response as [|x s]; [by destruct a|]. cbn [PyStr.truthy].
    rewrite Hr. clear Hr x s.
    rewrite (bracketed_find a mid b Ha), (bracketed_rfind a mid b Hb).
    destruct (Z.eqb_spec (Z.of_nat (String.length a)) (-1)); [lia|].
    destruct (Z.eqb_spec
                (Z.of_nat (String.length a) + Z.of_nat (String.length mid) + 1) (-1));
      [lia|].
    cbn [negb andb].
    replace (a +:+ "[" +:+ mid +:+ "]" +:+ b)
      with (a +:+ ("[" +:+ mid +:+ "]") +:+ b)
      by (by rewrite !str_app_assoc).
    replace (Z.of_nat (String.length a) + Z.of_nat (String.length mid) + 1 + 1)
      with (Z.of_nat (String.length a)
            + Z.of_nat (String.length ("[" +:+ mid +:+ "]"))).
    + rewrite slice_middle.
      destruct (json_loads rt ("[" +:+ mid +:+ "]")) as [[]|e]; try reflexivity.
      by destruct (is_JSONDecodeError (exc_cls e)).
    + rewrite !str_length_app. cbn [String.length]. lia.
  - intros a mid b Hr Ha Hb.
    destruct response as [|x s]; [by destruct a|]. cbn [PyStr.truthy].
    rewrite Hr. clear Hr x s.
    rewrite (reversed_find a mid b Ha), (reversed_rfind a mid b Hb).
    destruct (Z.eqb_spec
                (Z.of_nat (String.length a) + Z.of_nat (String.length mid) + 1) (-1));
      [lia|].
    destruct (Z.eqb_spec (Z.of_nat (String.length a)) (-1)); [lia|].
    cbn [negb andb]. unfold decoded_array.
    rewrite slice_empty by lia. reflexivity.
Qed.

(** ** Claims about the batch and the router *)

Lemma stays_emits {A} P (m : M A) : stays P m -> emits P m.
Proof. intros H w. by destruct (H w). Qed.

Lemma emits_ret {A} P (a : A) : emits P (ret a).
Proof. apply stays_emits, stays_ret. Qed.

Lemma emits_bind {A B} P (m : M A) (k : A -> M B) :
  emits P m -> (forall a, emits P (k a)) -> emits P (bind m k).
Proof.
  intros Hm Hk w. unfold bind.
  destruct (Hm w) as [evs [Htr Hall]].
  destruct (m w) as [[a|e] w1]; simpl in *.
  - destruct (Hk a w1) as [evs' [Htr' Hall']].
    exists (evs ++ evs'). rewrite Htr', Htr, app_assoc. split; [done|].
    by apply Forall_app.
  - by exists evs.
Qed.

Lemma emits_try_except {A} P (m : M A) (h : py_exception -> M A) :
  emits P m -> (forall e, emits P (h e)) -> emits P (try_except m h).
Proof.
  intros Hm Hh w. unfold try_except.
  destruct (Hm w) as [evs [Htr Hall]].
  destruct (m w) as [[a|e] w1]; simpl in *.
  - by exists evs.
  - destruct (Hh e w1) as [evs' [Htr' Hall']].
    exists (evs ++ evs'). rewrite Htr', Htr, app_assoc. split; [done|].
    by apply Forall_app.
Qed.

Lemma emits_write P op (f : Database -> Database) :
  P (EvDb op) -> emits P (Db.write op f).
Proof.
  intros HP w. unfold Db.write, bind, emit. simpl.
  exists [EvDb op]. destruct (write_fails w (db_writes w)); simpl;
    (split; [reflexivity|by constructor]).
Qed.

Lemma emits_update_email P email_id new_category new_items new_processed :
  P (EvDb (DbUpdateEmail email_id new_category new_items new_processed)) ->
  emits P (Db.update_email email_id new_category new_items new_processed).
Proof.
  intros HP. unfold Db.update_email.
  destruct (_ || _); [destruct (Db.int64 email_id)|]; try by apply emits_write.
  by apply stays_emits, stays_refused.
Qed.

Lemma lookups_of_app (evs1 evs2 : list event) :
  lookups_of (evs1 ++ evs2) = lookups_of evs1 ++ lookups_of evs2.
Proof. apply omap_app. Qed.

Lemma lookups_of_none (evs : list event) : Forall no_lookup evs -> lookups_of evs = [].
Proof.
  induction 1 as [|e evs He _ IH]; [reflexivity|].
  unfold lookups_of in *. cbn [omap list_omap]. rewrite IH.
  destruct e as [| | | |[]|]; simpl in He; done.
Qed.

Section BatchClaims.

Context (rt : PyRuntime) (max_retries : Z) (service : provider).

Abbreviation process_one := (EmailProcessor.process_email rt max_retries service).
Abbreviation outcomes_of := (item_outcomes rt max_retries service).

Lemma count_failed_le (l : list (result bool)) : (count_failed l <= length l)%nat.
Proof. induction l as [|r l IH]; simpl; [lia|]. destruct (item_failed r); lia. Qed.

Lemma item_outcomes_length (ids : list Z) : forall w, length (outcomes_of ids w) = length ids.
Proof.
  induction ids as [|id ids IH]; intros w; simpl; [reflexivity|].
  destruct (process_one id w) as [r w1]. simpl. by rewrite IH.
Qed.

(** After its lookup, [process_email] looks no Item up. *)
Lemma process_email_lookup (email_id : Z) (w : World) :
  exists evs,
    trace (process_one email_id w).2 = trace w ++ EvDb (DbGetEmail email_id) :: evs
    /\ Forall no_lookup evs.
Proof.
  unfold EmailProcessor.process_email. rewrite bind_run, get_email_run.
  set (w0 := set_trace w (trace w ++ [EvDb (DbGetEmail email_id)])).
  assert (Hlog : forall id op st r e,
            emits no_lookup (EmailProcessor._log_processing id op st r e)).
  { intros. apply stays_emits, stays_log_processing. intros; exact I. }
  assert (Hk : forall email : option Email,
    emits no_lookup
      (match email with
       | None => ret false
       | Some email =>
           bind (EmailProcessor._categorize_email rt max_retries service email)
             (fun category =>
                match category with
                | Some c =>
                    if PyStr.truthy c then
                      bind (EmailProcessor._extract_action_items rt max_retries service email)
                        (fun action_items =>
                           try_except
                             (bind (Db.update_email email_id (Some c) (Some action_items)
                                      (Some true))
                                (fun _ =>
                                   bind (EmailProcessor._log_processing email_id
                                           "complete_processing" "success"
                                           (Some ("Category: " +:+ c +:+ ", Actions: "
                                                  +:+ pretty (length action_items))) None)
                                     (fun _ => ret true)))
                             (fun e =>
                                bind (EmailProcessor._log_processing email_id
                                        "database_update" "failed" None (Some (exc_str e)))
                                  (fun _ => ret false)))
                    else
                      bind (EmailProcessor._log_processing email_id "categorization"
                              "failed" None (Some "LLM categorization failed"))
                        (fun _ => ret false)
                | None =>
                    bind (EmailProcessor._log_processing email_id "categorization"
                            "failed" None (Some "LLM categorization failed"))
                      (fun _ => ret false)
                end)
       end)).
  { intros [email|]; [|apply emits_ret].
    apply emits_bind.
    { apply stays_emits, stays_categorize; [|intros; exact I..].
      intros e He. destruct e as [| | |[]| |]; simpl in *; tauto. }
    intros [c|]; [destruct (PyStr.truthy c)|];
      try (apply emits_bind; [apply Hlog|intros; apply emits_ret]).
    apply emits_bind.
    { apply stays_emits, stays_extract; [|intros; exact I..].
      intros e He. destruct e as [| | |[]| |]; simpl in *; tauto. }
    intros items. apply emits_try_except.
    - apply emits_bind; [apply emits_update_email; exact I|]. intros _.
      apply emits_bind; [apply Hlog|intros; apply emits_ret].
    - intros e. apply emits_bind; [apply Hlog|intros; apply emits_ret]. }
  destruct (looked_up (w_db w) email_id) as [email|e].
  - destruct (Hk email w0) as [evs [Htr Hall]].
    exists evs. split; [|exact Hall].
    rewrite Htr. subst w0. cbn [trace set_trace]. by rewrite <- app_assoc.
  - exists []. split; [reflexivity|constructor].
Qed.

(** The loop of the batch from any dictionary of results. *)
Lemma batch_loop_counts (ids : list Z) : forall (res0 : batch_results) (w : World),
  exists res w' evs,
    EmailProcessor.batch_loop rt max_retries service ids res0 w = (Ret res, w')
    /\ total res = total res0
    /\ failed res = (failed res0 + count_failed (outcomes_of ids w))%nat
    /\ successful res
       = (successful res0 + (length ids - count_failed (outcomes_of ids w)))%nat
    /\ length (errors res)
       = (length (errors res0) + count_failed (outcomes_of ids w))%nat
    /\ trace w' = trace w ++ evs
    /\ lookups_of evs = ids.
Proof.
  induction ids as [|id ids IH]; intros res0 w.
  - exists res0, w, []. simpl. rewrite app_nil_r, !Nat.add_0_r. by repeat split.
  - cbn [EmailProcessor.batch_loop item_outcomes]. rewrite bind_run.
    unfold EmailProcessor.batch_step, try_except. rewrite bind_run.
    destruct (process_email_lookup id w) as [evs1 [Htr1 Hall1]].
    pose proof (count_failed_le (outcomes_of ids (process_one id w).2)) as Hle.
    rewrite item_outcomes_length in Hle.
    destruct (process_one id w) as [[[|]|e] w1]; cbn [snd] in Htr1, Hle;
      unfold ret at 1; cbn beta iota;
      match goal with
      | |- context [EmailProcessor.batch_loop _ _ _ ids ?r w1] =>
          destruct (IH r w1) as (res & w' & evs & Hrun & Ht & Hf & Hs & He & Htr & Hl)
      end;
      exists res, w', (EvDb (DbGetEmail id) :: evs1 ++ evs);
      (split; [exact Hrun|]);
      rewrite Ht, Hf, Hs, He, Htr, Htr1;
      cbn [total failed successful errors count_failed item_failed length];
      rewrite ?length_app; cbn [length];
      (repeat split; try lia;
       [ by rewrite <- app_assoc
       | change (EvDb (DbGetEmail id) :: evs1 ++ evs)
           with ([EvDb (DbGetEmail id)] ++ evs1 ++ evs);
         rewrite !lookups_of_app, (lookups_of_none evs1 Hall1), Hl; reflexivity ]).
Qed.


End BatchClaims.

Section RouterClaims.

Context (rt : PyRuntime) (max_retries : Z) (service : provider).

Abbreviation answer := (UnifiedLLMService.answer_query max_retries service).
Abbreviation route := (EmailAgent.handle_query rt max_retries service).

Lemma bind_ret_inv {A B} (m : M A) (k : A -> M B) (w : World) (b : B) :
  (bind m k w).1 = Ret b -> exists a w1, m w = (Ret a, w1) /\ (k a w1).1 = Ret b.
Proof.
  rewrite bind_run. destruct (m w) as [[a|e] w1]; [|discriminate].
  intros H. by exists a, w1.
Qed.

(** The answer operation records itself, then only its transport. *)
Lemma answer_query_trace query context prompt_context history w :
  exists evs,
    trace (answer query context prompt_context history w).2
    = trace w ++ EvLLM (OpAnswer query context history) :: evs
    /\ Forall transport_event evs.
Proof.
  destruct service; cbn [UnifiedLLMService.answer_query].
  - unfold OllamaService.answer_query. rewrite bind_run. unfold emit.
    match goal with
    | |- context [OllamaService._call_llm ?m ?t ?k ?w0] =>
        destruct (stays_ollama_call_llm m t k w0) as [_ [evs [Htr Hall]]]
    end.
    exists evs. split; [|exact Hall].
    rewrite Htr. cbn [trace set_trace]. by rewrite <- app_assoc.
  - unfold LLMService.answer_query. rewrite bind_run. unfold emit.
    match goal with
    | |- context [LLMService._call_llm _ ?m ?t ?k ?w0] =>
        destruct (stays_openai_call_llm max_retries m t k w0) as [_ [evs [Htr Hall]]]
    end.
    exists evs. split; [|exact Hall].
    rewrite Htr. cbn [trace set_trace]. by rewrite <- app_assoc.
Qed.

(** Whatever the router returns is a non-empty text: the model's answer when
    it is one, the fixed fallback otherwise. *)
Lemma handle_query_returns_text query selected history w s :
  (route query selected history w).1 = Ret s -> s <> EmptyString.
Proof.
  unfold EmailAgent.handle_query.
  intros (ctx & w1 & _ & H)%bind_ret_inv.
  apply bind_ret_inv in H as (response & w2 & _ & H).
  destruct response as [[|c r]|]; cbn in H; injection H as <-; done.
Qed.

(** C9 (the failing case).  When the focused Item's first stored task is not
    an object, building the item context raises AttributeError and
    [handle_query] raises it to its caller: no text is returned. *)
Theorem C9_router_raises_on_text_task query (id : Z) history (w : World)
    (email : Email) (item : json) (rest : list json) :
  id <> 0 ->
  emails (w_db w) !! id = Some email ->
  action_items email = item :: rest ->
  (forall fields, item <> JObject fields) ->
  (route query (Some id) history w).1
  = Exc (PyExc AttributeError
           ("'" +:+ EmailAgent.py_type_name item +:+ "' object has no attribute 'get'")).
Proof.
  intros Hid Hget Hitems Hitem.
  unfold EmailAgent.handle_query, EmailAgent.truthy_id.
  destruct (Z.eqb_spec id 0) as [|_]; [done|].
  rewrite bind_run, bind_run, get_email_run, (looked_up_found _ _ _ Hget). rewrite bind_run.
  unfold lift, EmailAgent._build_email_context. rewrite Hitems.
  cbn [EmailAgent.task_lines].
  destruct item; try reflexivity. by destruct (Hitem fields).
Qed.

(** C10 (as amended).  For a focused id other than 0 that the store can
    look up (a 64-bit integer) and under which no Item is stored, the run
    looks the Item up, then calls the answer operation with no context, and
    after that only the provider's transport runs: the keyword
    classification of the query is not consulted.  A focused id of 0 is
    treated as no focus: the run is the run without a focused id, and it
    starts by consulting the keyword classification.  An id outside the
    64-bit range cannot be looked up: [OverflowError] is raised before the
    answer operation is called. *)
Theorem C10_missing_item_no_context query history (w : World) :
  (forall id : Z,
     id <> 0 -> - 2 ^ 63 <= id < 2 ^ 63 -> emails (w_db w) !! id = None ->
     exists evs,
       trace (route query (Some id) history w).2
       = trace w ++ EvDb (DbGetEmail id)
                 :: EvLLM (OpAnswer query None (EmailAgent.recent_messages history))
                 :: evs
       /\ Forall transport_event evs
       /\ Forall (fun e => forall q, e <> EvIsInboxQuery q)
            (EvDb (DbGetEmail id)
               :: EvLLM (OpAnswer query None (EmailAgent.recent_messages history)) :: evs))
  /\ (route query (Some 0) history w = route query None history w
      /\ exists evs,
           trace (route query (Some 0) history w).2
           = trace w ++ EvIsInboxQuery query :: evs)
  /\ (forall id : Z,
        ~ - 2 ^ 63 <= id < 2 ^ 63 -> emails (w_db w) !! id = None ->
        route query (Some id) history w
        = (Exc (PyExc OverflowError "Python int too large to convert to SQLite INTEGER"),
           set_trace w (trace w ++ [EvDb (DbGetEmail id)]))).
Proof.
  split; [|split; [split|]].
  - intros id Hid Hrange%int64_true Hget.
    unfold EmailAgent.handle_query, EmailAgent.truthy_id.
    destruct (Z.eqb_spec id 0) as [|_]; [done|].
    rewrite bind_run, bind_run, get_email_run, (looked_up_missing _ _ Hget Hrange).
    unfold ret at 1. cbn beta iota.
    rewrite bind_run.
    match goal with
    | |- context [answer ?q ?c ?p ?h ?w0] =>
        destruct (answer_query_trace q c p h w0) as [evs [Htr Hall]];
        destruct (answer q c p h w0) as [[[[|x r]|]|e] w1]
    end; cbn [snd] in Htr |- *; unfold ret; cbn [snd PyStr.truthy];
      exists evs; rewrite Htr; cbn [trace set_trace]; rewrite <- app_assoc;
      (split; [reflexivity|]); (split; [exact Hall|]);
      repeat (constructor; [intros q; discriminate|]);
      (eapply Forall_impl; [exact Hall|]);
      intros ev Hev q ->; exact Hev.
  - reflexivity.
  - pose (m := bind (if EmailAgent.is_inbox_query query
                     then bind (EmailAgent._build_inbox_context query)
                            (fun c => ret (Some c))
                     else ret None)
                 (fun email_context =>
                    bind (answer query email_context None
                            (EmailAgent.recent_messages history))
                      (fun response =>
                         match response with
                         | Some r => if PyStr.truthy r then ret r
                                     else ret EmailAgent.fallback
                         | None => ret EmailAgent.fallback
                         end))).
    assert (Heq : route query (Some 0) history w
                  = m (set_trace w (trace w ++ [EvIsInboxQuery query])))
      by reflexivity.
    assert (Hemits : emits (fun _ => True) m).
    { apply emits_bind.
      - destruct (EmailAgent.is_inbox_query query); [|apply emits_ret].
        apply emits_bind; [|intros; apply emits_ret].
        unfold EmailAgent._build_inbox_context.
        apply emits_bind; [by apply stays_emits, stays_get_all_emails|].
        intros [|x l]; apply emits_ret.
      - intros ctx. apply emits_bind.
        + intros w2. destruct (answer_query_trace query ctx None
                                 (EmailAgent.recent_messages history) w2)
            as [evs [Htr _]].
          exists (EvLLM (OpAnswer query ctx (EmailAgent.recent_messages history)) :: evs).
          split; [exact Htr|]. by apply Forall_forall.
        + intros [r|]; [destruct (PyStr.truthy r)|]; apply emits_ret. }
    rewrite Heq.
    destruct (Hemits (set_trace w (trace w ++ [EvIsInboxQuery query]))) as [evs [-> _]].
    exists evs. cbn [trace set_trace]. by rewrite <- app_assoc.
  - intros id Hrange%int64_false Hget.
    unfold EmailAgent.handle_query, EmailAgent.truthy_id.
    destruct (Z.eqb_spec id 0) as [->|_]; [done|].
    rewrite bind_run, bind_run, get_email_run.
    unfold looked_up. by rewrite Hget, Hrange.
Qed.

End RouterClaims.

(** ** The provider boundary *)

Section Boundary.

Context (rt : PyRuntime) (max_retries : Z).

(** The local provider substitutes the placeholder with [str.replace]:
    whatever the template is, its extraction invokes the model and ends as
    the interpreter of the answer ends. *)
Lemma ollama_extract_run content template w :
  exists v w',
    OllamaService.extract_action_items rt content template w
    = (Interpret.action_items_of_response rt v, w')
    /\ (backend_calls w < backend_calls w')%nat.
Proof.
  unfold OllamaService.extract_action_items. rewrite bind_run. unfold emit.
  rewrite bind_run.
  match goal with
  | |- context [OllamaService._call_llm ?m ?t ?k ?w0] =>
      pose proof (ollama_call_llm_calls m t k w0) as Hcalls;
      destruct (ollama_call_llm_returns m t k w0) as [v [w' Hrun]]
  end.
  rewrite Hrun in Hcalls |- *. exists v, w'. split; [reflexivity|exact Hcalls].
Qed.

(** Whatever the task-list interpreter raises was raised by [json.loads]. *)
Lemma action_items_raise_from_loads v e :
  Interpret.action_items_of_response rt v = Exc e ->
  exists json_str, json_loads rt json_str = Exc e /\ is_JSONDecodeError (exc_cls e) = false.
Proof.
  unfold Interpret.action_items_of_response.
  destruct v as [r|]; [|discriminate].
  destruct (PyStr.truthy r); [|discriminate].
  destruct (_ && _); [|discriminate].
  match goal with
  | |- context [json_loads rt ?str] =>
      destruct (json_loads rt str) as [[]|e'] eqn:Hloads; try discriminate
  end.
  destruct (is_JSONDecodeError (exc_cls e')) eqn:Hcls; [discriminate|].
  intros [= <-]. eauto.
Qed.

Lemma ollama_categorize_returns content template w :
  returned (OllamaService.categorize_email content template w).1 = true.
Proof.
  unfold OllamaService.categorize_email. rewrite bind_run. unfold emit.
  rewrite bind_run.
  match goal with
  | |- context [OllamaService._call_llm ?m ?t ?k ?w0] =>
      destruct (ollama_call_llm_returns m t k w0) as [v [w' ->]]
  end.
  reflexivity.
Qed.

(** The answer operation of either provider returns. *)
Lemma answer_query_returns service query context prompt_context history w :
  returned (UnifiedLLMService.answer_query max_retries service query context
              prompt_context history w).1 = true.
Proof.
  destruct service; cbn [UnifiedLLMService.answer_query].
  - unfold OllamaService.answer_query. rewrite bind_run. unfold emit.
    match goal with
    | |- context [OllamaService._call_llm ?m ?t ?k ?w0] =>
        destruct (ollama_call_llm_returns m t k w0) as [v [w' ->]]
    end.
    reflexivity.
  - unfold LLMService.answer_query. rewrite bind_run. unfold emit.
    match goal with
    | |- context [LLMService._call_llm _ ?m ?t ?k ?w0] =>
        destruct (openai_call_llm_returns max_retries m t k w0) as [v [w' ->]]
    end.
    reflexivity.
Qed.

(** C7 (the failing case).  With a template that shows a JSON object, the
    remote-API provider's [extract_action_items] and [categorize_email]
    raise the KeyError of [str.format] to their caller, before any model
    call; the local provider, which substitutes with [str.replace], does not
    raise on the template: on the same input its categorization returns, and
    its extraction invokes the model and raises nothing but what
    [json.loads] raises on the model's answer; it returns when [json.loads]
    raises nothing but [JSONDecodeError]. *)
Theorem C7_format_raises_past_boundary (content : string) (w : World) :
  (LLMService.extract_action_items rt max_retries content json_template w).1
  = Exc (PyExc KeyError (repr_str rt (dq +:+ "task" +:+ dq)))
  /\ (LLMService.categorize_email rt max_retries content json_template w).1
     = Exc (PyExc KeyError (repr_str rt (dq +:+ "task" +:+ dq)))
  /\ backend_calls (LLMService.extract_action_items rt max_retries content
                      json_template w).2 = backend_calls w
  /\ (backend_calls w
      < backend_calls (OllamaService.extract_action_items rt content
                         json_template w).2)%nat
  /\ (forall e,
        (OllamaService.extract_action_items rt content json_template w).1 = Exc e ->
        exists json_str,
          json_loads rt json_str = Exc e /\ is_JSONDecodeError (exc_cls e) = false)
  /\ ((forall json_str e,
         json_loads rt json_str = Exc e -> is_JSONDecodeError (exc_cls e) = true) ->
      returned (OllamaService.extract_action_items rt content json_template w).1 = true)
  /\ returned (OllamaService.categorize_email content json_template w).1 = true.
Proof.
  split; [reflexivity|]. split; [reflexivity|]. split; [reflexivity|].
  destruct (ollama_extract_run content json_template w) as (v & w' & -> & Hcalls).
  split; [exact Hcalls|]. split; [|split; [|apply ollama_categorize_returns]].
  - intros e. apply action_items_raise_from_loads.
  - intros Hdec. cbn [fst].
    destruct (Interpret.action_items_of_response rt v) as [items|e] eqn:Hitems;
      [reflexivity|].
    destruct (action_items_raise_from_loads v e Hitems) as (json_str & Hloads & Hcls).
    by rewrite (Hdec _ _ Hloads) in Hcls.
Qed.

End Boundary.

(** ** When the router returns *)

Section RouterTotality.

Context (rt : PyRuntime) (max_retries : Z) (service : provider).

Lemma task_lines_objects (items : list json) :
  Forall is_object items -> exists ls, EmailAgent.task_lines rt items = Ret ls.
Proof.
  induction 1 as [|item items Hitem _ [ls IH]]; [by exists []|].
  destruct item; try done. cbn [EmailAgent.task_lines EmailAgent.item_get].
  rewrite IH. destruct (find _ fields); eauto.
Qed.

Lemma build_email_context_returns (email : Email) :
  Forall is_object (action_items email) ->
  exists c, EmailAgent._build_email_context rt email = Ret c.
Proof.
  intros H. unfold EmailAgent._build_email_context.
  destruct (task_lines_objects _ H) as [ls Hls].
  destruct (action_items email); [eauto|]. rewrite Hls. eauto.
Qed.

(** With no focused Item, or a focused Item whose stored tasks are all
    objects, the router returns a non-empty text. *)
Lemma handle_query_returns query selected history w :
  (forall id email,
     EmailAgent.truthy_id selected = Some id ->
     emails (w_db w) !! id = Some email ->
     Forall is_object (action_items email)) ->
  (forall id,
     EmailAgent.truthy_id selected = Some id ->
     emails (w_db w) !! id = None ->
     Db.int64 id = true) ->
  exists s,
    (EmailAgent.handle_query rt max_retries service query selected history w).1 = Ret s
    /\ s <> EmptyString.
Proof.
  intros Hobj Hrange.
  assert (Hfinal : forall ctx w1,
    exists s,
      (bind (UnifiedLLMService.answer_query max_retries service query ctx None
               (EmailAgent.recent_messages history))
            (fun response =>
               match response with
               | Some r => if PyStr.truthy r then ret r else ret EmailAgent.fallback
               | None => ret EmailAgent.fallback
               end) w1).1 = Ret s /\ s <> EmptyString).
  { intros ctx w1. rewrite bind_run.
    pose proof (answer_query_returns max_retries service query ctx None
                  (EmailAgent.recent_messages history) w1) as Hr.
    destruct (UnifiedLLMService.answer_query _ _ _ _ _ _ w1) as [[[[|x r]|]|e] w2];
      [| | |discriminate Hr]; cbn; eauto. }
  unfold EmailAgent.handle_query. rewrite bind_run.
  destruct (EmailAgent.truthy_id selected) as [id|] eqn:Hsel.
  - rewrite bind_run, get_email_run.
    destruct (emails (w_db w) !! id) as [email|] eqn:Hget.
    + rewrite (looked_up_found _ _ _ Hget).
      destruct (build_email_context_returns email (Hobj id email eq_refl Hget)) as [c Hc].
      rewrite bind_run. unfold lift. rewrite Hc. unfold ret at 1. apply Hfinal.
    + rewrite (looked_up_missing _ _ Hget (Hrange id eq_refl Hget)).
      unfold ret at 1. apply Hfinal.
  - rewrite bind_run. unfold EmailAgent._is_inbox_query. rewrite bind_run.
    unfold emit, ret at 1. cbn beta iota.
    destruct (EmailAgent.is_inbox_query query); [|unfold ret at 1; apply Hfinal].
    rewrite bind_run. unfold EmailAgent._build_inbox_context.
    rewrite bind_run, get_all_emails_run.
    destruct (take 100 _); unfold ret at 1; cbn beta iota; unfold ret at 1; apply Hfinal.
Qed.

End RouterTotality.

(** * Further properties of the code *)

(** ** The retry loops, attempt by attempt *)

Section OpenAIRecovery.

Context (max_retries : Z) (messages : list message) (temperature : Q) (max_tokens : Z).

Abbreviation call := (EvCreate messages temperature max_tokens).

(** One failed attempt that is retried. *)
Lemma openai_attempt_retried remaining attempt e w :
  openai_script w (backend_calls w) = OpenAIRaises e ->
  is_APIError (exc_cls e) = true ->
  attempt < max_retries - 1 ->
  LLMService.attempts max_retries (S remaining) attempt messages temperature max_tokens w
  = LLMService.attempts max_retries remaining (attempt + 1) messages temperature max_tokens
      (set_trace (set_backend_calls w (S (backend_calls w)))
         (trace w ++ [call; EvSleep (backoff_delay (exc_cls e) attempt)])).
Proof.
  intros Hs Hapi Hlt.
  cbn [LLMService.attempts]. rewrite bind_run.
  unfold try_except, LLMService.attempt_body. rewrite bind_run.
  unfold LLMService.create. rewrite bind_run. unfold emit at 1. cbn beta iota.
  cbn [openai_script set_trace backend_calls]. rewrite Hs.
  rewrite on_exception_api by exact Hapi.
  apply Z.ltb_lt in Hlt. rewrite Hlt.
  rewrite bind_run. unfold sleep, emit. cbn beta iota. unfold ret at 1.
  cbn beta iota. f_equal.
  unfold set_trace, set_backend_calls; cbn. f_equal. by rewrite <- app_assoc.
Qed.

(** A run of failed attempts that are all retried. *)
Lemma openai_failed_prefix (es : list py_exception) : forall remaining attempt w,
  Forall (fun e => is_APIError (exc_cls e) = true) es ->
  attempt + Z.of_nat (length es) <= max_retries - 1 ->
  (forall i e, es !! i = Some e ->
               openai_script w (backend_calls w + i)%nat = OpenAIRaises e) ->
  LLMService.attempts max_retries (length es + remaining) attempt messages temperature
    max_tokens w
  = LLMService.attempts max_retries remaining (attempt + Z.of_nat (length es)) messages
      temperature max_tokens
      (set_trace (set_backend_calls w (backend_calls w + length es))
         (trace w ++ failed_attempts call backoff_delay attempt es)).
Proof.
  induction es as [|e es IH]; intros remaining attempt w Hapi Hle Hscript.
  - cbn [length Nat.add failed_attempts]. rewrite Z.add_0_r. f_equal.
    destruct w; unfold set_trace, set_backend_calls; cbn.
    by rewrite Nat.add_0_r, app_nil_r.
  - apply Forall_cons in Hapi as [He Hes]. cbn [length] in Hle |- *.
    cbn [Nat.add].
    rewrite (openai_attempt_retried _ attempt e w); [| |exact He|lia].
    2:{ rewrite <- (Hscript 0%nat e eq_refl). f_equal. lia. }
    rewrite IH; [|exact Hes|lia|].
    2:{ intros i e' Hi. cbn [backend_calls openai_script set_trace set_backend_calls].
        rewrite <- (Hscript (S i) e' Hi). f_equal. lia. }
    f_equal; [lia|].
    unfold set_trace, set_backend_calls; cbn. f_equal; [lia|].
    cbn [failed_attempts]. by rewrite <- app_assoc.
Qed.

(** X1.  When the first [k] replies of the backend are exceptions of the API
    family (rate limits, timeouts, connection or server errors, in any
    mix), with [k] below MAX_RETRIES, and the next reply is a completion,
    [_call_llm] returns the text of its first choice: it has invoked the
    backend [k + 1] times, has slept after each failure ([2^attempt] seconds
    after a rate limit, one second otherwise), and has added the reported
    usage to the token count. *)
Theorem openai_recovers_after_failures (w : World) (es : list py_exception)
    (r : chat_completion) (c : option string) (rest : list (option string)) :
  Forall (fun e => is_APIError (exc_cls e) = true) es ->
  Z.of_nat (length es) < max_retries ->
  (forall i e, es !! i = Some e ->
               openai_script w (backend_calls w + i)%nat = OpenAIRaises e) ->
  openai_script w (backend_calls w + length es)%nat = OpenAIReturns r ->
  choices r = c :: rest ->
  exists w',
    LLMService._call_llm max_retries messages temperature max_tokens w = (Ret c, w')
    /\ trace w' = trace w ++ failed_attempts call backoff_delay 0 es ++ [call]
    /\ backend_calls w' = (backend_calls w + length es + 1)%nat
    /\ total_tokens_used w'
       = match usage r with
         | Some t => (total_tokens_used w + inject_Z t)%Q
         | None => total_tokens_used w
         end
    /\ w_db w' = w_db w.
Proof.
  intros Hapi Hlt Hscript Hret Hchoices.
  unfold LLMService._call_llm.
  replace (Z.to_nat max_retries)
    with (length es + S (Z.to_nat max_retries - length es - 1))%nat by lia.
  rewrite openai_failed_prefix; [|exact Hapi|lia|exact Hscript].
  cbn [LLMService.attempts]. rewrite bind_run.
  unfold try_except, LLMService.attempt_body. rewrite bind_run.
  unfold LLMService.create. rewrite bind_run. unfold emit at 1. cbn beta iota.
  cbn [openai_script set_trace set_backend_calls backend_calls trace]. rewrite Hret.
  rewrite bind_run, Hchoices.
  destruct (usage r) as [t|]; unfold LLMService.add_tokens, ret; cbn beta iota;
    eexists; (split; [reflexivity|]);
    cbn [trace backend_calls total_tokens_used w_db set_trace set_backend_calls set_tokens];
    rewrite <- app_assoc; repeat split; lia.
Qed.

(** X2.  When the backend answers every one of the MAX_RETRIES attempts
    with an exception of the API family (in any mix), [_call_llm] returns
    None after exactly MAX_RETRIES invocations; it sleeps after each failure
    but the last, and leaves the token count as it was. *)
Theorem openai_exhausts_on_api_errors (w : World) (es : list py_exception)
    (e_last : py_exception) :
  Forall (fun e => is_APIError (exc_cls e) = true) (es ++ [e_last]) ->
  Z.of_nat (length es) + 1 = max_retries ->
  (forall i e, es !! i = Some e ->
               openai_script w (backend_calls w + i)%nat = OpenAIRaises e) ->
  openai_script w (backend_calls w + length es)%nat = OpenAIRaises e_last ->
  exists w',
    LLMService._call_llm max_retries messages temperature max_tokens w = (Ret None, w')
    /\ trace w' = trace w ++ failed_attempts call backoff_delay 0 es ++ [call]
    /\ Z.of_nat (backend_calls w' - backend_calls w) = max_retries
    /\ total_tokens_used w' = total_tokens_used w
    /\ w_db w' = w_db w.
Proof.
  intros Hapi Hlen Hscript Hlast.
  apply Forall_app in Hapi as [Hes Hl]. apply Forall_inv in Hl.
  unfold LLMService._call_llm.
  replace (Z.to_nat max_retries) with (length es + 1)%nat by lia.
  rewrite openai_failed_prefix; [|exact Hes|lia|exact Hscript].
  cbn [LLMService.attempts]. rewrite bind_run.
  unfold try_except, LLMService.attempt_body. rewrite bind_run.
  unfold LLMService.create. rewrite bind_run. unfold emit at 1. cbn beta iota.
  cbn [openai_script set_trace set_backend_calls backend_calls trace]. rewrite Hlast.
  rewrite on_exception_api by exact Hl.
  destruct (Z.ltb_spec (0 + Z.of_nat (length es)) (max_retries - 1)); [lia|].
  unfold ret; cbn beta iota. eexists. split; [reflexivity|].
  cbn [trace backend_calls total_tokens_used w_db set_trace set_backend_calls].
  rewrite <- app_assoc. repeat split. lia.
Qed.

End OpenAIRecovery.

Section OllamaRetry.

Context (messages : list message) (temperature : Q) (max_tokens : Z).

Abbreviation prompt := (OllamaService._messages_to_prompt messages).
Abbreviation post := (EvPost prompt temperature max_tokens).

Lemma ollama_on_exception_retried attempt e :
  retried_by_ollama e ->
  OllamaService.on_exception attempt e
  = if attempt <? OllamaService.max_retries - 1
    then bind (sleep (ollama_backoff (exc_cls e))) (fun _ => ret Continue)
    else ret (Return None).
Proof.
  unfold retried_by_ollama, OllamaService.on_exception, ollama_backoff.
  destruct (is_requests_ConnectionError (exc_cls e)); [reflexivity|].
  cbn [orb]. by intros ->.
Qed.

(** One request that raises and is retried. *)
Lemma ollama_attempt_retried remaining attempt e w :
  ollama_script w (backend_calls w) = OllamaRaises e ->
  retried_by_ollama e ->
  attempt < OllamaService.max_retries - 1 ->
  OllamaService.attempts (S remaining) attempt prompt temperature max_tokens w
  = OllamaService.attempts remaining (attempt + 1) prompt temperature max_tokens
      (set_trace (set_backend_calls w (S (backend_calls w)))
         (trace w ++ [post; EvSleep (ollama_backoff (exc_cls e))])).
Proof.
  intros Hs Hr Hlt.
  cbn [OllamaService.attempts]. rewrite bind_run.
  unfold try_except, OllamaService.attempt_body. rewrite bind_run.
  unfold OllamaService.post. rewrite bind_run. unfold emit at 1. cbn beta iota.
  cbn [ollama_script set_trace backend_calls]. rewrite Hs.
  rewrite ollama_on_exception_retried by exact Hr.
  apply Z.ltb_lt in Hlt. rewrite Hlt.
  rewrite bind_run. unfold sleep, emit. cbn beta iota. unfold ret at 1.
  cbn beta iota. f_equal.
  unfold set_trace, set_backend_calls; cbn. f_equal. by rewrite <- app_assoc.
Qed.

(** One request answered with a status that is neither 200 nor 404: the
    loop goes on to its next turn at once. *)
Lemma ollama_attempt_bad_status remaining attempt code text w :
  ollama_script w (backend_calls w) = OllamaResponds code text ->
  code <> 200 -> code <> 404 ->
  OllamaService.attempts (S remaining) attempt prompt temperature max_tokens w
  = OllamaService.attempts remaining (attempt + 1) prompt temperature max_tokens
      (set_trace (set_backend_calls w (S (backend_calls w))) (trace w ++ [post])).
Proof.
  intros Hs H200 H404.
  cbn [OllamaService.attempts]. rewrite bind_run.
  unfold try_except, OllamaService.attempt_body. rewrite bind_run.
  unfold OllamaService.post. rewrite bind_run. unfold emit at 1. cbn beta iota.
  cbn [ollama_script set_trace backend_calls]. rewrite Hs.
  destruct (Z.eqb_spec code 200); [done|]. destruct (Z.eqb_spec code 404); [done|].
  unfold ret at 1. cbn beta iota. reflexivity.
Qed.

Lemma ollama_failed_prefix (es : list py_exception) : forall remaining attempt w,
  Forall retried_by_ollama es ->
  attempt + Z.of_nat (length es) <= OllamaService.max_retries - 1 ->
  (forall i e, es !! i = Some e ->
               ollama_script w (backend_calls w + i)%nat = OllamaRaises e) ->
  OllamaService.attempts (length es + remaining) attempt prompt temperature max_tokens w
  = OllamaService.attempts remaining (attempt + Z.of_nat (length es)) prompt temperature
      max_tokens
      (set_trace (set_backend_calls w (backend_calls w + length es))
         (trace w ++ failed_attempts post (fun c _ => ollama_backoff c) attempt es)).
Proof.
  induction es as [|e es IH]; intros remaining attempt w Hapi Hle Hscript.
  - cbn [length Nat.add failed_attempts]. rewrite Z.add_0_r. f_equal.
    destruct w; unfold set_trace, set_backend_calls; cbn.
    by rewrite Nat.add_0_r, app_nil_r.
  - apply Forall_cons in Hapi as [He Hes]. cbn [length] in Hle |- *.
    cbn [Nat.add].
    rewrite (ollama_attempt_retried _ attempt e w); [| |exact He|lia].
    2:{ rewrite <- (Hscript 0%nat e eq_refl). f_equal. lia. }
    rewrite IH; [|exact Hes|lia|].
    2:{ intros i e' Hi. cbn [backend_calls ollama_script set_trace set_backend_calls].
        rewrite <- (Hscript (S i) e' Hi). f_equal. lia. }
    f_equal; [lia|].
    unfold set_trace, set_backend_calls; cbn. f_equal; [lia|].
    cbn [failed_attempts]. by rewrite <- app_assoc.
Qed.

(** X3.  A server that answers every request with a status other than 200
    and 404 (a 500, say): the local provider posts its request three times
    in a row, without sleeping in between, and returns None. *)
Theorem ollama_bad_status_retries_without_sleep (w : World) :
  (forall n, exists code text,
     ollama_script w n = OllamaResponds code text /\ code <> 200 /\ code <> 404) ->
  exists w',
    OllamaService._call_llm messages temperature max_tokens w = (Ret None, w')
    /\ trace w' = trace w ++ [post; post; post]
    /\ backend_calls w' = (backend_calls w + 3)%nat
    /\ total_tokens_used w' = total_tokens_used w
    /\ ollama_total_tokens_used w' = ollama_total_tokens_used w
    /\ w_db w' = w_db w.
Proof.
  intros Hscript. unfold OllamaService._call_llm.
  change (Z.to_nat OllamaService.max_retries) with 3%nat.
  destruct (Hscript (backend_calls w)) as (c0 & t0 & Hs0 & Ha0 & Hb0).
  rewrite (ollama_attempt_bad_status _ _ c0 t0) by done.
  destruct (Hscript (S (backend_calls w))) as (c1 & t1 & Hs1 & Ha1 & Hb1).
  rewrite (ollama_attempt_bad_status _ _ c1 t1) by done.
  destruct (Hscript (S (S (backend_calls w)))) as (c2 & t2 & Hs2 & Ha2 & Hb2).
  rewrite (ollama_attempt_bad_status _ _ c2 t2) by done.
  cbn [OllamaService.attempts]. unfold ret. eexists. split; [reflexivity|].
  cbn [trace backend_calls total_tokens_used ollama_total_tokens_used w_db set_trace
       set_backend_calls].
  rewrite <- !app_assoc. repeat split. lia.
Qed.

(** X4.  A server that cannot be reached: when each of the three requests
    raises a connection error or a timeout of [requests], the local provider
    returns None after three requests, having slept after the first and the
    second one only: two seconds after a connection error (a connect
    timeout included), one second after a read timeout. *)
Theorem ollama_exhausts_when_unreachable (w : World) (es : list py_exception)
    (e_last : py_exception) :
  Forall retried_by_ollama (es ++ [e_last]) ->
  length es = 2%nat ->
  (forall i e, es !! i = Some e ->
               ollama_script w (backend_calls w + i)%nat = OllamaRaises e) ->
  ollama_script w (backend_calls w + length es)%nat = OllamaRaises e_last ->
  exists w',
    OllamaService._call_llm messages temperature max_tokens w = (Ret None, w')
    /\ trace w'
       = trace w ++ failed_attempts post (fun c _ => ollama_backoff c) 0 es ++ [post]
    /\ backend_calls w' = (backend_calls w + 3)%nat
    /\ total_tokens_used w' = total_tokens_used w
    /\ ollama_total_tokens_used w' = ollama_total_tokens_used w
    /\ w_db w' = w_db w.
Proof.
  intros Hall Hlen Hscript Hlast.
  apply Forall_app in Hall as [Hes Hl]. apply Forall_inv in Hl.
  unfold OllamaService._call_llm.
  change (Z.to_nat OllamaService.max_retries) with 3%nat.
  replace 3%nat with (length es + 1)%nat by lia.
  rewrite ollama_failed_prefix;
    [|exact Hes|unfold OllamaService.max_retries; lia|exact Hscript].
  cbn [OllamaService.attempts]. rewrite bind_run.
  unfold try_except, OllamaService.attempt_body. rewrite bind_run.
  unfold OllamaService.post. rewrite bind_run. unfold emit at 1. cbn beta iota.
  cbn [ollama_script set_trace set_backend_calls backend_calls trace]. rewrite Hlast.
  rewrite ollama_on_exception_retried by exact Hl.
  destruct (Z.ltb_spec (0 + Z.of_nat (length es)) (OllamaService.max_retries - 1));
    [unfold OllamaService.max_retries in *; lia|].
  unfold ret; cbn beta iota. eexists. split; [reflexivity|].
  cbn [trace backend_calls total_tokens_used ollama_total_tokens_used w_db set_trace
       set_backend_calls].
  rewrite <- app_assoc. repeat split. lia.
Qed.

(** X5.  A server that comes up late: when the first [k] requests ([k] at
    most two) raise a connection error or a timeout and the next one is
    answered with status 200, the local provider returns the text of the
    answer after [k + 1] requests, and adds to its usage estimate the float
    product of the number of words of the text and the float 1.3, both
    operations in binary64 arithmetic (for three words the product is
    3.9000000000000004, not 3.9). *)
Theorem ollama_recovers_after_failures (w : World) (es : list py_exception)
    (text : string) :
  Forall retried_by_ollama es ->
  (length es < 3)%nat ->
  (forall i e, es !! i = Some e ->
               ollama_script w (backend_calls w + i)%nat = OllamaRaises e) ->
  ollama_script w (backend_calls w + length es)%nat = OllamaResponds 200 (Some text) ->
  exists w',
    OllamaService._call_llm messages temperature max_tokens w = (Ret (Some text), w')
    /\ trace w'
       = trace w ++ failed_attempts post (fun c _ => ollama_backoff c) 0 es ++ [post]
    /\ backend_calls w' = (backend_calls w + length es + 1)%nat
    /\ ollama_total_tokens_used w'
       = SFadd 53 1024 (ollama_total_tokens_used w)
           (SFmul 53 1024
              (binary_normalize 53 1024 (Z.of_nat (PyStr.count_words false text)) 0 false)
              (S754_finite false 5854679515581645 (-52)))
    /\ total_tokens_used w' = total_tokens_used w
    /\ w_db w' = w_db w.
Proof.
  intros Hes Hlen Hscript Hreply.
  unfold OllamaService._call_llm.
  change (Z.to_nat OllamaService.max_retries) with 3%nat.
  replace 3%nat with (length es + S (3 - length es - 1))%nat by lia.
  rewrite ollama_failed_prefix;
    [|exact Hes|unfold OllamaService.max_retries; lia|exact Hscript].
  cbn [OllamaService.attempts]. rewrite bind_run.
  unfold try_except, OllamaService.attempt_body. rewrite bind_run.
  unfold OllamaService.post. rewrite bind_run. unfold emit at 1. cbn beta iota.
  cbn [ollama_script set_trace set_backend_calls backend_calls trace]. rewrite Hreply.
  cbn [Z.eqb Pos.eqb].
  rewrite bind_run. unfold OllamaService.add_estimate, ret; cbn beta iota.
  eexists. split; [reflexivity|].
  cbn [trace backend_calls total_tokens_used ollama_total_tokens_used w_db set_trace
       set_backend_calls set_ollama_tokens].
  rewrite <- app_assoc. repeat split. lia.
Qed.

(** X6.  A server without the model: a 404 answer ends the call at once
    with None, also when attempts are left; the request is not repeated and
    nothing is slept after it. *)
Theorem ollama_missing_model_not_retried (w : World) (es : list py_exception)
    (body : option string) :
  Forall retried_by_ollama es ->
  (length es < 3)%nat ->
  (forall i e, es !! i = Some e ->
               ollama_script w (backend_calls w + i)%nat = OllamaRaises e) ->
  ollama_script w (backend_calls w + length es)%nat = OllamaResponds 404 body ->
  exists w',
    OllamaService._call_llm messages temperature max_tokens w = (Ret None, w')
    /\ trace w'
       = trace w ++ failed_attempts post (fun c _ => ollama_backoff c) 0 es ++ [post]
    /\ backend_calls w' = (backend_calls w + length es + 1)%nat
    /\ total_tokens_used w' = total_tokens_used w
    /\ ollama_total_tokens_used w' = ollama_total_tokens_used w
    /\ w_db w' = w_db w.
Proof.
  intros Hes Hlen Hscript Hreply.
  unfold OllamaService._call_llm.
  change (Z.to_nat OllamaService.max_retries) with 3%nat.
  replace 3%nat with (length es + S (3 - length es - 1))%nat by lia.
  rewrite ollama_failed_prefix;
    [|exact Hes|unfold OllamaService.max_retries; lia|exact Hscript].
  cbn [OllamaService.attempts]. rewrite bind_run.
  unfold try_except, OllamaService.attempt_body. rewrite bind_run.
  unfold OllamaService.post. rewrite bind_run. unfold emit at 1. cbn beta iota.
  cbn [ollama_script set_trace set_backend_calls backend_calls trace]. rewrite Hreply.
  cbn [Z.eqb Pos.eqb].
  unfold ret; cbn beta iota. eexists. split; [reflexivity|].
  cbn [trace backend_calls total_tokens_used ollama_total_tokens_used w_db set_trace
       set_backend_calls].
  rewrite <- app_assoc. repeat split. lia.
Qed.

End OllamaRetry.

(** ** Computations that return *)

Lemma returns_ret {A} (a : A) : returns (ret a).
Proof. by intros w. Qed.

Lemma returns_emit e : returns (emit e).
Proof. by intros w. Qed.

Lemma returns_bind {A B} (m : M A) (k : A -> M B) :
  returns m -> (forall a, returns (k a)) -> returns (bind m k).
Proof.
  intros Hm Hk w. rewrite bind_run. specialize (Hm w).
  destruct (m w) as [[a|e] w1]; [apply Hk|discriminate Hm].
Qed.

Lemma returns_try_except {A} (m : M A) (h : py_exception -> M A) :
  (forall e, returns (h e)) -> returns (try_except m h).
Proof.
  intros Hh w. unfold try_except. destruct (m w) as [[a|e] w1]; [done|apply Hh].
Qed.

Lemma returns_read {A} op (f : Database -> A) : returns (Db.read op f).
Proof. by intros w. Qed.

Lemma returns_ollama_call_llm messages temperature max_tokens :
  returns (OllamaService._call_llm messages temperature max_tokens).
Proof.
  intros w. by destruct (ollama_call_llm_returns messages temperature max_tokens w)
    as (v & w' & ->).
Qed.

Lemma returns_log_processing email_id operation status response error :
  returns (EmailProcessor._log_processing email_id operation status response error).
Proof. intros w. by rewrite log_processing_returns. Qed.

Ltac returns_step :=
  first
    [ apply returns_ret
    | apply returns_emit
    | apply returns_read
    | apply returns_log_processing
    | apply returns_ollama_call_llm
    | apply returns_bind; [|intros]
    | apply returns_try_except; intros
    | match goal with
      | |- returns (match ?x with _ => _ end) => destruct x
      | |- returns (if ?x then _ else _) => destruct x
      end ].

Lemma raises_only_returns {A} Q (m : M A) : returns m -> raises_only Q m.
Proof. intros Hm w e He. specialize (Hm w). by rewrite He in Hm. Qed.

Lemma raises_only_bind {A B} Q (m : M A) (k : A -> M B) :
  raises_only Q m -> (forall a, raises_only Q (k a)) -> raises_only Q (bind m k).
Proof.
  intros Hm Hk w e. rewrite bind_run. specialize (Hm w).
  destruct (m w) as [[a|e'] w1]; [apply Hk|]. intros [= <-]. by apply Hm.
Qed.

Lemma raises_only_try_except {A} Q (m : M A) (h : py_exception -> M A) :
  (forall e, raises_only Q (h e)) -> raises_only Q (try_except m h).
Proof.
  intros Hh w e. unfold try_except. destruct (m w) as [[a|e'] w1]; [done|apply Hh].
Qed.

Section OllamaTotal.

Context (rt : PyRuntime) (max_retries : Z).

Lemma raises_only_action_items v :
  raises_only (raised_by_loads rt) (lift (Interpret.action_items_of_response rt v)).
Proof. intros w e He. apply (action_items_raise_from_loads rt v). exact He. Qed.

Lemma raises_only_ollama_extract content template :
  raises_only (raised_by_loads rt) (OllamaService.extract_action_items rt content template).
Proof.
  unfold OllamaService.extract_action_items.
  apply raises_only_bind; [apply raises_only_returns, returns_emit|]. intros _.
  apply raises_only_bind; [apply raises_only_returns, returns_ollama_call_llm|].
  intros v. apply raises_only_action_items.
Qed.

(** X7.  Of the four operations of the local provider, three return for
    every template, every content and every behaviour of the server; the
    fourth, [extract_action_items], raises nothing but what [json.loads]
    raises on the model's answer and is no [JSONDecodeError].  No exception of
    the transport, of the reading of the answer or of the substitution of the
    placeholder reaches their caller. *)
Theorem ollama_operations_boundary (content template context : string)
    (instruction : option string) (query : string)
    (email_context prompt_context : option string) (history : list message) :
  returns (OllamaService.categorize_email content template)
  /\ returns (OllamaService.generate_reply content context template instruction)
  /\ returns (OllamaService.answer_query query email_context prompt_context history)
  /\ (forall w e,
        (OllamaService.extract_action_items rt content template w).1 = Exc e ->
        exists json_str,
          json_loads rt json_str = Exc e /\ is_JSONDecodeError (exc_cls e) = false)
  /\ ((forall json_str e, json_loads rt json_str = Exc e ->
                          is_JSONDecodeError (exc_cls e) = true) ->
      returns (OllamaService.extract_action_items rt content template)).
Proof.
  split; [|split; [|split; [|split]]].
  - unfold OllamaService.categorize_email. repeat returns_step.
  - unfold OllamaService.generate_reply. repeat returns_step.
  - unfold OllamaService.answer_query. repeat returns_step.
  - apply raises_only_ollama_extract.
  - intros Hloads w.
    pose proof (raises_only_ollama_extract content template w) as Hraise.
    destruct (OllamaService.extract_action_items rt content template w) as [[items|e] w'];
      [reflexivity|].
    destruct (Hraise e eq_refl) as (json_str & Hl & Hcls).
    rewrite (Hloads json_str e Hl) in Hcls. discriminate Hcls.
Qed.

(** After its lookup, a pipeline run with the local provider raises nothing
    but what [json.loads] raises. *)
Lemma raises_only_ollama_after_lookup email_id (email : option Email) :
  raises_only (raised_by_loads rt)
    (match email with
     | None => ret false
     | Some email =>
         bind (EmailProcessor._categorize_email rt max_retries Ollama email)
           (fun category =>
              match category with
              | Some c =>
                  if PyStr.truthy c then
                    bind (EmailProcessor._extract_action_items rt max_retries Ollama email)
                      (fun action_items =>
                         try_except
                           (bind (Db.update_email email_id (Some c) (Some action_items)
                                    (Some true))
                              (fun _ =>
                                 bind (EmailProcessor._log_processing email_id
                                         "complete_processing" "success"
                                         (Some ("Category: " +:+ c +:+ ", Actions: "
                                                +:+ pretty (length action_items))) None)
                                   (fun _ => ret true)))
                           (fun e =>
                              bind (EmailProcessor._log_processing email_id
                                      "database_update" "failed" None (Some (exc_str e)))
                                (fun _ => ret false)))
                  else
                    bind (EmailProcessor._log_processing email_id "categorization"
                            "failed" None (Some "LLM categorization failed"))
                      (fun _ => ret false)
              | None =>
                  bind (EmailProcessor._log_processing email_id "categorization"
                          "failed" None (Some "LLM categorization failed"))
                    (fun _ => ret false)
              end)
     end).
Proof.
  destruct email as [email|]; [|apply raises_only_returns, returns_ret].
  apply raises_only_bind.
  { apply raises_only_returns.
    unfold EmailProcessor._categorize_email, Db.get_prompt,
      UnifiedLLMService.categorize_email, OllamaService.categorize_email.
    repeat returns_step. }
  intros [c|]; [destruct (PyStr.truthy c)|];
    try (solve [apply raises_only_returns; repeat returns_step]).
  apply raises_only_bind.
  { unfold EmailProcessor._extract_action_items, Db.get_prompt.
    apply raises_only_bind; [apply raises_only_returns; repeat returns_step|].
    intros [p|]; [|apply raises_only_returns, returns_ret].
    apply raises_only_bind; [apply raises_only_ollama_extract|].
    intros items. apply raises_only_returns. repeat returns_step. }
  intros items. apply raises_only_try_except. intros e.
  apply raises_only_returns. repeat returns_step.
Qed.

(** The error list of a batch, from any dictionary of results. *)
Lemma batch_loop_errors (service : provider) (ids : list Z) :
  forall (res0 : batch_results) (w : World),
  exists res w',
    EmailProcessor.batch_loop rt max_retries service ids res0 w = (Ret res, w')
    /\ errors res
       = errors res0 ++ batch_errors ids (item_outcomes rt max_retries service ids w).
Proof.
  induction ids as [|id ids IH]; intros res0 w.
  - exists res0, w. cbn. by rewrite app_nil_r.
  - cbn [EmailProcessor.batch_loop item_outcomes]. rewrite bind_run.
    unfold EmailProcessor.batch_step, try_except. rewrite bind_run.
    destruct (EmailProcessor.process_email rt max_retries service id w)
      as [[[|]|e] w1];
      unfold ret at 1; cbn beta iota;
      match goal with
      | |- context [EmailProcessor.batch_loop _ _ _ ids ?r w1] =>
          destruct (IH r w1) as (res & w' & Hrun & Herr)
      end;
      exists res, w'; (split; [exact Hrun|]); rewrite Herr;
      cbn [errors batch_errors zip zip_with omap list_omap error_text fst snd];
      first [reflexivity | by rewrite <- app_assoc].
Qed.


End OllamaTotal.

(** ** What the remote-API provider raises *)

Section OpenAIBoundary.

Context (rt : PyRuntime) (max_retries : Z).

Lemma openai_call_then_ret {A} (f : option string -> A) messages temperature max_tokens w :
  returned (bind (LLMService._call_llm max_retries messages temperature max_tokens)
              (fun response => ret (f response)) w).1 = true.
Proof.
  rewrite bind_run.
  by destruct (openai_call_llm_returns max_retries messages temperature max_tokens w)
    as (v & w' & ->).
Qed.

(** X9.  The operations of the remote-API provider that take a template:
    when [str.format] raises on the template they raise its exception, and
    the backend has not been invoked.  When the template formats,
    [categorize_email] returns, and [extract_action_items] raises nothing but
    what [json.loads] raises on the model's answer and is no
    [JSONDecodeError]: it returns when [json.loads] raises no such
    exception. *)
Theorem openai_operations_exceptions (content template : string) (w : World) :
  match PyFormat.format rt template content with
  | Exc e =>
      LLMService.categorize_email rt max_retries content template w
      = (Exc e, set_trace w (trace w ++ [EvLLM (OpCategorize content template)]))
      /\ LLMService.extract_action_items rt max_retries content template w
         = (Exc e, set_trace w (trace w ++ [EvLLM (OpExtract content template)]))
  | Ret _ =>
      returned (LLMService.categorize_email rt max_retries content template w).1 = true
      /\ (forall e,
            (LLMService.extract_action_items rt max_retries content template w).1 = Exc e ->
            exists json_str,
              json_loads rt json_str = Exc e /\ is_JSONDecodeError (exc_cls e) = false)
      /\ ((forall json_str e, json_loads rt json_str = Exc e ->
                              is_JSONDecodeError (exc_cls e) = true) ->
          returned (LLMService.extract_action_items rt max_retries content template w).1
          = true)
  end.
Proof.
  destruct (PyFormat.format rt template content) as [prompt|e] eqn:Hfmt.
  - split.
    { unfold LLMService.categorize_email.
      rewrite bind_run. unfold emit. cbn beta iota. rewrite bind_run. unfold lift.
      rewrite Hfmt. apply openai_call_then_ret. }
    assert (Hrun : exists v w',
              LLMService.extract_action_items rt max_retries content template w
              = (Interpret.action_items_of_response rt v, w')).
    { unfold LLMService.extract_action_items.
      rewrite bind_run. unfold emit. cbn beta iota. rewrite bind_run. unfold lift at 1.
      rewrite Hfmt, bind_run.
      match goal with
      | |- context [LLMService._call_llm _ ?m ?t ?k ?w0] =>
          destruct (openai_call_llm_returns max_retries m t k w0) as (v & w' & ->)
      end.
      by exists v, w'. }
    destruct Hrun as (v & w' & ->). cbn [fst].
    split; [intros e; apply (action_items_raise_from_loads rt v)|].
    intros Hloads.
    destruct (Interpret.action_items_of_response rt v) as [items|e] eqn:Hitems;
      [reflexivity|].
    destruct (action_items_raise_from_loads rt v e Hitems) as (json_str & Hl & Hcls).
    rewrite (Hloads json_str e Hl) in Hcls. discriminate Hcls.
  - unfold LLMService.categorize_email, LLMService.extract_action_items.
    rewrite !bind_run. unfold emit. cbn beta iota. rewrite !bind_run. unfold lift.
    by rewrite Hfmt.
Qed.

End OpenAIBoundary.

(** ** The prompt built from a template *)

Section Templates.

Context (rt : PyRuntime).

Lemma contains_char_cons (d c : ascii) (s : string) :
  PyStr.contains (String d EmptyString) (String c s) = false ->
  Ascii.eqb c d = false /\ PyStr.contains (String d EmptyString) s = false.
Proof.
  intros [Hp Hc]%contains_false_cons. split; [|exact Hc].
  cbn [String.prefix] in Hp. destruct (ascii_dec d c) as [->|Hne].
  - by rewrite prefix_nil in Hp.
  - apply Ascii.eqb_neq. congruence.
Qed.

Lemma brace_free_cons (c : ascii) (s : string) :
  brace_free (String c s) ->
  Ascii.eqb c "{" = false /\ Ascii.eqb c "}" = false /\ brace_free s.
Proof.
  intros [[H1 H2]%contains_char_cons [H3 H4]%contains_char_cons]. by repeat split.
Qed.

Lemma prepend_app (a b : string) (r : option (result string)) :
  PyFormat.prepend a (PyFormat.prepend b r) = PyFormat.prepend (a +:+ b) r.
Proof. destruct r as [[s|e]|]; cbn; [|done..]. by rewrite str_app_assoc. Qed.

Lemma prepend_nil (r : option (result string)) : PyFormat.prepend EmptyString r = r.
Proof. by destruct r as [[s|e]|]. Qed.

(** Literal text without braces is copied. *)
Lemma format_from_text (s t v : string) :
  brace_free s ->
  PyFormat.format_from rt PyFormat.InText v (s +:+ t)
  = PyFormat.prepend s (PyFormat.format_from rt PyFormat.InText v t).
Proof.
  induction s as [|c s IH]; intros Hs.
  - by rewrite str_app_nil_l, prepend_nil.
  - apply brace_free_cons in Hs as (Ho & Hc & Hs).
    rewrite str_app_cons. cbn [PyFormat.format_from]. rewrite Ho, Hc, IH by exact Hs.
    by rewrite prepend_app.
Qed.

(** The placeholder is replaced by the content. *)
Lemma format_from_placeholder (t v : string) :
  PyFormat.format_from rt PyFormat.InText v ("{email_content}" +:+ t)
  = PyFormat.prepend v (PyFormat.format_from rt PyFormat.InText v t).
Proof. reflexivity. Qed.

Lemma format_from_segments (segments : list string) (v : string) :
  Forall brace_free segments ->
  PyFormat.format_from rt PyFormat.InText v (PyStr.join "{email_content}" segments)
  = Some (Ret (PyStr.join v segments)).
Proof.
  induction 1 as [|s segs Hs _ IH]; [reflexivity|].
  destruct segs as [|s' segs].
  - cbn [PyStr.join]. rewrite <- (str_app_nil_r s) at 1.
    rewrite format_from_text by exact Hs. cbn. by rewrite str_app_nil_r.
  - change (PyStr.join "{email_content}" (s :: s' :: segs))
      with (s +:+ "{email_content}" +:+ PyStr.join "{email_content}" (s' :: segs)).
    rewrite format_from_text by exact Hs.
    rewrite format_from_placeholder, IH. reflexivity.
Qed.

Lemma replace_from_text (old new s t : string) (d : ascii) (old' : string) :
  old = String d old' ->
  PyStr.contains (String d EmptyString) s = false ->
  PyStr.replace_from old new 0 (s +:+ t) = s +:+ PyStr.replace_from old new 0 t.
Proof.
  intros -> Hs. induction s as [|c s IH]; [reflexivity|].
  apply contains_char_cons in Hs as [Hc Hs].
  rewrite !str_app_cons. cbn [PyStr.replace_from String.prefix].
  destruct (ascii_dec d c) as [->|_]; [by rewrite Ascii.eqb_refl in Hc|].
  by rewrite IH.
Qed.

Lemma replace_from_cons (old new : string) (c : ascii) (r : string) :
  PyStr.replace_from old new 0 (String c r)
  = if String.prefix old (String c r)
    then new +:+ PyStr.replace_from old new (String.length old - 1) r
    else String c (PyStr.replace_from old new 0 r).
Proof. reflexivity. Qed.

(** The characters of an occurrence that was replaced are skipped. *)
Lemma replace_from_skip (old new a t : string) :
  PyStr.replace_from old new (String.length a) (a +:+ t) = PyStr.replace_from old new 0 t.
Proof.
  induction a as [|c a IH]; [reflexivity|].
  rewrite str_app_cons. cbn [String.length PyStr.replace_from]. exact IH.
Qed.

Lemma replace_from_placeholder (t v : string) :
  PyStr.replace_from "{email_content}" v 0 ("{email_content}" +:+ t)
  = v +:+ PyStr.replace_from "{email_content}" v 0 t.
Proof.
  assert (Hp : String.prefix "{email_content}" ("{email_content}" +:+ t) = true).
  { apply prefix_spec. by exists t. }
  change ("{email_content}" +:+ t) with (String "{" ("email_content}" +:+ t)) in *.
  rewrite replace_from_cons, Hp.
  change (String.length "{email_content}" - 1)%nat with (String.length "email_content}").
  by rewrite replace_from_skip.
Qed.

Lemma replace_segments (segments : list string) (v : string) :
  Forall brace_free segments ->
  PyStr.replace (PyStr.join "{email_content}" segments) "{email_content}" v
  = PyStr.join v segments.
Proof.
  unfold PyStr.replace.
  induction 1 as [|s segs [Hs _] _ IH]; [reflexivity|].
  destruct segs as [|s' segs].
  - cbn [PyStr.join]. rewrite <- (str_app_nil_r s) at 1.
    rewrite (replace_from_text _ _ _ _ "{" "email_content}") by done.
    cbn [PyStr.replace_from]. by rewrite str_app_nil_r.
  - change (PyStr.join "{email_content}" (s :: s' :: segs))
      with (s +:+ "{email_content}" +:+ PyStr.join "{email_content}" (s' :: segs)).
    rewrite (replace_from_text _ _ _ _ "{" "email_content}") by done.
    rewrite replace_from_placeholder, IH. reflexivity.
Qed.

(** X10.  On a template whose only braces are those of its
    [{email_content}] placeholders (any number of them, none included), the
    remote-API provider's [str.format] and the local provider's
    [str.replace] build the same prompt: the template with every placeholder
    replaced by the content, the content itself being left as it is. *)
Theorem providers_build_the_same_prompt (segments : list string) (email_content : string) :
  Forall brace_free segments ->
  PyFormat.format rt (PyStr.join "{email_content}" segments) email_content
  = Ret (PyStr.join email_content segments)
  /\ PyStr.replace (PyStr.join "{email_content}" segments) "{email_content}" email_content
     = PyStr.join email_content segments.
Proof.
  intros H. split; [|by apply replace_segments].
  unfold PyFormat.format. by rewrite format_from_segments.
Qed.

End Templates.

(** ** How often the backend is invoked *)

Lemma calls_within_weaken {A} (n n' : nat) (m : M A) :
  (n <= n')%nat -> calls_within n m -> calls_within n' m.
Proof. intros Hle Hm w. specialize (Hm w). lia. Qed.

Lemma calls_within_ret {A} (a : A) : calls_within 0 (ret a).
Proof. intros w. cbn. lia. Qed.

Lemma calls_within_raise {A} e : calls_within 0 (@raise A e).
Proof. intros w. cbn. lia. Qed.

Lemma calls_within_lift {A} (r : result A) : calls_within 0 (lift r).
Proof. intros w. cbn. lia. Qed.

Lemma calls_within_emit e : calls_within 0 (emit e).
Proof. intros w. cbn. lia. Qed.

Lemma calls_within_bind {A B} (n1 n2 : nat) (m : M A) (k : A -> M B) :
  calls_within n1 m -> (forall a, calls_within n2 (k a)) ->
  calls_within (n1 + n2) (bind m k).
Proof.
  intros Hm Hk w. rewrite bind_run. specialize (Hm w).
  destruct (m w) as [[a|e] w1]; cbn [snd] in *; [|lia].
  specialize (Hk a w1). lia.
Qed.

Lemma calls_within_try_except {A} (n1 n2 : nat) (m : M A) (h : py_exception -> M A) :
  calls_within n1 m -> (forall e, calls_within n2 (h e)) ->
  calls_within (n1 + n2) (try_except m h).
Proof.
  intros Hm Hh w. unfold try_except. specialize (Hm w).
  destruct (m w) as [[a|e] w1]; cbn [snd] in *; [lia|].
  specialize (Hh e w1). lia.
Qed.

Lemma calls_within_read {A} op (f : Database -> A) : calls_within 0 (Db.read op f).
Proof. intros w. cbn. lia. Qed.

Lemma calls_within_write op (f : Database -> Database) : calls_within 0 (Db.write op f).
Proof.
  intros w. unfold Db.write, bind, emit. cbn.
  destruct (write_fails w (db_writes w)); cbn; lia.
Qed.

Lemma calls_within_refused {A} op :
  calls_within 0 (bind (emit (EvDb op)) (fun _ => @raise A Db.too_large)).
Proof. intros w. cbn. lia. Qed.

Lemma calls_within_get_email email_id : calls_within 0 (Db.get_email email_id).
Proof.
  intros w. rewrite get_email_run. cbn. lia.
Qed.

Lemma calls_within_get_all_emails limit : calls_within 0 (Db.get_all_emails limit).
Proof.
  unfold Db.get_all_emails.
  destruct (Db.int64 limit); [apply calls_within_read|apply calls_within_refused].
Qed.

Lemma calls_within_insert_log log : calls_within 0 (Db.insert_log log).
Proof.
  unfold Db.insert_log.
  destruct (Db.int64 (log_email_id log)); [apply calls_within_write|apply calls_within_refused].
Qed.

Lemma calls_within_update_email email_id new_category new_items new_processed :
  calls_within 0 (Db.update_email email_id new_category new_items new_processed).
Proof.
  unfold Db.update_email.
  destruct (_ || _); [destruct (Db.int64 email_id)|];
    first [apply calls_within_write | apply calls_within_refused].
Qed.

Lemma calls_within_log_processing email_id operation status response error :
  calls_within 0 (EmailProcessor._log_processing email_id operation status response error).
Proof.
  unfold EmailProcessor._log_processing.
  apply (calls_within_try_except 0 0); [apply calls_within_insert_log|].
  intros; apply calls_within_ret.
Qed.

(** One turn of either retry loop invokes the backend once. *)
Lemma calls_within_openai_turn max_retries attempt messages temperature max_tokens :
  calls_within 1
    (try_except (LLMService.attempt_body messages temperature max_tokens)
                (LLMService.on_exception max_retries attempt)).
Proof.
  intros w. unfold try_except, LLMService.attempt_body, LLMService.create, bind, emit.
  cbn. destruct (openai_script w (backend_calls w)) as [r|e]; cbn.
  - destruct (usage r); cbn; destruct (choices r); cbn; try lia.
    all: unfold LLMService.on_exception; cbn; lia.
  - unfold LLMService.on_exception.
    destruct (exc_cls e); cbn; destruct (attempt <? max_retries - 1); cbn; lia.
Qed.

Lemma calls_within_ollama_turn attempt prompt temperature max_tokens :
  calls_within 1
    (try_except (OllamaService.attempt_body prompt temperature max_tokens)
                (OllamaService.on_exception attempt)).
Proof.
  intros w. unfold try_except, OllamaService.attempt_body, OllamaService.post, bind, emit.
  cbn. destruct (ollama_script w (backend_calls w)) as [code text|e]; cbn.
  - destruct (code =? 200); [|destruct (code =? 404); cbn; lia].
    destruct text; cbn; lia.
  - unfold OllamaService.on_exception.
    destruct (is_requests_ConnectionError (exc_cls e));
      [|destruct (is_requests_Timeout (exc_cls e))];
      try destruct (attempt <? OllamaService.max_retries - 1); cbn; lia.
Qed.

Lemma calls_within_openai_attempts max_retries remaining :
  forall attempt messages temperature max_tokens,
    calls_within remaining
      (LLMService.attempts max_retries remaining attempt messages temperature max_tokens).
Proof.
  induction remaining as [|n IH]; intros; cbn [LLMService.attempts];
    [apply calls_within_ret|].
  apply (calls_within_bind 1 n); [apply calls_within_openai_turn|].
  intros [v|]; [|apply IH].
  eapply calls_within_weaken; [|apply calls_within_ret]. lia.
Qed.

Lemma calls_within_ollama_attempts remaining :
  forall attempt prompt temperature max_tokens,
    calls_within remaining
      (OllamaService.attempts remaining attempt prompt temperature max_tokens).
Proof.
  induction remaining as [|n IH]; intros; cbn [OllamaService.attempts];
    [apply calls_within_ret|].
  apply (calls_within_bind 1 n); [apply calls_within_ollama_turn|].
  intros [v|]; [|apply IH].
  eapply calls_within_weaken; [|apply calls_within_ret]. lia.
Qed.

Lemma calls_within_bind_l {A B} (n : nat) (m : M A) (k : A -> M B) :
  calls_within 0 m -> (forall a, calls_within n (k a)) -> calls_within n (bind m k).
Proof. intros Hm Hk. by apply (calls_within_bind 0 n). Qed.

Lemma calls_within_bind_r {A B} (n : nat) (m : M A) (k : A -> M B) :
  calls_within n m -> (forall a, calls_within 0 (k a)) -> calls_within n (bind m k).
Proof.
  intros Hm Hk. eapply calls_within_weaken; [|by apply (calls_within_bind n 0)]. lia.
Qed.

Lemma calls_within_try_except_r {A} (n : nat) (m : M A) (h : py_exception -> M A) :
  calls_within n m -> (forall e, calls_within 0 (h e)) -> calls_within n (try_except m h).
Proof.
  intros Hm Hh. eapply calls_within_weaken; [|by apply (calls_within_try_except n 0)]. lia.
Qed.

Lemma calls_within_zero {A} (n : nat) (m : M A) : calls_within 0 m -> calls_within n m.
Proof. apply calls_within_weaken. lia. Qed.

Section CallBudget.

Context (rt : PyRuntime) (max_retries : Z) (service : provider).

Abbreviation limit := (attempts_limit service max_retries).

Lemma calls_within_categorize_email content template :
  calls_within limit
    (UnifiedLLMService.categorize_email rt max_retries service content template).
Proof.
  unfold attempts_limit.
  destruct service; cbn [UnifiedLLMService.categorize_email].
  - unfold OllamaService.categorize_email.
    apply calls_within_bind_l; [apply calls_within_emit|]. intros _.
    apply calls_within_bind_r; [|intros; apply calls_within_ret].
    apply calls_within_ollama_attempts.
  - unfold LLMService.categorize_email.
    apply calls_within_bind_l; [apply calls_within_emit|]. intros _.
    apply calls_within_bind_l; [apply calls_within_lift|]. intros prompt.
    apply calls_within_bind_r; [|intros; apply calls_within_ret].
    apply calls_within_openai_attempts.
Qed.

Lemma calls_within_extract_action_items content template :
  calls_within limit
    (UnifiedLLMService.extract_action_items rt max_retries service content template).
Proof.
  unfold attempts_limit.
  destruct service; cbn [UnifiedLLMService.extract_action_items].
  - unfold OllamaService.extract_action_items.
    apply calls_within_bind_l; [apply calls_within_emit|]. intros _.
    apply calls_within_bind_r; [|intros; apply calls_within_lift].
    apply calls_within_ollama_attempts.
  - unfold LLMService.extract_action_items.
    apply calls_within_bind_l; [apply calls_within_emit|]. intros _.
    apply calls_within_bind_l; [apply calls_within_lift|]. intros prompt.
    apply calls_within_bind_r; [|intros; apply calls_within_lift].
    apply calls_within_openai_attempts.
Qed.

Lemma calls_within_answer_query query context prompt_context history :
  calls_within limit
    (UnifiedLLMService.answer_query max_retries service query context prompt_context
       history).
Proof.
  unfold attempts_limit.
  destruct service; cbn [UnifiedLLMService.answer_query].
  - unfold OllamaService.answer_query.
    apply calls_within_bind_l; [apply calls_within_emit|]. intros _.
    apply calls_within_ollama_attempts.
  - unfold LLMService.answer_query.
    apply calls_within_bind_l; [apply calls_within_emit|]. intros _.
    apply calls_within_openai_attempts.
Qed.

Lemma calls_within_categorize email :
  calls_within limit (EmailProcessor._categorize_email rt max_retries service email).
Proof.
  unfold EmailProcessor._categorize_email.
  apply calls_within_bind_l; [apply calls_within_read|].
  intros [p|]; [|apply calls_within_zero, calls_within_ret].
  apply calls_within_bind_r; [apply calls_within_categorize_email|].
  intros c. apply calls_within_bind_l; [|intros; apply calls_within_ret].
  destruct (truthy_opt c); apply calls_within_log_processing.
Qed.

Lemma calls_within_extract email :
  calls_within limit (EmailProcessor._extract_action_items rt max_retries service email).
Proof.
  unfold EmailProcessor._extract_action_items.
  apply calls_within_bind_l; [apply calls_within_read|].
  intros [p|]; [|apply calls_within_zero, calls_within_ret].
  apply calls_within_bind_r; [apply calls_within_extract_action_items|].
  intros items. apply calls_within_bind_l; [|intros; apply calls_within_ret].
  destruct items; apply calls_within_log_processing.
Qed.

Lemma calls_within_process_email email_id :
  calls_within (limit + limit)
    (EmailProcessor.process_email rt max_retries service email_id).
Proof.
  assert (Hlog : forall id op st r e,
            calls_within 0
              (bind (EmailProcessor._log_processing id op st r e) (fun _ => ret false))).
  { intros. apply calls_within_bind_l;
      [apply calls_within_log_processing|intros; apply calls_within_ret]. }
  unfold EmailProcessor.process_email.
  apply calls_within_bind_l; [apply calls_within_get_email|].
  intros [email|]; [|apply calls_within_zero, calls_within_ret].
  apply calls_within_bind; [apply calls_within_categorize|].
  intros [c|]; [destruct (PyStr.truthy c)|]; try apply calls_within_zero, Hlog.
  apply calls_within_bind_r; [apply calls_within_extract|].
  intros items. apply calls_within_try_except_r.
  - apply calls_within_bind_l; [apply calls_within_update_email|]. intros _.
    apply calls_within_bind_l;
      [apply calls_within_log_processing|intros; apply calls_within_ret].
  - intros e. apply Hlog.
Qed.

Lemma calls_within_batch_loop (ids : list Z) : forall res0,
  calls_within (length ids * (limit + limit))
    (EmailProcessor.batch_loop rt max_retries service ids res0).
Proof.
  induction ids as [|id ids IH]; intros res0; cbn [EmailProcessor.batch_loop length].
  - apply calls_within_ret.
  - change (S (length ids) * (limit + limit))%nat
      with ((limit + limit) + length ids * (limit + limit))%nat.
    apply calls_within_bind; [|intros; apply IH].
    unfold EmailProcessor.batch_step.
    apply calls_within_try_except_r; [|intros; apply calls_within_ret].
    apply calls_within_bind_r; [apply calls_within_process_email|].
    intros [|]; apply calls_within_ret.
Qed.

(** X11.  The cost of a run is bounded, whatever the backend does: with [R]
    the provider's number of attempts (MAX_RETRIES for the remote API, 3 for
    the local server), one pipeline run invokes the backend at most [2 R]
    times, a batch over [N] ids at most [2 R N] times, and one routed query
    at most [R] times. *)
Theorem backend_calls_bounded (email_ids : list Z) (email_id : Z) (query : string)
    (selected : option Z) (history : option (list AgentMessage)) :
  calls_within (2 * limit) (EmailProcessor.process_email rt max_retries service email_id)
  /\ calls_within (length email_ids * (2 * limit))
       (EmailProcessor.batch_process_emails rt max_retries service email_ids)
  /\ calls_within limit
       (EmailAgent.handle_query rt max_retries service query selected history).
Proof.
  split.
  { eapply calls_within_weaken; [|apply calls_within_process_email]. lia. }
  split.
  { eapply calls_within_weaken; [|apply calls_within_batch_loop]. lia. }
  unfold EmailAgent.handle_query.
  apply calls_within_bind_l.
  - destruct (EmailAgent.truthy_id selected) as [id|].
    + apply calls_within_bind_l; [apply calls_within_get_email|].
      intros [email|]; [|apply calls_within_ret].
      apply calls_within_bind_l; [apply calls_within_lift|].
      intros; apply calls_within_ret.
    + apply calls_within_bind_l.
      { unfold EmailAgent._is_inbox_query.
        apply calls_within_bind_l; [apply calls_within_emit|].
        intros; apply calls_within_ret. }
      intros [|]; [|apply calls_within_ret].
      apply calls_within_bind_l; [|intros; apply calls_within_ret].
      unfold EmailAgent._build_inbox_context.
      apply calls_within_bind_l; [apply calls_within_get_all_emails|].
      intros [|e l]; apply calls_within_ret.
  - intros ctx.
    apply calls_within_bind_r; [apply calls_within_answer_query|].
    intros [r|]; [destruct (PyStr.truthy r)|]; apply calls_within_ret.
Qed.

End CallBudget.

(** ** What a run may do to the store *)

Section Evolves.

Context (R : Database -> Database -> Prop) `{!PreOrder R}.

Lemma evolves_ret {A} (a : A) : evolves R (ret a).
Proof. intros w. reflexivity. Qed.

Lemma evolves_raise {A} e : evolves R (@raise A e).
Proof. intros w. reflexivity. Qed.

Lemma evolves_lift {A} (r : result A) : evolves R (lift r).
Proof. intros w. reflexivity. Qed.

Lemma evolves_emit e : evolves R (emit e).
Proof. intros w. reflexivity. Qed.

Lemma evolves_bind {A B} (m : M A) (k : A -> M B) :
  evolves R m -> (forall a, evolves R (k a)) -> evolves R (bind m k).
Proof.
  intros Hm Hk w. rewrite bind_run. specialize (Hm w).
  destruct (m w) as [[a|e] w1]; cbn [snd] in *; [|exact Hm].
  etransitivity; [exact Hm|apply Hk].
Qed.

Lemma evolves_try_except {A} (m : M A) (h : py_exception -> M A) :
  evolves R m -> (forall e, evolves R (h e)) -> evolves R (try_except m h).
Proof.
  intros Hm Hh w. unfold try_except. specialize (Hm w).
  destruct (m w) as [[a|e] w1]; cbn [snd] in *; [exact Hm|].
  etransitivity; [exact Hm|apply Hh].
Qed.

Lemma evolves_read {A} op (f : Database -> A) : evolves R (Db.read op f).
Proof. intros w. reflexivity. Qed.

Lemma evolves_write op (f : Database -> Database) :
  (forall db, R db (f db)) -> evolves R (Db.write op f).
Proof.
  intros Hf w. unfold Db.write, bind, emit. cbn.
  destruct (write_fails w (db_writes w)); cbn; [reflexivity|apply Hf].
Qed.

Lemma evolves_refused {A} op :
  evolves R (bind (emit (EvDb op)) (fun _ => @raise A Db.too_large)).
Proof. intros w. reflexivity. Qed.

Lemma evolves_get_email email_id : evolves R (Db.get_email email_id).
Proof. intros w. rewrite get_email_run. reflexivity. Qed.

Lemma evolves_get_all_emails limit : evolves R (Db.get_all_emails limit).
Proof.
  unfold Db.get_all_emails.
  destruct (Db.int64 limit); [apply evolves_read|apply evolves_refused].
Qed.

Lemma evolves_openai_attempts max_retries remaining :
  forall attempt messages temperature max_tokens,
    evolves R
      (LLMService.attempts max_retries remaining attempt messages temperature max_tokens).
Proof.
  induction remaining as [|n IH]; intros; cbn [LLMService.attempts];
    [apply evolves_ret|].
  apply evolves_bind; [|intros [v|]; [apply evolves_ret|apply IH]].
  intros w. unfold try_except, LLMService.attempt_body, LLMService.create, bind, emit.
  cbn. destruct (openai_script w (backend_calls w)) as [r|e]; cbn.
  - destruct (usage r); cbn; destruct (choices r); cbn; try reflexivity.
  - unfold LLMService.on_exception.
    destruct (exc_cls e); cbn; destruct (attempt <? max_retries - 1); cbn; reflexivity.
Qed.

Lemma evolves_ollama_attempts remaining :
  forall attempt prompt temperature max_tokens,
    evolves R (OllamaService.attempts remaining attempt prompt temperature max_tokens).
Proof.
  induction remaining as [|n IH]; intros; cbn [OllamaService.attempts];
    [apply evolves_ret|].
  apply evolves_bind; [|intros [v|]; [apply evolves_ret|apply IH]].
  intros w. unfold try_except, OllamaService.attempt_body, OllamaService.post, bind, emit.
  cbn. destruct (ollama_script w (backend_calls w)) as [code text|e]; cbn.
  - destruct (code =? 200); [|destruct (code =? 404); cbn; reflexivity].
    destruct text; cbn; reflexivity.
  - unfold OllamaService.on_exception.
    destruct (is_requests_ConnectionError (exc_cls e));
      [|destruct (is_requests_Timeout (exc_cls e))];
      try destruct (attempt <? OllamaService.max_retries - 1); cbn; reflexivity.
Qed.

Context (rt : PyRuntime) (max_retries : Z) (service : provider).

Lemma evolves_categorize_email content template :
  evolves R (UnifiedLLMService.categorize_email rt max_retries service content template).
Proof.
  destruct service; cbn [UnifiedLLMService.categorize_email].
  - unfold OllamaService.categorize_email.
    apply evolves_bind; [apply evolves_emit|]. intros _.
    apply evolves_bind; [apply evolves_ollama_attempts|intros; apply evolves_ret].
  - unfold LLMService.categorize_email.
    apply evolves_bind; [apply evolves_emit|]. intros _.
    apply evolves_bind; [apply evolves_lift|]. intros prompt.
    apply evolves_bind; [apply evolves_openai_attempts|intros; apply evolves_ret].
Qed.

Lemma evolves_extract_action_items content template :
  evolves R (UnifiedLLMService.extract_action_items rt max_retries service content template).
Proof.
  destruct service; cbn [UnifiedLLMService.extract_action_items].
  - unfold OllamaService.extract_action_items.
    apply evolves_bind; [apply evolves_emit|]. intros _.
    apply evolves_bind; [apply evolves_ollama_attempts|intros; apply evolves_lift].
  - unfold LLMService.extract_action_items.
    apply evolves_bind; [apply evolves_emit|]. intros _.
    apply evolves_bind; [apply evolves_lift|]. intros prompt.
    apply evolves_bind; [apply evolves_openai_attempts|intros; apply evolves_lift].
Qed.

Lemma evolves_answer_query query context prompt_context history :
  evolves R
    (UnifiedLLMService.answer_query max_retries service query context prompt_context
       history).
Proof.
  destruct service; cbn [UnifiedLLMService.answer_query].
  - unfold OllamaService.answer_query.
    apply evolves_bind; [apply evolves_emit|]. intros _.
    apply evolves_ollama_attempts.
  - unfold LLMService.answer_query.
    apply evolves_bind; [apply evolves_emit|]. intros _.
    apply evolves_openai_attempts.
Qed.

(** The router and the summary only read the store. *)
Lemma evolves_handle_query query selected history :
  evolves R (EmailAgent.handle_query rt max_retries service query selected history).
Proof.
  unfold EmailAgent.handle_query.
  apply evolves_bind.
  - destruct (EmailAgent.truthy_id selected) as [id|].
    + apply evolves_bind; [apply evolves_get_email|].
      intros [email|]; [|apply evolves_ret].
      apply evolves_bind; [apply evolves_lift|intros; apply evolves_ret].
    + apply evolves_bind.
      { unfold EmailAgent._is_inbox_query.
        apply evolves_bind; [apply evolves_emit|intros; apply evolves_ret]. }
      intros [|]; [|apply evolves_ret].
      apply evolves_bind; [|intros; apply evolves_ret].
      unfold EmailAgent._build_inbox_context.
      apply evolves_bind; [apply evolves_get_all_emails|].
      intros [|e l]; apply evolves_ret.
  - intros ctx. apply evolves_bind; [apply evolves_answer_query|].
    intros [r|]; [destruct (PyStr.truthy r)|]; apply evolves_ret.
Qed.

Lemma evolves_summarize_email email_id :
  evolves R (EmailAgent.summarize_email rt max_retries service email_id).
Proof.
  unfold EmailAgent.summarize_email.
  apply evolves_bind; [apply evolves_get_email|].
  intros [email|]; [|apply evolves_ret].
  apply evolves_bind; [apply evolves_lift|]. intros c.
  apply evolves_bind; [apply evolves_answer_query|intros; apply evolves_ret].
Qed.

(** The pipeline writes with [insert_log] and [update_email] only. *)
Hypothesis R_log : forall db entry,
  R db {| emails := emails db; prompts := prompts db;
          processing_logs := processing_logs db ++ [entry] |}.

Lemma evolves_log_processing email_id operation status response error :
  evolves R (EmailProcessor._log_processing email_id operation status response error).
Proof.
  unfold EmailProcessor._log_processing.
  apply evolves_try_except; [|intros; apply evolves_ret].
  unfold Db.insert_log.
  destruct (Db.int64 _); [|apply evolves_refused].
  apply evolves_write. intros db. apply R_log.
Qed.

Lemma evolves_categorize email :
  evolves R (EmailProcessor._categorize_email rt max_retries service email).
Proof.
  unfold EmailProcessor._categorize_email.
  apply evolves_bind; [apply evolves_read|].
  intros [p|]; [|apply evolves_ret].
  apply evolves_bind; [apply evolves_categorize_email|]. intros c.
  apply evolves_bind; [|intros; apply evolves_ret].
  destruct (truthy_opt c); apply evolves_log_processing.
Qed.

Lemma evolves_extract email :
  evolves R (EmailProcessor._extract_action_items rt max_retries service email).
Proof.
  unfold EmailProcessor._extract_action_items.
  apply evolves_bind; [apply evolves_read|].
  intros [p|]; [|apply evolves_ret].
  apply evolves_bind; [apply evolves_extract_action_items|]. intros items.
  apply evolves_bind; [|intros; apply evolves_ret].
  destruct items; apply evolves_log_processing.
Qed.

Context (touched : Z -> Prop).
Hypothesis R_update : forall db id c items,
  touched id ->
  R db {| emails := alter (Db.set_fields (Some c) (Some items) (Some true)) id (emails db);
          prompts := prompts db; processing_logs := processing_logs db |}.

Lemma evolves_process_email email_id :
  touched email_id ->
  evolves R (EmailProcessor.process_email rt max_retries service email_id).
Proof.
  intros Hid.
  assert (Hlog : forall id op st r e (b : bool),
            evolves R (bind (EmailProcessor._log_processing id op st r e)
                            (fun _ => ret b))).
  { intros. apply evolves_bind; [apply evolves_log_processing|intros; apply evolves_ret]. }
  unfold EmailProcessor.process_email.
  apply evolves_bind; [apply evolves_get_email|].
  intros [email|]; [|apply evolves_ret].
  apply evolves_bind; [apply evolves_categorize|].
  intros [c|]; [destruct (PyStr.truthy c)|]; try apply Hlog.
  apply evolves_bind; [apply evolves_extract|].
  intros items. apply evolves_try_except; [|intros; apply Hlog].
  apply evolves_bind; [|intros; apply Hlog].
  unfold Db.update_email. cbn [Db.is_Some_b orb].
  destruct (Db.int64 email_id); [|apply evolves_refused].
  apply evolves_write. intros db. by apply R_update.
Qed.

Lemma evolves_batch_loop (ids : list Z) : forall res0,
  Forall touched ids ->
  evolves R (EmailProcessor.batch_loop rt max_retries service ids res0).
Proof.
  induction ids as [|id ids IH]; intros res0 Hall; cbn [EmailProcessor.batch_loop].
  - apply evolves_ret.
  - apply Forall_cons in Hall as [Hid Hids].
    apply evolves_bind; [|intros; by apply IH].
    unfold EmailProcessor.batch_step.
    apply evolves_try_except; [|intros; apply evolves_ret].
    apply evolves_bind; [by apply evolves_process_email|].
    intros [|]; apply evolves_ret.
Qed.

End Evolves.

Lemma same_content_refl (e : Email) : same_content e e.
Proof. by repeat split. Qed.

Lemma same_content_trans (e1 e2 e3 : Email) :
  same_content e1 e2 -> same_content e2 e3 -> same_content e1 e3.
Proof.
  intros (?&?&?&?&?&?) (?&?&?&?&?&?). repeat split; congruence.
Qed.

Lemma pipeline_step_preorder (touched : Z -> Prop) : PreOrder (pipeline_step touched).
Proof.
  split.
  - intros db. split; [reflexivity|]. split; [exists []; by rewrite app_nil_r|].
    intros id. destruct (emails db !! id); [|done].
    split; [apply same_content_refl|done].
  - intros db1 db2 db3 (Hp12 & [l12 Hl12] & Hr12) (Hp23 & [l23 Hl23] & Hr23).
    split; [congruence|]. split.
    { exists (l12 ++ l23). by rewrite Hl23, Hl12, app_assoc. }
    intros id. specialize (Hr12 id). specialize (Hr23 id).
    destruct (emails db1 !! id) as [e1|], (emails db2 !! id) as [e2|],
      (emails db3 !! id) as [e3|]; try done.
    destruct Hr12 as [Hc12 Hk12], Hr23 as [Hc23 Hk23].
    split; [by eapply same_content_trans|].
    intros Hn. rewrite (Hk23 Hn). by apply Hk12.
Qed.

Lemma pipeline_step_log (touched : Z -> Prop) db entry :
  pipeline_step touched db
    {| emails := emails db; prompts := prompts db;
       processing_logs := processing_logs db ++ [entry] |}.
Proof.
  split; [reflexivity|]. split; [by exists [entry]|].
  intros id. cbn. destruct (emails db !! id); [|done].
  split; [apply same_content_refl|done].
Qed.

Lemma pipeline_step_update (touched : Z -> Prop) db id c items :
  touched id ->
  pipeline_step touched db
    {| emails := alter (Db.set_fields (Some c) (Some items) (Some true)) id (emails db);
       prompts := prompts db; processing_logs := processing_logs db |}.
Proof.
  intros Hid. split; [reflexivity|]. split; [exists []; by rewrite app_nil_r|].
  intros id'. cbn. destruct (decide (id' = id)) as [->|Hne].
  - rewrite lookup_alter_eq. destruct (emails db !! id) as [e|]; [|done].
    cbn. split; [by repeat split|]. intros Hn. by destruct Hn.
  - rewrite lookup_alter_ne by done. destruct (emails db !! id'); [|done].
    split; [apply same_content_refl|done].
Qed.

Section StoreFrames.

Context (rt : PyRuntime) (max_retries : Z) (service : provider).

(** X12.  The query router and the summary operation only read the store:
    whatever the query, the focus, the history and the behaviour of the
    backend, and also when the call raises, the store after the call is the
    store before it. *)
Theorem router_only_reads_the_store (query : string) (selected : option Z)
    (history : option (list AgentMessage)) (email_id : Z) (w : World) :
  w_db (EmailAgent.handle_query rt max_retries service query selected history w).2 = w_db w
  /\ w_db (EmailAgent.summarize_email rt max_retries service email_id w).2 = w_db w.
Proof.
  split; symmetry.
  - apply (evolves_handle_query eq rt max_retries service query selected history w).
  - apply (evolves_summarize_email eq rt max_retries service email_id w).
Qed.

(** X13.  What one pipeline run may do to the store, however it ends
    (True, False or an exception): the prompts are untouched, the log has
    only grown at its end, no Item is created or deleted, the Item processed
    keeps its sender, subject, body, timestamp and attachment flag, and
    every other Item is exactly as it was. *)
Theorem process_email_frame (email_id : Z) (w : World) :
  pipeline_step (fun id => id = email_id) (w_db w)
    (w_db (EmailProcessor.process_email rt max_retries service email_id w).2).
Proof.
  exact (@evolves_process_email _ (pipeline_step_preorder _) rt max_retries service
           (pipeline_step_log _) (fun id => id = email_id) (pipeline_step_update _)
           email_id eq_refl w).
Qed.

(** X14.  A batch leaves alone every Item whose id is not in its list,
    whatever happens to the Items of the list: such an Item is, after the
    batch, exactly the row it was before; the prompts are untouched and the
    log has only grown. *)
Theorem batch_frame (email_ids : list Z) (w : World) :
  pipeline_step (fun id => elem_of id email_ids) (w_db w)
    (w_db (EmailProcessor.batch_process_emails rt max_retries service email_ids w).2).
Proof.
  unfold EmailProcessor.batch_process_emails.
  apply (@evolves_batch_loop _ (pipeline_step_preorder _) rt max_retries service
           (pipeline_step_log _) (fun id => elem_of id email_ids)
           (pipeline_step_update _)).
  by apply Forall_forall.
Qed.

End StoreFrames.

(** ** Edges of the pipeline *)

Section PipelineEdges.

Context (rt : PyRuntime) (max_retries : Z) (service : provider).

Abbreviation process := (EmailProcessor.process_email rt max_retries service).

Lemma set_trace_nil (w : World) : set_trace w (trace w ++ []) = w.
Proof. destruct w. unfold set_trace. cbn. by rewrite app_nil_r. Qed.

Lemma batch_loop_unknown_ids (ids : list Z) : forall (res0 : batch_results) (w : World),
  Forall (fun id => emails (w_db w) !! id = None) ids ->
  EmailProcessor.batch_loop rt max_retries service ids res0 w
  = (Ret {| total := total res0; successful := successful res0;
            failed := failed res0 + length ids;
            errors := errors res0
                      ++ ((fun id =>
                             if Db.int64 id
                             then "Email " +:+ pretty id +:+ " processing failed"
                             else "Email " +:+ pretty id
                                  +:+ ": Python int too large to convert to SQLite INTEGER")
                            <$> ids) |},
     set_trace w (trace w ++ ((fun id => EvDb (DbGetEmail id)) <$> ids))).
Proof.
  induction ids as [|id ids IH]; intros res0 w Hall.
  - cbn. rewrite set_trace_nil, Nat.add_0_r, app_nil_r. by destruct res0.
  - apply Forall_cons in Hall as [Hid Hids].
    cbn [EmailProcessor.batch_loop]. rewrite bind_run.
    unfold EmailProcessor.batch_step, try_except. rewrite bind_run.
    unfold EmailProcessor.process_email at 1. rewrite bind_run, get_email_run.
    unfold looked_up. rewrite Hid.
    destruct (Db.int64 id) eqn:Hrange; first [unfold ret at 1 2 3 | unfold ret at 1];
      cbn beta iota;
      rewrite IH by exact Hids;
      cbn [total successful failed errors length fmap list_fmap trace set_trace
           exc_str Db.too_large];
      rewrite Hrange;
      (f_equal; [f_equal; f_equal; [lia|by rewrite <- app_assoc]|]);
      unfold set_trace; cbn; f_equal; by rewrite <- app_assoc.
Qed.


(** X16.  Without an active prompt of type "categorization" a pipeline run
    on a stored Item returns False without invoking the backend: it reads
    the Item and the prompt, logs the failure of the categorization, and
    leaves the Item as it was. *)
Theorem process_email_without_categorization_prompt (email_id : Z) (email : Email)
    (w : World) :
  emails (w_db w) !! email_id = Some email ->
  (forall p, prompts (w_db w) !! "categorization" = Some p -> is_active p = false) ->
  exists w',
    process email_id w = (Ret false, w')
    /\ backend_calls w' = backend_calls w
    /\ emails (w_db w') = emails (w_db w)
    /\ trace w'
       = trace w ++ [ EvDb (DbGetEmail email_id);
                      EvDb (DbGetPrompt "categorization");
                      EvDb (DbInsertLog
                              {| log_email_id := email_id; operation := "categorization";
                                 status := "failed"; llm_response := None;
                                 error_message := Some "LLM categorization failed" |}) ].
Proof.
  intros Hget Hprompt.
  unfold EmailProcessor.process_email. rewrite bind_run, get_email_run, (looked_up_found _ _ _ Hget).
  rewrite bind_run. unfold EmailProcessor._categorize_email. rewrite bind_run.
  unfold Db.get_prompt, Db.read. rewrite bind_run. unfold emit at 1. cbn beta iota.
  cbn [w_db set_trace].
  assert (Hnone : match prompts (w_db w) !! "categorization" with
                  | Some p => if is_active p then Some p else None
                  | None => None
                  end = None).
  { destruct (prompts (w_db w) !! "categorization") as [p|] eqn:E; [|done].
    by rewrite (Hprompt p eq_refl). }
  rewrite Hnone. unfold ret at 1. cbn beta iota.
  rewrite bind_run. unfold EmailProcessor._log_processing, try_except, Db.insert_log,
    Db.write. cbn [log_email_id].
  destruct (Db.int64 email_id);
    rewrite bind_run; unfold emit at 1, raise; cbn beta iota;
    cbn [write_fails db_writes set_trace trace];
    [destruct (write_fails w (db_writes w))|]; unfold ret; cbn beta iota;
    eexists; (split; [reflexivity|]);
    cbn [backend_calls w_db emails trace set_trace set_db set_db_writes];
    rewrite <- !app_assoc; by repeat split.
Qed.

Abbreviation categorize := (EmailProcessor._categorize_email rt max_retries service).
Abbreviation extract := (EmailProcessor._extract_action_items rt max_retries service).

Lemma log_then_ret_run email_id operation status response error (b : bool) w :
  exists w',
    bind (EmailProcessor._log_processing email_id operation status response error)
         (fun _ => ret b) w = (Ret b, w')
    /\ emails (w_db w') = emails (w_db w)
    /\ backend_calls w' = backend_calls w
    /\ exists evs, trace w' = trace w ++ evs
                   /\ Forall (fun e => exists entry, e = EvDb (DbInsertLog entry)) evs.
Proof.
  unfold EmailProcessor._log_processing, try_except, Db.insert_log, Db.write.
  cbn [log_email_id].
  destruct (Db.int64 email_id);
    rewrite !bind_run; unfold emit at 1, raise; cbn beta iota;
    cbn [write_fails db_writes set_trace];
    [destruct (write_fails w (db_writes w))|]; unfold ret; cbn beta iota;
    eexists; (split; [reflexivity|]);
    cbn [backend_calls w_db emails trace set_trace set_db set_db_writes];
    (split; [reflexivity|]); (split; [reflexivity|]);
    eexists; (split; [reflexivity|]); repeat constructor; by eexists.
Qed.

(** X17.  When [process_email] returns True, the Item was stored, its
    categorization gave a non-empty category and its extraction returned a
    list; the row now holds that category and that list (which replaces the
    tasks stored before, also when it is empty) with the processed flag
    set, and no other row has changed. *)
Theorem process_email_success (email_id : Z) (w w' : World) :
  process email_id w = (Ret true, w') ->
  exists email c items w1 w2,
    emails (w_db w) !! email_id = Some email
    /\ categorize email (Db.get_email email_id w).2 = (Ret (Some c), w1)
    /\ c <> EmptyString
    /\ extract email w1 = (Ret items, w2)
    /\ emails (w_db w') !! email_id
       = Some (Db.set_fields (Some c) (Some items) (Some true) email)
    /\ forall id, id <> email_id -> emails (w_db w') !! id = emails (w_db w) !! id.
Proof.
  unfold EmailProcessor.process_email. rewrite bind_run, get_email_run.
  unfold looked_up.
  destruct (emails (w_db w) !! email_id) as [email|] eqn:Hget;
    [|by destruct (Db.int64 email_id)].
  cbn [snd]. set (w0 := set_trace w (trace w ++ [EvDb (DbGetEmail email_id)])).
  rewrite bind_run.
  pose proof (emails_after_categorize rt max_retries service email w0) as Hc.
  destruct (categorize email w0) as [[c|e] w1] eqn:Hcat; [|discriminate].
  cbn [snd] in Hc.
  assert (Habort : forall w1,
            bind (EmailProcessor._log_processing email_id "categorization" "failed" None
                    (Some "LLM categorization failed")) (fun _ => ret false) w1
            <> (Ret true, w')).
  { intros w1'. destruct (log_then_ret_run email_id "categorization" "failed" None
                            (Some "LLM categorization failed") false w1')
      as (w2 & -> & _). discriminate. }
  destruct c as [[|a s]|]; [intros H; by destruct (Habort w1)| |intros H; by destruct (Habort w1)].
  cbn [PyStr.truthy]. rewrite bind_run.
  pose proof (emails_after_extract rt max_retries service email w1) as He.
  destruct (extract email w1) as [[items|e] w2] eqn:Hext; [|discriminate].
  cbn [snd] in He.
  unfold try_except. rewrite bind_run.
  pose proof (update_email_run email_id (String a s) items w2) as [_ Hu].
  cbn zeta in Hu.
  destruct (Db.update_email email_id (Some (String a s)) (Some items) (Some true) w2)
    as [[[]|e] w3] eqn:Hupd; cbn [fst snd] in Hu.
  - match goal with
    | |- context [bind (EmailProcessor._log_processing ?i ?o ?st ?r ?er) _ w3] =>
        destruct (log_then_ret_run i o st r er true w3) as (w4 & -> & Hl & _)
    end.
    intros [= <-].
    exists email, (String a s), items, w1, w2.
    split; [reflexivity|]. split; [exact Hcat|]. split; [discriminate|].
    split; [exact Hext|]. rewrite Hl, Hu, He, Hc. subst w0. cbn [w_db set_trace].
    split.
    + by rewrite lookup_alter_eq, Hget.
    + intros id Hne. by rewrite lookup_alter_ne.
  - match goal with
    | |- context [bind (EmailProcessor._log_processing ?i ?o ?st ?r ?er) _ w3] =>
        destruct (log_then_ret_run i o st r er false w3) as (w4 & -> & _)
    end.
    discriminate.
Qed.

Lemma categorize_step email w :
  pipeline_step (fun _ => False) (w_db w) (w_db (categorize email w).2).
Proof.
  exact (@evolves_categorize _ (pipeline_step_preorder _) rt max_retries service
           (pipeline_step_log _) email w).
Qed.

(** X18.  Without an active prompt of type "action_extraction", an Item
    whose categorization succeeded is still updated: the extraction makes no
    model call and counts as an empty task list, and [update_email] is called
    with that list.  When the store accepts the write, the run returns True
    and the row holds the category, the empty list in place of the tasks
    stored before, and the processed flag; when the write raises, the run
    returns False and the row is what it was. *)
Theorem process_email_without_extraction_prompt (email_id : Z) (email : Email)
    (w w1 : World) (c : string) :
  emails (w_db w) !! email_id = Some email ->
  - 2 ^ 63 <= email_id < 2 ^ 63 ->
  (forall p, prompts (w_db w) !! "action_extraction" = Some p -> is_active p = false) ->
  categorize email (Db.get_email email_id w).2 = (Ret (Some c), w1) ->
  c <> EmptyString ->
  exists b w' evs,
    process email_id w = (Ret b, w')
    /\ trace w'
       = trace w1 ++ EvDb (DbGetPrompt "action_extraction")
                  :: EvDb (DbUpdateEmail email_id (Some c) (Some []) (Some true)) :: evs
    /\ Forall (fun e => exists entry, e = EvDb (DbInsertLog entry)) evs
    /\ backend_calls w' = backend_calls w1
    /\ match write_fails w1 (db_writes w1) with
       | None =>
           b = true
           /\ emails (w_db w') !! email_id
              = Some (Db.set_fields (Some c) (Some []) (Some true) email)
       | Some _ =>
           b = false /\ emails (w_db w') !! email_id = Some email
       end.
Proof.
  intros Hget Hrange%int64_true Hprompt Hcat Hc.
  rewrite get_email_run in Hcat. cbn [snd] in Hcat.
  pose proof (categorize_step email (set_trace w (trace w ++ [EvDb (DbGetEmail email_id)])))
    as (Hp & _ & _).
  pose proof (emails_after_categorize rt max_retries service email
                (set_trace w (trace w ++ [EvDb (DbGetEmail email_id)]))) as He.
  rewrite Hcat in Hp, He. cbn [snd w_db set_trace] in Hp, He.
  unfold EmailProcessor.process_email.
  rewrite bind_run, get_email_run, (looked_up_found _ _ _ Hget).
  rewrite bind_run, Hcat.
  destruct c as [|a s]; [done|]. cbn [PyStr.truthy].
  rewrite bind_run. unfold EmailProcessor._extract_action_items. rewrite bind_run.
  unfold Db.get_prompt, Db.read. rewrite bind_run. unfold emit at 1. cbn beta iota.
  cbn [w_db set_trace]. rewrite Hp.
  assert (Hnone : match prompts (w_db w) !! "action_extraction" with
                  | Some p => if is_active p then Some p else None
                  | None => None
                  end = None).
  { destruct (prompts (w_db w) !! "action_extraction") as [p|] eqn:E; [|done].
    by rewrite (Hprompt p eq_refl). }
  rewrite Hnone. unfold ret at 1 2. cbn beta iota.
  unfold try_except. rewrite bind_run.
  unfold Db.update_email. cbn [Db.is_Some_b orb]. rewrite Hrange.
  unfold Db.write. rewrite bind_run. unfold emit at 1.
  cbn beta iota. cbn [write_fails db_writes set_trace trace].
  destruct (write_fails w1 (db_writes w1)) as [e|].
  - match goal with
    | |- context [bind (EmailProcessor._log_processing ?i ?o ?st ?r ?er) _ ?w3] =>
        destruct (log_then_ret_run i o st r er false w3)
          as (w4 & -> & Hl & Hb & evs & Htr & Hall)
    end.
    exists false, w4, evs. split; [reflexivity|].
    rewrite Htr, Hb, Hl. cbn [trace backend_calls w_db set_trace set_db_writes].
    rewrite <- !app_assoc. repeat split; try done.
    by rewrite He, Hget.
  - change (fun w0 : World => (Ret true, w0)) with (@ret bool true).
    match goal with
    | |- context [bind (EmailProcessor._log_processing ?i ?o ?st ?r ?er) _ ?w3] =>
        destruct (log_then_ret_run i o st r er true w3)
          as (w4 & -> & Hl & Hb & evs & Htr & Hall)
    end.
    exists true, w4, evs. split; [reflexivity|].
    rewrite Htr, Hb, Hl.
    cbn [trace backend_calls w_db emails set_trace set_db set_db_writes Db.is_Some_b orb].
    rewrite <- !app_assoc. repeat split; try done.
    by rewrite lookup_alter_eq, He, Hget.
Qed.

End PipelineEdges.

(** ** The rows read by [get_all_emails] *)

Lemma ascii_compare_refl (c : ascii) : Ascii.compare c c = Eq.
Proof. unfold Ascii.compare. apply N.compare_refl. Qed.

Lemma string_compare_refl (s : string) : String.compare s s = Eq.
Proof.
  induction s as [|c s IH]; [reflexivity|].
  cbn [String.compare]. by rewrite ascii_compare_refl.
Qed.

Lemma ascii_compare_gt_trans (a b c : ascii) :
  Ascii.compare a b = Gt -> Ascii.compare b c = Gt -> Ascii.compare a c = Gt.
Proof. unfold Ascii.compare. rewrite !N.compare_gt_iff. lia. Qed.

Lemma string_compare_gt_trans (a : string) : forall b c,
  String.compare a b = Gt -> String.compare b c = Gt -> String.compare a c = Gt.
Proof.
  induction a as [|x a IH]; intros [|y b] [|z c]; cbn [String.compare]; try done.
  destruct (Ascii.compare x y) eqn:Hxy; [|done|];
    destruct (Ascii.compare y z) eqn:Hyz; try done.
  - apply Ascii.compare_eq_iff in Hxy as ->, Hyz as ->.
    rewrite ascii_compare_refl. apply IH.
  - apply Ascii.compare_eq_iff in Hxy as ->. by rewrite Hyz.
  - apply Ascii.compare_eq_iff in Hyz as <-. by rewrite Hxy.
  - by rewrite (ascii_compare_gt_trans x y z).
Qed.

Lemma before_total (a b : Email) : Db.before a b = false -> Db.before b a = true.
Proof.
  unfold Db.before. rewrite (String.compare_antisym (timestamp b) (timestamp a)).
  destruct (String.compare (timestamp a) (timestamp b)); cbn; try done.
  intros H%Z.leb_gt. apply Z.leb_le. lia.
Qed.

Lemma before_trans (a b c : Email) :
  Db.before a b = true -> Db.before b c = true -> Db.before a c = true.
Proof.
  unfold Db.before.
  destruct (String.compare (timestamp a) (timestamp b)) eqn:Hab; [| done |];
    destruct (String.compare (timestamp b) (timestamp c)) eqn:Hbc; try done.
  - apply String.compare_eq_iff in Hab, Hbc. rewrite Hab, Hbc, string_compare_refl.
    rewrite !Z.leb_le. lia.
  - apply String.compare_eq_iff in Hab. by rewrite Hab, Hbc.
  - apply String.compare_eq_iff in Hbc. by rewrite <- Hbc, Hab.
  - by rewrite (string_compare_gt_trans _ _ _ Hab Hbc).
Qed.

Lemma before_not_older (a b : Email) : Db.before a b = true -> not_older a b.
Proof.
  unfold Db.before, not_older.
  by destruct (String.compare (timestamp a) (timestamp b)).
Qed.

Lemma insert_sorted_perm (e : Email) (l : list Email) :
  Permutation (Db.insert_sorted e l) (e :: l).
Proof.
  induction l as [|x l IH]; [reflexivity|]. cbn [Db.insert_sorted].
  destruct (Db.before e x); [reflexivity|].
  rewrite IH. apply perm_swap.
Qed.

Lemma order_by_timestamp_desc_perm (l : list Email) :
  Permutation (Db.order_by_timestamp_desc l) l.
Proof.
  unfold Db.order_by_timestamp_desc.
  induction l as [|e l IH]; [reflexivity|]. cbn [foldr].
  by rewrite insert_sorted_perm, IH.
Qed.

Lemma insert_sorted_sorted (e : Email) (l : list Email) :
  StronglySorted (fun a b => Db.before a b = true) l ->
  StronglySorted (fun a b => Db.before a b = true) (Db.insert_sorted e l).
Proof.
  induction 1 as [|x l Hl IH Hx]; [repeat constructor|].
  cbn [Db.insert_sorted]. destruct (Db.before e x) eqn:Hex.
  - constructor; [by constructor|].
    constructor; [exact Hex|].
    eapply Forall_impl; [exact Hx|]. intros y Hy. by eapply before_trans.
  - constructor; [exact IH|].
    rewrite insert_sorted_perm. constructor; [by apply before_total|exact Hx].
Qed.

Lemma order_by_timestamp_desc_sorted (l : list Email) :
  StronglySorted (fun a b => Db.before a b = true) (Db.order_by_timestamp_desc l).
Proof.
  unfold Db.order_by_timestamp_desc.
  induction l as [|e l IH]; [constructor|]. cbn [foldr].
  by apply insert_sorted_sorted.
Qed.

Lemma strongly_sorted_impl {A} (R1 R2 : A -> A -> Prop) (l : list A) :
  (forall a b, R1 a b -> R2 a b) -> StronglySorted R1 l -> StronglySorted R2 l.
Proof.
  intros HR. induction 1 as [|x l Hl IH Hx]; constructor; [exact IH|].
  eapply Forall_impl; [exact Hx|]. intros; by apply HR.
Qed.

Lemma before_comes_first (a b : Email) : Db.before a b = true -> comes_first a b.
Proof.
  unfold Db.before, comes_first.
  destruct (String.compare (timestamp a) (timestamp b)) eqn:Hab; [|done|by left].
  intros H%Z.leb_le. right. split; [by apply String.compare_eq_iff|exact H].
Qed.

Lemma comes_first_not_older (a b : Email) : comes_first a b -> not_older a b.
Proof.
  unfold comes_first, not_older. intros [->|[-> _]]; [done|].
  by rewrite string_compare_refl.
Qed.

(** X19.  [get_all_emails(limit)], for a limit that can be bound (a 64-bit
    integer): the rows of the table, ordered newest first and, among rows
    with equal timestamps, by descending id, are cut after the first [limit]
    of them (a negative limit cuts nothing); the rows before the cut are
    returned, in that order.  So no returned row is older than a row that
    follows it or than a row that was cut off.  For any other limit the call
    raises OverflowError. *)
Theorem get_all_emails_newest_first (limit : Z) (w : World) :
  (- 2 ^ 63 <= limit < 2 ^ 63 ->
   exists rows rest,
     Db.get_all_emails limit w
     = (Ret rows, set_trace w (trace w ++ [EvDb (DbGetAllEmails limit)]))
     /\ Permutation (rows ++ rest) ((map_to_list (emails (w_db w))).*2)
     /\ StronglySorted comes_first (rows ++ rest)
     /\ StronglySorted not_older (rows ++ rest)
     /\ length rows
        = (if limit <? 0 then size (emails (w_db w))
           else Nat.min (Z.to_nat limit) (size (emails (w_db w)))))
  /\ (~ - 2 ^ 63 <= limit < 2 ^ 63 ->
      Db.get_all_emails limit w
      = (Exc (PyExc OverflowError "Python int too large to convert to SQLite INTEGER"),
         set_trace w (trace w ++ [EvDb (DbGetAllEmails limit)]))).
Proof.
  assert (Hperm : Permutation (Db.all_rows (w_db w))
                    ((map_to_list (emails (w_db w))).*2)).
  { apply order_by_timestamp_desc_perm. }
  assert (Hlen : length (Db.all_rows (w_db w)) = size (emails (w_db w))).
  { by rewrite Hperm, length_fmap, length_map_to_list. }
  assert (Hsorted : StronglySorted comes_first (Db.all_rows (w_db w))).
  { eapply strongly_sorted_impl; [apply before_comes_first|].
    apply order_by_timestamp_desc_sorted. }
  unfold Db.get_all_emails, Db.int64. split.
  - intros [Hlo Hhi].
    destruct (Z.leb_spec (- 2 ^ 63) limit); [|lia].
    destruct (Z.ltb_spec limit (2 ^ 63)); [|lia]. cbn [andb].
    destruct (Z.ltb_spec limit 0).
    + exists (Db.all_rows (w_db w)), [].
      unfold Db.read. rewrite bind_run. unfold emit. cbn beta iota.
      cbn [w_db set_trace].
      destruct (Z.ltb_spec limit 0); [|lia].
      rewrite app_nil_r. repeat split; try done.
      eapply strongly_sorted_impl; [apply comes_first_not_older|exact Hsorted].
    + exists (take (Z.to_nat limit) (Db.all_rows (w_db w))),
             (drop (Z.to_nat limit) (Db.all_rows (w_db w))).
      unfold Db.read. rewrite bind_run. unfold emit. cbn beta iota.
      cbn [w_db set_trace].
      destruct (Z.ltb_spec limit 0); [lia|].
      rewrite take_drop. repeat split; try done.
      * eapply strongly_sorted_impl; [apply comes_first_not_older|exact Hsorted].
      * by rewrite length_take, Hlen.
  - intros Hout.
    destruct (Z.leb_spec (- 2 ^ 63) limit); destruct (Z.ltb_spec limit (2 ^ 63));
      try reflexivity.
    lia.
Qed.

(** ** Updating and reading an Item *)

Lemma set_fields_none (e : Email) : Db.set_fields None None None e = e.
Proof. by destruct e. Qed.

(** X20.  [update_email] followed by [get_email]: when the update returns,
    the id reads as before with the given fields of its row replaced (a
    field passed as None keeps its value): a row that was stored is read
    with the new fields, an id without row still has none (no row is
    created), and an id that cannot be bound still raises; every other id
    reads as before.  When the update raises, the store is what it was. *)
Theorem update_email_then_get_email (email_id : Z) (new_category : option string)
    (new_items : option (list json)) (new_processed : option bool) (w : World) :
  let after := Db.update_email email_id new_category new_items new_processed w in
  match after.1 with
  | Ret _ =>
      (Db.get_email email_id after.2).1
      = match (Db.get_email email_id w).1 with
        | Ret row => Ret (Db.set_fields new_category new_items new_processed <$> row)
        | Exc e => Exc e
        end
      /\ (forall email,
            emails (w_db w) !! email_id = Some email ->
            (Db.get_email email_id after.2).1
            = Ret (Some (Db.set_fields new_category new_items new_processed email)))
      /\ (emails (w_db w) !! email_id = None ->
          emails (w_db after.2) !! email_id = None)
      /\ forall id, id <> email_id ->
                    (Db.get_email id after.2).1 = (Db.get_email id w).1
  | Exc _ => w_db after.2 = w_db w
  end.
Proof.
  cbn zeta.
  assert (Hread : forall w', emails (w_db w') = emails (w_db w) ->
            forall id, (Db.get_email id w').1 = (Db.get_email id w).1).
  { intros w' Hw' id. rewrite !get_email_run. unfold looked_up. cbn [fst].
    by rewrite Hw'. }
  assert (Hnone : forall w', emails (w_db w') = emails (w_db w) ->
            (Db.get_email email_id w').1
            = match (Db.get_email email_id w).1 with
              | Ret row => Ret (Db.set_fields None None None <$> row)
              | Exc e => Exc e
              end
            /\ (forall email,
                  emails (w_db w) !! email_id = Some email ->
                  (Db.get_email email_id w').1
                  = Ret (Some (Db.set_fields None None None email)))
            /\ (emails (w_db w) !! email_id = None -> emails (w_db w') !! email_id = None)
            /\ forall id, id <> email_id ->
                          (Db.get_email id w').1 = (Db.get_email id w).1).
  { intros w' Hw'. rewrite (Hread w' Hw'). rewrite !get_email_run. unfold looked_up.
    cbn [fst]. rewrite Hw'. repeat split.
    - destruct (emails (w_db w) !! email_id) as [e|]; cbn.
      + by rewrite set_fields_none.
      + by destruct (Db.int64 email_id).
    - intros email ->. by rewrite set_fields_none.
    - done.
    - intros id _. by rewrite (Hread w' Hw'), get_email_run. }
  assert (Hsome : forall w',
            emails (w_db w')
            = alter (Db.set_fields new_category new_items new_processed) email_id
                (emails (w_db w)) ->
            (Db.get_email email_id w').1
            = match (Db.get_email email_id w).1 with
              | Ret row => Ret (Db.set_fields new_category new_items new_processed <$> row)
              | Exc e => Exc e
              end
            /\ (forall email,
                  emails (w_db w) !! email_id = Some email ->
                  (Db.get_email email_id w').1
                  = Ret (Some (Db.set_fields new_category new_items new_processed email)))
            /\ (emails (w_db w) !! email_id = None -> emails (w_db w') !! email_id = None)
            /\ forall id, id <> email_id ->
                          (Db.get_email id w').1 = (Db.get_email id w).1).
  { intros w' Hw'. rewrite !get_email_run. unfold looked_up. cbn [fst].
    rewrite Hw', lookup_alter_eq. repeat split.
    - destruct (emails (w_db w) !! email_id) as [e|]; cbn; [done|].
      by destruct (Db.int64 email_id).
    - by intros email ->.
    - by intros ->.
    - intros id Hne. rewrite !get_email_run. unfold looked_up. cbn [fst].
      by rewrite Hw', lookup_alter_ne. }
  unfold Db.update_email.
  destruct (Db.is_Some_b new_category || Db.is_Some_b new_items
            || Db.is_Some_b new_processed) eqn:Hany.
  - destruct (Db.int64 email_id); [|reflexivity].
    unfold Db.write. rewrite bind_run. unfold emit.
    cbn beta iota. cbn [write_fails db_writes set_trace].
    destruct (write_fails w (db_writes w)) as [e|]; [reflexivity|].
    cbn [fst snd]. by apply Hsome.
  - unfold Db.write. rewrite bind_run. unfold emit.
    cbn beta iota. cbn [write_fails db_writes set_trace].
    destruct (write_fails w (db_writes w)) as [e|]; [reflexivity|].
    cbn [fst snd].
    destruct new_category, new_items, new_processed; try discriminate Hany.
    by apply Hnone.
Qed.

(** ** The query router without a focused Item *)

Lemma contains_keyword (keyword query : string) :
  PyStr.lower keyword = keyword ->
  PyStr.contains keyword (PyStr.lower query) = true <-> occurs_in keyword query.
Proof. intros H. rewrite <- H at 1. apply contains_occurs. Qed.

(** X21.  A query counts as a collection-scope query exactly when one of
    the nine keywords show, list, urgent, important, all, how many, what,
    tasks, emails from is named in it up to letter case: some part of the
    query, anywhere in it and also inside a longer word, reads as the
    keyword when the case of its letters is left aside. *)
Theorem inbox_query_iff_keyword_occurs (query : string) :
  EmailAgent.is_inbox_query query = true
  <-> Exists (fun keyword => named_in keyword query)
        ["show"; "list"; "urgent"; "important"; "all";
         "how many"; "what"; "tasks"; "emails from"].
Proof.
  unfold EmailAgent.is_inbox_query, EmailAgent.inbox_keywords.
  cbn [existsb]. rewrite !orb_true_iff, !Exists_cons, Exists_nil.
  rewrite !(fun k H => contains_keyword k query H) by reflexivity.
  rewrite !occurs_in_named.
  assert (Hf : false = true <-> False) by (split; [discriminate|tauto]).
  rewrite Hf. tauto.
Qed.

Section Unfocused.

Context (rt : PyRuntime) (max_retries : Z) (service : provider).

Abbreviation route := (EmailAgent.handle_query rt max_retries service).
Abbreviation answer := (UnifiedLLMService.answer_query max_retries service).

(** The last step of the router: the answer operation and the fallback. *)
Lemma router_answer_run query context history w :
  exists s evs,
    (bind (answer query context None history)
          (fun response =>
             match response with
             | Some r => if PyStr.truthy r then ret r else ret EmailAgent.fallback
             | None => ret EmailAgent.fallback
             end) w).1 = Ret s
    /\ s <> EmptyString
    /\ trace (bind (answer query context None history)
                (fun response =>
                   match response with
                   | Some r => if PyStr.truthy r then ret r else ret EmailAgent.fallback
                   | None => ret EmailAgent.fallback
                   end) w).2
       = trace w ++ EvLLM (OpAnswer query context history) :: evs
    /\ Forall transport_event evs.
Proof.
  rewrite bind_run.
  destruct (answer_query_trace max_retries service query context None history w)
    as [evs [Htr Hall]].
  pose proof (answer_query_returns max_retries service query context None history w) as Hr.
  destruct (answer query context None history w) as [[[[|x r]|]|e] w1];
    [| | |discriminate Hr]; cbn [snd] in Htr; cbn;
    eexists _, evs; by repeat split.
Qed.

(** X22.  With no focused Item (no id, or the id 0) and a query that holds
    none of the keywords, the router consults the store not at all: it
    classifies the query, hands it to the answer operation without context,
    and returns a non-empty text. *)
Theorem unfocused_plain_query_gets_no_context (query : string) (selected : option Z)
    (history : option (list AgentMessage)) (w : World) :
  EmailAgent.truthy_id selected = None ->
  EmailAgent.is_inbox_query query = false ->
  exists s evs,
    (route query selected history w).1 = Ret s
    /\ s <> EmptyString
    /\ trace (route query selected history w).2
       = trace w ++ EvIsInboxQuery query
                 :: EvLLM (OpAnswer query None (EmailAgent.recent_messages history))
                 :: evs
    /\ Forall transport_event evs.
Proof.
  intros Hsel Hplain.
  destruct (router_answer_run query None (EmailAgent.recent_messages history)
              (set_trace w (trace w ++ [EvIsInboxQuery query])))
    as (s & evs & Hs & Hne & Htr & Hall).
  assert (Heq : route query selected history w
                = bind (answer query None None (EmailAgent.recent_messages history))
                    (fun response =>
                       match response with
                       | Some r => if PyStr.truthy r then ret r else ret EmailAgent.fallback
                       | None => ret EmailAgent.fallback
                       end) (set_trace w (trace w ++ [EvIsInboxQuery query]))).
  { unfold EmailAgent.handle_query. rewrite Hsel.
    rewrite bind_run. unfold EmailAgent._is_inbox_query. rewrite !bind_run.
    unfold emit, ret at 1. cbn beta iota. by rewrite Hplain. }
  exists s, evs. rewrite Heq, Hs, Htr. cbn [trace set_trace]. rewrite <- app_assoc.
  by repeat split.
Qed.

(** X23.  With no focused Item and a query that holds a keyword, on a
    store without Items: the router reads the collection (at most 100
    rows), and the context handed to the answer operation is the text
    "Inbox is empty.". *)
Theorem inbox_query_on_empty_store (query : string) (selected : option Z)
    (history : option (list AgentMessage)) (w : World) :
  EmailAgent.truthy_id selected = None ->
  EmailAgent.is_inbox_query query = true ->
  emails (w_db w) = empty ->
  exists s evs,
    (route query selected history w).1 = Ret s
    /\ s <> EmptyString
    /\ trace (route query selected history w).2
       = trace w ++ EvIsInboxQuery query
                 :: EvDb (DbGetAllEmails 100)
                 :: EvLLM (OpAnswer query (Some "Inbox is empty.")
                             (EmailAgent.recent_messages history))
                 :: evs
    /\ Forall transport_event evs.
Proof.
  intros Hsel Hinbox Hempty.
  destruct (router_answer_run query (Some "Inbox is empty.")
              (EmailAgent.recent_messages history)
              (set_trace w (trace w ++ [EvIsInboxQuery query; EvDb (DbGetAllEmails 100)])))
    as (s & evs & Hs & Hne & Htr & Hall).
  assert (Heq : route query selected history w
                = bind (answer query (Some "Inbox is empty.") None
                          (EmailAgent.recent_messages history))
                    (fun response =>
                       match response with
                       | Some r => if PyStr.truthy r then ret r else ret EmailAgent.fallback
                       | None => ret EmailAgent.fallback
                       end)
                    (set_trace w
                       (trace w ++ [EvIsInboxQuery query; EvDb (DbGetAllEmails 100)]))).
  { unfold EmailAgent.handle_query. rewrite Hsel.
    rewrite bind_run. unfold EmailAgent._is_inbox_query. rewrite !bind_run.
    unfold emit, ret at 1. cbn beta iota. rewrite Hinbox.
    unfold EmailAgent._build_inbox_context. rewrite !bind_run, get_all_emails_run.
    cbn [w_db set_trace]. unfold Db.all_rows. rewrite Hempty, map_to_list_empty.
    cbn [fmap list_fmap Db.order_by_timestamp_desc foldr take].
    unfold ret at 1 2. cbn beta iota.
    do 2 f_equal. unfold set_trace; cbn. f_equal. by rewrite <- app_assoc. }
  exists s, evs. rewrite Heq, Hs, Htr. cbn [trace set_trace]. rewrite <- !app_assoc.
  by repeat split.
Qed.

Lemma last_n_app {A} (older recent : list A) (n : nat) :
  length recent = n -> last_n n (older ++ recent) = recent.
Proof.
  intros <-. unfold last_n. rewrite length_app.
  replace (length older + length recent - length recent)%nat with (length older) by lia.
  by rewrite drop_app_length.
Qed.

Lemma recent_messages_window (older recent : list AgentMessage) :
  length recent = 5%nat ->
  EmailAgent.recent_messages (Some (older ++ recent))
  = EmailAgent.recent_messages (Some recent).
Proof.
  intros Hlen. unfold EmailAgent.recent_messages.
  pose proof (last_n_app older recent 5 Hlen) as Hw.
  pose proof (last_n_app [] recent 5 Hlen) as Hr. rewrite app_nil_l in Hr.
  destruct (older ++ recent) as [|m l] eqn:E.
  { apply (f_equal length) in E. rewrite length_app in E. cbn in E. lia. }
  rewrite Hw. destruct recent as [|m' l']; [discriminate Hlen|]. by rewrite Hr.
Qed.

(** X24.  The router forgets all but the last five messages of the
    conversation: a history and its last five messages give the same run,
    event for event, and the same answer. *)
Theorem router_forgets_old_history (query : string) (selected : option Z)
    (older recent : list AgentMessage) (w : World) :
  length recent = 5%nat ->
  route query selected (Some (older ++ recent)) w = route query selected (Some recent) w.
Proof.
  intros Hlen. unfold EmailAgent.handle_query.
  by rewrite (recent_messages_window older recent Hlen).
Qed.

(** X25.  The summary operation on an id under which no Item is stored:
    for an id that the store can look up (a 64-bit integer) it answers
    "Email not found." without calling the model; for any other id the
    lookup raises OverflowError, which the operation does not catch.  On a
    stored Item (the id 0 included) it hands the model the context of that
    Item, or raises what building the context raises; whatever it returns is
    a non-empty text. *)
Theorem summarize_email_uses_the_item (email_id : Z) (w : World) :
  match emails (w_db w) !! email_id with
  | None =>
      EmailAgent.summarize_email rt max_retries service email_id w
      = (if (- 2 ^ 63 <=? email_id) && (email_id <? 2 ^ 63)
         then Ret "Email not found."
         else Exc (PyExc OverflowError
                     "Python int too large to convert to SQLite INTEGER"),
         set_trace w (trace w ++ [EvDb (DbGetEmail email_id)]))
  | Some email =>
      match EmailAgent._build_email_context rt email with
      | Ret context =>
          exists s evs,
            (EmailAgent.summarize_email rt max_retries service email_id w).1 = Ret s
            /\ s <> EmptyString
            /\ trace (EmailAgent.summarize_email rt max_retries service email_id w).2
               = trace w ++ EvDb (DbGetEmail email_id)
                         :: EvLLM (OpAnswer EmailAgent.summary_query (Some context) [])
                         :: evs
            /\ Forall transport_event evs
      | Exc e =>
          (EmailAgent.summarize_email rt max_retries service email_id w).1 = Exc e
      end
  end.
Proof.
  unfold EmailAgent.summarize_email. rewrite bind_run, get_email_run.
  unfold looked_up, Db.int64.
  destruct (emails (w_db w) !! email_id) as [email|];
    [|by destruct ((- 2 ^ 63 <=? email_id) && (email_id <? 2 ^ 63))].
  rewrite bind_run. unfold lift.
  destruct (EmailAgent._build_email_context rt email) as [context|e]; [|reflexivity].
  rewrite bind_run.
  match goal with
  | |- context [answer ?q ?c None ?h ?w0] =>
      destruct (answer_query_trace max_retries service q c None h w0) as [evs [Htr Hall]];
      pose proof (answer_query_returns max_retries service q c None h w0) as Hr;
      destruct (answer q c None h w0) as [[[[|x r]|]|e] w1]
  end; [| | |discriminate Hr]; cbn [snd] in Htr; cbn;
    eexists _, evs; rewrite Htr; cbn [trace set_trace]; rewrite <- app_assoc;
    by repeat split.
Qed.

End Unfocused.

(** ** The collection context *)

Lemma count_of_count_up (k k' : string) (cats : list (string * nat)) :
  count_of k' (EmailAgent.count_up k cats)
  = (count_of k' cats + if String.eqb k k' then 1 else 0)%nat.
Proof.
  induction cats as [|[k0 v0] cats IH]; cbn [EmailAgent.count_up count_of].
  - destruct (String.eqb k k'); lia.
  - destruct (String.eqb_spec k0 k) as [->|Hne]; cbn [count_of].
    + destruct (String.eqb k k'); lia.
    + destruct (String.eqb_spec k0 k') as [->|Hne'].
      * destruct (String.eqb_spec k k'); [congruence|lia].
      * exact IH.
Qed.

Lemma count_up_keys (k : string) (cats : list (string * nat)) :
  cats.*1 = (EmailAgent.count_up k cats).*1
  \/ (~ elem_of k (cats.*1) /\ (EmailAgent.count_up k cats).*1 = cats.*1 ++ [k]).
Proof.
  induction cats as [|[k0 v0] cats IH]; cbn [EmailAgent.count_up].
  - right. split; [apply not_elem_of_nil|reflexivity].
  - destruct (String.eqb_spec k0 k) as [->|Hne]; [by left|].
    destruct IH as [IH|[Hnot IH]]; [left|right]; cbn [fmap list_fmap fst] in *.
    + by rewrite <- IH.
    + split; [|by rewrite IH]. rewrite not_elem_of_cons. by split; [congruence|].
Qed.

Lemma count_up_nodup (k : string) (cats : list (string * nat)) :
  NoDup (cats.*1) -> NoDup ((EmailAgent.count_up k cats).*1).
Proof.
  intros H. destruct (count_up_keys k cats) as [<-|[Hnot ->]]; [exact H|].
  apply NoDup_app. split; [exact H|]. split; [|apply NoDup_singleton].
  intros x Hx [->|[]%elem_of_nil]%elem_of_cons. by destruct Hnot.
Qed.

Lemma count_up_positive (k : string) (cats : list (string * nat)) :
  Forall (fun kv => 0 < kv.2)%nat cats ->
  Forall (fun kv => 0 < kv.2)%nat (EmailAgent.count_up k cats).
Proof.
  induction 1 as [|[k0 v0] cats H0 Hl IH]; cbn [EmailAgent.count_up].
  - repeat constructor.
  - destruct (String.eqb k0 k); (constructor; [cbn in *; lia|done]).
Qed.

Lemma count_up_sum (k : string) (cats : list (string * nat)) :
  sum_list_with snd (EmailAgent.count_up k cats) = S (sum_list_with snd cats).
Proof.
  induction cats as [|[k0 v0] cats IH]; cbn [EmailAgent.count_up]; [reflexivity|].
  destruct (String.eqb k0 k); cbn [snd sum_list_with] in *; lia.
Qed.

Lemma labelled_snoc (k : string) (l : list Email) (e : Email) :
  labelled k (l ++ [e])
  = (labelled k l + if String.eqb (category_label e) k then 1 else 0)%nat.
Proof. induction l as [|x l IH]; cbn [app labelled]; lia. Qed.

(** The dictionary after the loop over [rest], from a dictionary that counts
    the rows [seen]. *)
Lemma count_loop (rest : list Email) : forall (seen : list Email) cats,
  NoDup (cats.*1) ->
  Forall (fun kv => 0 < kv.2)%nat cats ->
  (forall k, count_of k cats = labelled k seen) ->
  sum_list_with snd cats = length seen ->
  let cats' := fold_left (fun acc email => EmailAgent.count_up (category_label email) acc)
                 rest cats in
  NoDup (cats'.*1)
  /\ Forall (fun kv => 0 < kv.2)%nat cats'
  /\ (forall k, count_of k cats' = labelled k (seen ++ rest))
  /\ sum_list_with snd cats' = length (seen ++ rest).
Proof.
  induction rest as [|e rest IH]; intros seen cats Hnd Hpos Hcount Hsum; cbn [fold_left].
  - by rewrite app_nil_r.
  - replace (seen ++ e :: rest) with ((seen ++ [e]) ++ rest) by (by rewrite <- app_assoc).
    apply IH.
    + by apply count_up_nodup.
    + by apply count_up_positive.
    + intros k. by rewrite count_of_count_up, labelled_snoc, Hcount.
    + rewrite count_up_sum, length_app, Hsum. cbn. lia.
Qed.

Lemma count_of_nodup (k : string) (v : nat) (cats : list (string * nat)) :
  NoDup (cats.*1) -> elem_of (k, v) cats -> count_of k cats = v.
Proof.
  induction cats as [|[k0 v0] cats IH]; [by intros _ ?%elem_of_nil|].
  cbn [fmap list_fmap fst]. intros [Hnot Hnd]%NoDup_cons Hin. cbn [count_of].
  apply elem_of_cons in Hin as [[= -> ->]|Hin].
  - by rewrite String.eqb_refl.
  - destruct (String.eqb_spec k0 k) as [->|_]; [|by apply IH].
    destruct Hnot. apply list_elem_of_fmap. by exists (k, v).
Qed.

Lemma total_actions_sum (l : list Email) : forall acc,
  fold_left (fun acc email => (acc + length (action_items email))%nat) l acc
  = (acc + sum_list_with (fun e => length (action_items e)) l)%nat.
Proof.
  induction l as [|e l IH]; intros acc; cbn [fold_left sum_list_with]; [lia|].
  rewrite IH. lia.
Qed.

(** X26.  On a store with Items, the collection context reports the rows
    that [get_all_emails] returns for the limit 100: their number, one count
    per category label in use (an Item without category counts as
    "Uncategorized"), the number of their tasks, and the first five rows.
    Each label is listed once, with the number of rows that carry it, and
    the counts add up to the number of rows. *)
Theorem inbox_context_counts (query : string) (w : World) (all_emails : list Email) :
  (Db.get_all_emails 100 w).1 = Ret all_emails ->
  all_emails <> [] ->
  exists (categories : list (string * nat)) (total_actions : nat),
    (EmailAgent._build_inbox_context query w).1
    = Ret (PyStr.join "
" ([ "Total Emails: " +:+ pretty (length all_emails);
     "Categories: "
       +:+ PyStr.join ", " (map (fun kv => fst kv +:+ ": " +:+ pretty (snd kv)) categories);
     "Total Action Items: " +:+ pretty total_actions;
     "
Recent Emails:" ]
   ++ map (fun email => "  - [" +:+ EmailAgent.or_default (category email) "N/A" +:+ "] "
                        +:+ subject email +:+ " from " +:+ sender email)
          (take 5 all_emails)))
    /\ total_actions = sum_list_with (fun e => length (action_items e)) all_emails
    /\ NoDup (categories.*1)
    /\ (forall k v, elem_of (k, v) categories ->
                    v = labelled k all_emails /\ (0 < v)%nat)
    /\ (forall e, elem_of e all_emails -> elem_of (category_label e) (categories.*1))
    /\ sum_list_with snd categories = length all_emails.
Proof.
  rewrite get_all_emails_run. cbn [fst]. intros [= Hall] Hne. symmetry in Hall.
  remember all_emails as all eqn:Hall' in *. clear Hall'.
  destruct (count_loop all [] [] (NoDup_nil_2 (A:=string)) (Forall_nil_2 _)
              (fun _ => eq_refl) eq_refl)
    as (Hnd & Hpos & Hcount & Hsum).
  cbn zeta in Hnd, Hpos, Hcount, Hsum. rewrite app_nil_l in Hcount, Hsum.
  exists (fold_left (fun acc email => EmailAgent.count_up (category_label email) acc)
            all []),
         (fold_left (fun acc email => (acc + length (action_items email))%nat) all 0%nat).
  split.
  { unfold EmailAgent._build_inbox_context. rewrite bind_run, get_all_emails_run.
    rewrite <- Hall. clear Hall.
    destruct all as [|e0 l0]; [done|reflexivity]. }
  split; [by rewrite total_actions_sum|]. split; [exact Hnd|]. split; [|split].
  - intros k v Hin. rewrite <- Hcount. rewrite (count_of_nodup k v _ Hnd Hin).
    split; [reflexivity|]. rewrite Forall_forall in Hpos. exact (Hpos _ Hin).
  - intros e He.
    assert (Hpos' : (0 < labelled (category_label e) all)%nat).
    { clear - He. induction all as [|x l IH]; [by apply elem_of_nil in He|].
      cbn [labelled]. apply elem_of_cons in He as [<-|He].
      - rewrite String.eqb_refl. lia.
      - specialize (IH He). lia. }
    rewrite <- Hcount in Hpos'.
    clear - Hpos'. revert Hpos'.
    generalize (fold_left (fun acc email => EmailAgent.count_up (category_label email) acc)
                  all []).
    intros cats. induction cats as [|[k0 v0] cats IH]; cbn [count_of]; [lia|].
    cbn [fmap list_fmap fst]. destruct (String.eqb_spec k0 (category_label e)) as [->|_].
    + intros _. apply elem_of_cons. by left.
    + intros H. apply elem_of_cons. right. by apply IH.
  - exact Hsum.
Qed.

(** ** When building the context of an Item raises *)

Section ItemContext.

Context (rt : PyRuntime).

Lemma task_lines_returns_iff (items : list json) :
  returned (EmailAgent.task_lines rt items) = true <-> Forall is_object items.
Proof.
  induction items as [|item items IH]; [by split; [constructor|]|].
  cbn [EmailAgent.task_lines]. rewrite Forall_cons, <- IH.
  destruct item; cbn [EmailAgent.item_get is_object returned];
    try (split; [discriminate|tauto]).
  destruct (find _ fields); destruct (EmailAgent.task_lines rt items); cbn; tauto.
Qed.

Lemma task_lines_raises (items : list json) (e : py_exception) :
  EmailAgent.task_lines rt items = Exc e -> exc_cls e = AttributeError.
Proof.
  induction items as [|item items IH]; [discriminate|].
  cbn [EmailAgent.task_lines].
  destruct item; cbn [EmailAgent.item_get];
    try (intros [= <-]; reflexivity).
  destruct (find _ fields); destruct (EmailAgent.task_lines rt items);
    first [discriminate | intros [= <-]; by apply IH].
Qed.

Lemma build_email_context_raises (email : Email) (e : py_exception) :
  EmailAgent._build_email_context rt email = Exc e ->
  EmailAgent.task_lines rt (action_items email) = Exc e.
Proof.
  unfold EmailAgent._build_email_context.
  destruct (action_items email) as [|item items]; [discriminate|].
  destruct (EmailAgent.task_lines rt (item :: items)); [discriminate|].
  by intros [= <-].
Qed.

(** X27.  Building the context of an Item returns exactly when every
    stored task of the Item is an object (a dict); when one task is a text,
    a number, a list, a boolean or null, it raises, and what it raises is an
    AttributeError. *)
Theorem build_email_context_returns_iff (email : Email) :
  (returned (EmailAgent._build_email_context rt email) = true
   <-> Forall is_object (action_items email))
  /\ forall e, EmailAgent._build_email_context rt email = Exc e ->
               exc_cls e = AttributeError.
Proof.
  split.
  - unfold EmailAgent._build_email_context.
    rewrite <- task_lines_returns_iff.
    destruct (action_items email) as [|item items]; [done|].
    by destruct (EmailAgent.task_lines rt (item :: items)).
  - intros e He.
    by apply (task_lines_raises (action_items email)), build_email_context_raises.
Qed.

End ItemContext.

(** ** When the router returns, and when it raises *)

Section RouterReturns.

Context (rt : PyRuntime) (max_retries : Z) (service : provider).


End RouterReturns.

(** ** The configuration check and the choice of the provider *)

(** X29.  [Config.validate] and the constructor of [UnifiedLLMService]
    disagree on provider names: a name other than "openai" and "ollama"
    (a capitalised "OpenAI", say) passes the validation, whatever the key
    and whether or not the local server answers, and is then rejected by
    the constructor with ValueError. *)
Theorem validate_accepts_what_select_rejects (name key url : string) (probe : result Z) :
  name <> "openai" ->
  name <> "ollama" ->
  Config.validate name key url (Ret tt) probe = Ret (true, EmptyString)
  /\ UnifiedLLMService.select name
     = Exc (PyExc ValueError ("Unknown LLM provider: " +:+ name)).
Proof.
  intros Ho Hl. unfold Config.validate, UnifiedLLMService.select.
  destruct (String.eqb_spec name "openai"); [done|].
  destruct (String.eqb_spec name "ollama"); [done|]. done.
Qed.

(** * Concrete runs *)

Example loads_ex :
  MiniJson.loads ("[{" +:+ dq +:+ "task" +:+ dq +:+ ": " +:+ dq +:+ "Reply" +:+ dq
                  +:+ ", " +:+ dq +:+ "priority" +:+ dq +:+ ": null}, 3, [true]]")
  = Ret (JArray [JObject [("task", JString "Reply"); ("priority", JNull)];
                 JInt 3; JArray [JBool true]])
  /\ MiniJson.loads "[1,]" = MiniJson.invalid
  /\ MiniJson.loads "" = MiniJson.invalid
  /\ MiniJson.loads "[1] x" = MiniJson.invalid
  /\ MiniJson.loads ("[" +:+ repeat_char "1" 4300 +:+ ", x") = MiniJson.invalid
  /\ MiniJson.loads ("[x, " +:+ repeat_char "1" 4301 +:+ "]") = MiniJson.invalid
  /\ MiniJson.loads long_integer = MiniJson.too_many_digits 4301
  /\ MiniJson.loads ("[-" +:+ repeat_char "1" 4301 +:+ ", x") = MiniJson.too_many_digits 4301.
Proof. repeat split; vm_compute; reflexivity. Qed.

(** ** The examples of the specification *)

Example interpreter_examples :
  Interpret.category_of_response (Some "This looks Important to me") = Some "Important"
  /\ Interpret.action_items_of_response example_runtime
       (Some ("Sure, here you go: [{" +:+ dq +:+ "task" +:+ dq +:+ ": "
              +:+ dq +:+ "Reply" +:+ dq +:+ "}] thanks!"))
     = Ret [JObject [("task", JString "Reply")]]
  /\ Interpret.action_items_of_response example_runtime (Some "no list here") = Ret []
  /\ Interpret.action_items_of_response example_runtime (Some "] reversed [") = Ret []
  /\ Interpret.action_items_of_response example_runtime (Some "[not json]") = Ret [].
Proof. repeat split; vm_compute; reflexivity. Qed.

Example pipeline_run :
  let r := EmailProcessor.process_email example_runtime 3 Ollama 1 w_tasks in
  r.1 = Ret true
  /\ emails (w_db r.2) !! 1
     = Some {| email_id_of := 1; sender := "ann@example.com"; subject := "Report";
               body := "Please send the report by Friday.";
               timestamp := "2025-11-24T10:00:00"; has_attachment := false;
               category := Some "Important";
               action_items := [JObject [("task", JString "Reply")]];
               processed := true |}
  /\ backend_calls r.2 = 2%nat.
Proof. vm_compute. repeat split; reflexivity. Qed.

Example router_run :
  (EmailAgent.handle_query example_runtime 3 Ollama "summarize this" (Some 2) None
     w_no_model).1 = Ret EmailAgent.fallback
  /\ (EmailAgent.handle_query example_runtime 3 Ollama "summarize this" (Some 2) None
        w_tasks).1 = Ret "This looks Important to me".
Proof. split; vm_compute; reflexivity. Qed.

Example batch_run :
  (EmailProcessor.batch_process_emails example_runtime 3 Ollama [1; 5; 2] w_tasks).1
  = Ret {| total := 3; successful := 2; failed := 1;
           errors := ["Email 5 processing failed"] |}
  /\ (EmailProcessor.batch_process_emails example_runtime 3 OpenAI [1; 5; 2]
        (world store (openai_answers "Spam") ollama_tasks)).1
     = Ret {| total := 3; successful := 0; failed := 3;
              errors := ["Email 1: '" +:+ dq +:+ "task" +:+ dq +:+ "'";
                         "Email 5 processing failed";
                         "Email 2: '" +:+ dq +:+ "task" +:+ dq +:+ "'"] |}.
Proof. split; vm_compute; reflexivity. Qed.

Example get_all_emails_ex :
  (Db.get_all_emails 2 w_same_second).1 = Ret [same_second 4; same_second 3]
  /\ (Db.get_all_emails (-1) w_same_second).1
     = Ret [same_second 4; same_second 3; same_second (-5); email1]
  /\ (Db.get_all_emails 0 w_same_second).1 = Ret []
  /\ (Db.get_all_emails (2 ^ 63) w_same_second).1 = Exc Db.too_large
  /\ (Db.get_email (- 2 ^ 63 - 1) w_same_second).1 = Exc Db.too_large
  /\ (Db.get_email (- 2 ^ 63) w_same_second).1 = Ret None.
Proof. repeat split; vm_compute; reflexivity. Qed.

Example usage_estimate_run :
  ollama_total_tokens_used
    (OllamaService._call_llm [] (7 # 10) 1000 (set_backend_calls w_late 1)).2
  = S754_finite false 8782019273372468 (-51).
Proof. vm_compute. reflexivity. Qed.

(** ** Witnesses and counterexamples *)

(** C1, witness: Item 1 is stored, and the run with the model that names a
    category and lists one task. *)
Lemma C1_witness :
  emails (w_db w_tasks) !! 1 = Some email1
  /\ (processed <$>
        emails (w_db (EmailProcessor.process_email example_runtime 3 Ollama 1 w_tasks).2) !! 1
      = Some true
      <-> processed email1 = true
          \/ exists c items w1 w2 w3,
               EmailProcessor._categorize_email example_runtime 3 Ollama email1
                 (Db.get_email 1 w_tasks).2 = (Ret (Some c), w1)
               /\ c <> EmptyString
               /\ EmailProcessor._extract_action_items example_runtime 3 Ollama email1 w1
                  = (Ret items, w2)
               /\ Db.update_email 1 (Some c) (Some items) (Some true) w2 = (Ret tt, w3)).
Proof.
  split; [vm_compute; reflexivity|].
  apply (C1_processed_iff example_runtime 3 Ollama 1 email1 w_tasks).
  vm_compute; reflexivity.
Defined.

(** C1, counterexample, in three runs.  Item 2 is stored and already
    processed; the server has no model, so the categorization of the run
    returns none and [process_email] returns False, yet the processed flag is
    true after the run.  Item 1 is stored and unprocessed; in the second run
    its categorization returns a non-empty category and its extraction
    returns one task, but the store refuses the update: [process_email]
    returns False and the flag is false after the run.  In the third run the
    categorization of Item 1 returns a non-empty category and the extraction
    raises, on a model answer that lists an integer of 4301 digits: the run
    raises and the flag is false after it. *)
Lemma C1_counterexample :
  (emails (w_db w_no_model) !! 2 = Some email2
   /\ (EmailProcessor._categorize_email example_runtime 3 Ollama email2
         (Db.get_email 2 w_no_model).2).1 = Ret None
   /\ (EmailProcessor.process_email example_runtime 3 Ollama 2 w_no_model).1 = Ret false
   /\ processed <$>
        emails (w_db (EmailProcessor.process_email example_runtime 3 Ollama 2 w_no_model).2)
        !! 2 = Some true)
  /\ (let categorized :=
        EmailProcessor._categorize_email example_runtime 3 Ollama email1
          (Db.get_email 1 w_locked).2 in
      let extracted :=
        EmailProcessor._extract_action_items example_runtime 3 Ollama email1
          categorized.2 in
      emails (w_db w_locked) !! 1 = Some email1
      /\ processed email1 = false
      /\ categorized.1 = Ret (Some "Important")
      /\ extracted.1 = Ret [JObject [("task", JString "Reply")]]
      /\ (Db.update_email 1 (Some "Important")
            (Some [JObject [("task", JString "Reply")]]) (Some true) extracted.2).1
         = Exc locked
      /\ (EmailProcessor.process_email example_runtime 3 Ollama 1 w_locked).1 = Ret false
      /\ processed <$>
           emails (w_db (EmailProcessor.process_email example_runtime 3 Ollama 1 w_locked).2)
           !! 1 = Some false)
  /\ (let categorized :=
        EmailProcessor._categorize_email example_runtime 3 Ollama email1
          (Db.get_email 1 w_long_integer).2 in
      emails (w_db w_long_integer) !! 1 = Some email1
      /\ categorized.1 = Ret (Some "To-Do")
      /\ (EmailProcessor._extract_action_items example_runtime 3 Ollama email1
            categorized.2).1 = MiniJson.too_many_digits 4301
      /\ (EmailProcessor.process_email example_runtime 3 Ollama 1 w_long_integer).1
         = MiniJson.too_many_digits 4301
      /\ processed <$>
           emails (w_db (EmailProcessor.process_email example_runtime 3 Ollama 1
                           w_long_integer).2)
           !! 1 = Some false).
Proof. cbn zeta. repeat split; vm_compute; reflexivity. Qed.

(** C2, witness: the server has no model, the categorization of Item 1
    returns none. *)
Lemma C2_witness :
  let w1 := (EmailProcessor._categorize_email example_runtime 3 Ollama email1
               (Db.get_email 1 w_no_model).2).2 in
  emails (w_db w_no_model) !! 1 = Some email1
  /\ EmailProcessor._categorize_email example_runtime 3 Ollama email1
       (Db.get_email 1 w_no_model).2 = (Ret None, w1)
  /\ truthy_opt None = false
  /\ exists w',
       EmailProcessor.process_email example_runtime 3 Ollama 1 w_no_model = (Ret false, w')
       /\ emails (w_db w') = emails (w_db w_no_model)
       /\ emails (w_db w') !! 1 = Some email1
       /\ processed <$> emails (w_db w') !! 1 = Some (processed email1)
       /\ exists evs, trace w' = trace w_no_model ++ evs
                      /\ Forall no_extract_no_update evs.
Proof.
  cbn zeta. split; [vm_compute; reflexivity|]. split; [vm_compute; reflexivity|].
  split; [reflexivity|].
  apply (C2_no_category_aborts example_runtime 3 Ollama 1 email1 w_no_model
           (EmailProcessor._categorize_email example_runtime 3 Ollama email1
              (Db.get_email 1 w_no_model).2).2 None);
    [vm_compute; reflexivity|vm_compute; reflexivity|reflexivity].
Defined.

(** C3, witness: a response with white space at both ends that names two
    categories, the first of them in capitals. *)
Lemma C3_witness :
  "  This looks IMPORTANT, not spam
" <> EmptyString
  /\ Interpret.category_of_response (Some "  This looks IMPORTANT, not spam
") = Some "Important"
  /\ (exists a t b c,
        "  This looks IMPORTANT, not spam
" = a +:+ t +:+ b /\ blank a /\ blank b /\ trimmed t
        /\ Interpret.category_of_response (Some "  This looks IMPORTANT, not spam
") = Some c
        /\ ((exists before after,
               ["Important"; "Newsletter"; "Spam"; "To-Do"] = before ++ c :: after
               /\ named_in c t
               /\ Forall (fun c' => ~ named_in c' t) before)
            \/ (Forall (fun c' => ~ named_in c' t)
                  ["Important"; "Newsletter"; "Spam"; "To-Do"]
                /\ c = t)))
  /\ Interpret.category_of_response None = None.
Proof.
  split; [discriminate|]. split; [reflexivity|].
  apply (C3_category_total "  This looks IMPORTANT, not spam
"). discriminate.
Defined.

(** C4, the failing input: a model answer that lists one integer of 4301
    digits.  [json.loads] raises ValueError on it, the interpreter raises
    it to the extraction operation, and the run of [process_email] raises;
    the batch catches it. *)
Lemma C4_witness :
  json_loads example_runtime long_integer = MiniJson.too_many_digits 4301
  /\ Interpret.action_items_of_response example_runtime (Some long_integer)
     = MiniJson.too_many_digits 4301
  /\ (OllamaService.extract_action_items example_runtime "hello" json_template
        (set_backend_calls w_long_integer 1)).1 = MiniJson.too_many_digits 4301
  /\ (EmailProcessor.process_email example_runtime 3 Ollama 1 w_long_integer).1
     = MiniJson.too_many_digits 4301
  /\ (EmailProcessor.batch_process_emails example_runtime 3 Ollama [1] w_long_integer).1
     = Ret {| total := 1; successful := 0; failed := 1;
              errors := ["Email 1: Exceeds the limit (4300 digits) for integer string conversion: value has 4301 digits; use sys.set_int_max_str_digits() to increase the limit"] |}.
Proof.
  assert (Hloads : json_loads example_runtime long_integer = MiniJson.too_many_digits 4301)
    by (vm_compute; reflexivity).
  split; [exact Hloads|]. split; [|repeat split; vm_compute; reflexivity].
  destruct (C4_task_list_interpreter example_runtime long_integer) as (_ & H & _).
  specialize (H EmptyString (repeat_char "1" 4301) EmptyString).
  change ("[" +:+ repeat_char "1" 4301 +:+ "]") with long_integer in H.
  rewrite Hloads in H. apply H; vm_compute; reflexivity.
Defined.

(** C5, witness: three attempts against a backend that always reports
    rate-limiting. *)
Lemma C5_witness :
  0 <= 3
  /\ (forall n, exists e, openai_script w_tasks n = OpenAIRaises e
                          /\ exc_cls e = RateLimitError)
  /\ exists w' evs,
       LLMService._call_llm 3 chat (7 # 10) 1000 w_tasks = (Ret None, w')
       /\ trace w' = trace w_tasks ++ evs
       /\ evs = retry_trace (EvCreate chat (7 # 10) 1000) (fun attempt => 2 ^ attempt)
                  (Z.to_nat 3) 0
       /\ Z.of_nat (length (calls_of evs)) = 3
       /\ Z.of_nat (backend_calls w' - backend_calls w_tasks) = 3
       /\ sleeps_of evs = map (fun k => 2 ^ Z.of_nat k) (seq 0 (Z.to_nat 3 - 1)).
Proof.
  assert (H : forall n, exists e, openai_script w_tasks n = OpenAIRaises e
                                  /\ exc_cls e = RateLimitError).
  { intros n. by eexists. }
  split; [lia|]. split; [exact H|].
  apply (C5_rate_limited_retries 3 chat (7 # 10) 1000 w_tasks); [lia|exact H].
Defined.

(** C6, witness: a backend that rejects every request as malformed. *)
Lemma C6_witness :
  0 < 3
  /\ exc_cls (PyExc BadRequestError "Invalid request") <> RateLimitError
  /\ exc_cls (PyExc BadRequestError "Invalid request") <> APITimeoutError
  /\ (forall n, openai_script w_no_model n
                = OpenAIRaises (PyExc BadRequestError "Invalid request"))
  /\ exists w',
       LLMService._call_llm 3 chat (7 # 10) 1000 w_no_model = (Ret None, w')
       /\ trace w' = trace w_no_model ++
            (if is_APIError (exc_cls (PyExc BadRequestError "Invalid request"))
             then retry_trace (EvCreate chat (7 # 10) 1000) (fun _ => 1) (Z.to_nat 3) 0
             else [EvCreate chat (7 # 10) 1000]).
Proof.
  split; [lia|]. split; [discriminate|]. split; [discriminate|].
  split; [reflexivity|].
  apply (C6_other_errors 3 chat (7 # 10) 1000 w_no_model
           (PyExc BadRequestError "Invalid request"));
    [lia|discriminate|discriminate|reflexivity].
Defined.

(** C6, counterexample: the malformed-request error is no rate-limit,
    timeout or connectivity error, and with MAX_RETRIES = 3 the backend is
    invoked three times, two more after the first error, with a sleep of one
    second before each retry. *)
Lemma C6_counterexample :
  let r := LLMService._call_llm 3 chat (7 # 10) 1000 w_no_model in
  openai_script w_no_model 0%nat = OpenAIRaises (PyExc BadRequestError "Invalid request")
  /\ r.1 = Ret None
  /\ backend_calls r.2 = 3%nat
  /\ length (calls_of (trace r.2)) = 3%nat
  /\ sleeps_of (trace r.2) = [1; 1].
Proof. repeat split; vm_compute; reflexivity. Qed.

(** C9, witness: Item 1 has been processed with a model that listed its task
    as a text; a query about it then raises. *)
Lemma C9_witness :
  1 <> 0
  /\ emails (w_db w_after_text_tasks) !! 1 = Some email1_text_task
  /\ action_items email1_text_task = JString "Call Bob" :: []
  /\ (forall fields, JString "Call Bob" <> JObject fields)
  /\ (EmailAgent.handle_query example_runtime 3 Ollama "What should I do?" (Some 1) None
        w_after_text_tasks).1
     = Exc (PyExc AttributeError
              ("'" +:+ EmailAgent.py_type_name (JString "Call Bob")
               +:+ "' object has no attribute 'get'")).
Proof.
  split; [lia|]. split; [vm_compute; reflexivity|]. split; [reflexivity|].
  split; [discriminate|].
  apply (C9_router_raises_on_text_task example_runtime 3 Ollama "What should I do?" 1 None
           w_after_text_tasks email1_text_task (JString "Call Bob") []);
    [lia|vm_compute; reflexivity|reflexivity|discriminate].
Defined.

(** C10, witness: no Item is stored under the id 7. *)
Lemma C10_witness :
  7 <> 0
  /\ - 2 ^ 63 <= 7 < 2 ^ 63
  /\ emails (w_db w_tasks) !! 7 = None
  /\ exists evs,
       trace (EmailAgent.handle_query example_runtime 3 Ollama "show me all emails"
                (Some 7) None w_tasks).2
       = trace w_tasks ++ EvDb (DbGetEmail 7)
           :: EvLLM (OpAnswer "show me all emails" None (EmailAgent.recent_messages None))
           :: evs
       /\ Forall transport_event evs
       /\ Forall (fun e => forall q, e <> EvIsInboxQuery q)
            (EvDb (DbGetEmail 7)
               :: EvLLM (OpAnswer "show me all emails" None
                           (EmailAgent.recent_messages None)) :: evs).
Proof.
  split; [lia|]. split; [lia|]. split; [vm_compute; reflexivity|].
  apply (proj1 (C10_missing_item_no_context example_runtime 3 Ollama "show me all emails"
                  None w_tasks));
    [lia|lia|vm_compute; reflexivity].
Defined.

(** C10, counterexample, in two runs.  The focused id 0 is given and no
    Item is stored under it; the run consults the keyword classification,
    reads the collection, and hands the answer operation a collection
    context.  The focused id 2^63 is given and no Item is stored under it;
    the lookup raises, and the answer operation is not called. *)
Lemma C10_counterexample :
  let w' := (EmailAgent.handle_query example_runtime 3 Ollama "show me all emails"
               (Some 0) None w_tasks).2 in
  let overflow := EmailAgent.handle_query example_runtime 3 Ollama "show me all emails"
                    (Some (2 ^ 63)) None w_tasks in
  (emails (w_db w_tasks) !! 0 = None
   /\ take 2 (trace w')
      = [EvIsInboxQuery "show me all emails"; EvDb (DbGetAllEmails 100)]
   /\ answer_contexts (trace w')
      = [Some "Total Emails: 2
Categories: Important: 1, Uncategorized: 1
Total Action Items: 1

Recent Emails:
  - [Important] Budget from bob@example.com
  - [N/A] Report from ann@example.com"])
  /\ (2 ^ 63 <> 0
      /\ emails (w_db w_tasks) !! (2 ^ 63) = None
      /\ overflow.1
         = Exc (PyExc OverflowError "Python int too large to convert to SQLite INTEGER")
      /\ trace overflow.2 = [EvDb (DbGetEmail (2 ^ 63))]
      /\ backend_calls overflow.2 = 0%nat).
Proof. cbn zeta. repeat split; try (vm_compute; reflexivity). lia. Qed.

(** ** Witnesses of the further properties *)

(** X1, witness: a remote API that reports a rate limit, then
    times out, then answers; MAX_RETRIES is 3. *)
Lemma openai_recovers_after_failures_witness :
  Forall (fun e => is_APIError (exc_cls e) = true) [rate_limited; timed_out]
  /\ Z.of_nat (length [rate_limited; timed_out]) < 3
  /\ (forall i e, [rate_limited; timed_out] !! i = Some e ->
                  openai_script w_late (backend_calls w_late + i)%nat = OpenAIRaises e)
  /\ openai_script w_late (backend_calls w_late + length [rate_limited; timed_out])%nat
     = OpenAIReturns completion
  /\ choices completion = Some "Spam" :: []
  /\ exists w',
       LLMService._call_llm 3 chat (7 # 10) 1000 w_late = (Ret (Some "Spam"), w')
       /\ trace w'
          = trace w_late
            ++ failed_attempts (EvCreate chat (7 # 10) 1000) backoff_delay 0
                 [rate_limited; timed_out]
            ++ [EvCreate chat (7 # 10) 1000]
       /\ backend_calls w'
          = (backend_calls w_late + length [rate_limited; timed_out] + 1)%nat
       /\ total_tokens_used w'
          = match usage completion with
            | Some t => (total_tokens_used w_late + inject_Z t)%Q
            | None => total_tokens_used w_late
            end
       /\ w_db w' = w_db w_late.
Proof.
  assert (Hapi : Forall (fun e => is_APIError (exc_cls e) = true) [rate_limited; timed_out])
    by (repeat constructor).
  assert (Hscript : forall i e, [rate_limited; timed_out] !! i = Some e ->
            openai_script w_late (backend_calls w_late + i)%nat = OpenAIRaises e).
  { intros [|[|i]] e H; simpl in H; try discriminate; injection H as <-; reflexivity. }
  split; [exact Hapi|]. split; [simpl; lia|]. split; [exact Hscript|].
  split; [reflexivity|]. split; [reflexivity|].
  apply (openai_recovers_after_failures 3 chat (7 # 10) 1000 w_late
           [rate_limited; timed_out] completion (Some "Spam") []);
    [exact Hapi|simpl; lia|exact Hscript|reflexivity|reflexivity].
Defined.

(** X2, witness: a remote API that reports a rate limit, then
    times out, then cannot be connected to; MAX_RETRIES is 3. *)
Lemma openai_exhausts_on_api_errors_witness :
  Forall (fun e => is_APIError (exc_cls e) = true)
    ([rate_limited; timed_out] ++ [no_connection])
  /\ Z.of_nat (length [rate_limited; timed_out]) + 1 = 3
  /\ (forall i e, [rate_limited; timed_out] !! i = Some e ->
                  openai_script w_unreachable (backend_calls w_unreachable + i)%nat
                  = OpenAIRaises e)
  /\ openai_script w_unreachable
       (backend_calls w_unreachable + length [rate_limited; timed_out])%nat
     = OpenAIRaises no_connection
  /\ exists w',
       LLMService._call_llm 3 chat (7 # 10) 1000 w_unreachable = (Ret None, w')
       /\ trace w'
          = trace w_unreachable
            ++ failed_attempts (EvCreate chat (7 # 10) 1000) backoff_delay 0
                 [rate_limited; timed_out]
            ++ [EvCreate chat (7 # 10) 1000]
       /\ Z.of_nat (backend_calls w' - backend_calls w_unreachable) = 3
       /\ total_tokens_used w' = total_tokens_used w_unreachable
       /\ w_db w' = w_db w_unreachable.
Proof.
  assert (Hapi : Forall (fun e => is_APIError (exc_cls e) = true)
                   ([rate_limited; timed_out] ++ [no_connection]))
    by (repeat constructor).
  assert (Hscript : forall i e, [rate_limited; timed_out] !! i = Some e ->
            openai_script w_unreachable (backend_calls w_unreachable + i)%nat
            = OpenAIRaises e).
  { intros [|[|i]] e H; simpl in H; try discriminate; injection H as <-; reflexivity. }
  split; [exact Hapi|]. split; [simpl; lia|]. split; [exact Hscript|].
  split; [reflexivity|].
  apply (openai_exhausts_on_api_errors 3 chat (7 # 10) 1000 w_unreachable
           [rate_limited; timed_out] no_connection);
    [exact Hapi|simpl; lia|exact Hscript|reflexivity].
Defined.

(** X3, witness: a local server that answers every request
    with status 500. *)
Lemma ollama_bad_status_retries_without_sleep_witness :
  (forall n, exists code text,
     ollama_script w_server_error n = OllamaResponds code text
     /\ code <> 200 /\ code <> 404)
  /\ exists w',
       OllamaService._call_llm chat (7 # 10) 1000 w_server_error = (Ret None, w')
       /\ trace w'
          = trace w_server_error
            ++ [ EvPost (OllamaService._messages_to_prompt chat) (7 # 10) 1000;
                 EvPost (OllamaService._messages_to_prompt chat) (7 # 10) 1000;
                 EvPost (OllamaService._messages_to_prompt chat) (7 # 10) 1000 ]
       /\ backend_calls w' = (backend_calls w_server_error + 3)%nat
       /\ total_tokens_used w' = total_tokens_used w_server_error
       /\ ollama_total_tokens_used w' = ollama_total_tokens_used w_server_error
       /\ w_db w' = w_db w_server_error.
Proof.
  assert (H : forall n, exists code text,
            ollama_script w_server_error n = OllamaResponds code text
            /\ code <> 200 /\ code <> 404).
  { intros n. exists 500, None. repeat split; lia. }
  split; [exact H|].
  apply (ollama_bad_status_retries_without_sleep chat (7 # 10) 1000 w_server_error H).
Defined.

(** X4, witness: a local server that refuses the connection,
    then times out while answering, then refuses the connection again. *)
Lemma ollama_exhausts_when_unreachable_witness :
  Forall retried_by_ollama ([connection_refused; read_timed_out] ++ [connection_refused])
  /\ length [connection_refused; read_timed_out] = 2%nat
  /\ (forall i e, [connection_refused; read_timed_out] !! i = Some e ->
                  ollama_script w_unreachable (backend_calls w_unreachable + i)%nat
                  = OllamaRaises e)
  /\ ollama_script w_unreachable
       (backend_calls w_unreachable + length [connection_refused; read_timed_out])%nat
     = OllamaRaises connection_refused
  /\ exists w',
       OllamaService._call_llm chat (7 # 10) 1000 w_unreachable = (Ret None, w')
       /\ trace w'
          = trace w_unreachable
            ++ failed_attempts (EvPost (OllamaService._messages_to_prompt chat) (7 # 10) 1000)
                 (fun c _ => ollama_backoff c) 0 [connection_refused; read_timed_out]
            ++ [EvPost (OllamaService._messages_to_prompt chat) (7 # 10) 1000]
       /\ backend_calls w' = (backend_calls w_unreachable + 3)%nat
       /\ total_tokens_used w' = total_tokens_used w_unreachable
       /\ ollama_total_tokens_used w' = ollama_total_tokens_used w_unreachable
       /\ w_db w' = w_db w_unreachable.
Proof.
  assert (Hall : Forall retried_by_ollama
                   ([connection_refused; read_timed_out] ++ [connection_refused]))
    by (repeat constructor).
  assert (Hscript : forall i e, [connection_refused; read_timed_out] !! i = Some e ->
            ollama_script w_unreachable (backend_calls w_unreachable + i)%nat
            = OllamaRaises e).
  { intros [|[|i]] e H; simpl in H; try discriminate; injection H as <-; reflexivity. }
  split; [exact Hall|]. split; [reflexivity|]. split; [exact Hscript|].
  split; [reflexivity|].
  apply (ollama_exhausts_when_unreachable chat (7 # 10) 1000 w_unreachable
           [connection_refused; read_timed_out] connection_refused);
    [exact Hall|reflexivity|exact Hscript|reflexivity].
Defined.

(** X5, witness: a local server that refuses the first
    connection and answers the second request with a text of three words;
    the usage estimate, 0.0 before the call, is 3.9000000000000004 after
    it. *)
Lemma ollama_recovers_after_failures_witness :
  Forall retried_by_ollama [connection_refused]
  /\ (length [connection_refused] < 3)%nat
  /\ (forall i e, [connection_refused] !! i = Some e ->
                  ollama_script w_late (backend_calls w_late + i)%nat = OllamaRaises e)
  /\ ollama_script w_late (backend_calls w_late + length [connection_refused])%nat
     = OllamaResponds 200 (Some "To-Do, I think")
  /\ (exists w',
       OllamaService._call_llm chat (7 # 10) 1000 w_late
       = (Ret (Some "To-Do, I think"), w')
       /\ trace w'
          = trace w_late
            ++ failed_attempts (EvPost (OllamaService._messages_to_prompt chat) (7 # 10) 1000)
                 (fun c _ => ollama_backoff c) 0 [connection_refused]
            ++ [EvPost (OllamaService._messages_to_prompt chat) (7 # 10) 1000]
       /\ backend_calls w' = (backend_calls w_late + length [connection_refused] + 1)%nat
       /\ ollama_total_tokens_used w'
          = SFadd 53 1024 (ollama_total_tokens_used w_late)
              (SFmul 53 1024
                 (binary_normalize 53 1024
                    (Z.of_nat (PyStr.count_words false "To-Do, I think")) 0 false)
                 (S754_finite false 5854679515581645 (-52)))
       /\ total_tokens_used w' = total_tokens_used w_late
       /\ w_db w' = w_db w_late)
  /\ SFadd 53 1024 (ollama_total_tokens_used w_late)
       (SFmul 53 1024
          (binary_normalize 53 1024
             (Z.of_nat (PyStr.count_words false "To-Do, I think")) 0 false)
          (S754_finite false 5854679515581645 (-52)))
     = S754_finite false 8782019273372468 (-51).
Proof.
  assert (Hall : Forall retried_by_ollama [connection_refused]) by (repeat constructor).
  assert (Hscript : forall i e, [connection_refused] !! i = Some e ->
            ollama_script w_late (backend_calls w_late + i)%nat = OllamaRaises e).
  { intros [|i] e H; simpl in H; try discriminate; injection H as <-; reflexivity. }
  split; [exact Hall|]. split; [simpl; lia|]. split; [exact Hscript|].
  split; [reflexivity|]. split; [|vm_compute; reflexivity].
  apply (ollama_recovers_after_failures chat (7 # 10) 1000 w_late [connection_refused]
           "To-Do, I think");
    [exact Hall|simpl; lia|exact Hscript|reflexivity].
Defined.

(** X6, witness: a local server that refuses the first
    connection and then answers 404. *)
Lemma ollama_missing_model_not_retried_witness :
  Forall retried_by_ollama [connection_refused]
  /\ (length [connection_refused] < 3)%nat
  /\ (forall i e, [connection_refused] !! i = Some e ->
                  ollama_script w_late_no_model (backend_calls w_late_no_model + i)%nat
                  = OllamaRaises e)
  /\ ollama_script w_late_no_model
       (backend_calls w_late_no_model + length [connection_refused])%nat
     = OllamaResponds 404 None
  /\ exists w',
       OllamaService._call_llm chat (7 # 10) 1000 w_late_no_model = (Ret None, w')
       /\ trace w'
          = trace w_late_no_model
            ++ failed_attempts (EvPost (OllamaService._messages_to_prompt chat) (7 # 10) 1000)
                 (fun c _ => ollama_backoff c) 0 [connection_refused]
            ++ [EvPost (OllamaService._messages_to_prompt chat) (7 # 10) 1000]
       /\ backend_calls w'
          = (backend_calls w_late_no_model + length [connection_refused] + 1)%nat
       /\ total_tokens_used w' = total_tokens_used w_late_no_model
       /\ ollama_total_tokens_used w' = ollama_total_tokens_used w_late_no_model
       /\ w_db w' = w_db w_late_no_model.
Proof.
  assert (Hall : Forall retried_by_ollama [connection_refused]) by (repeat constructor).
  assert (Hscript : forall i e, [connection_refused] !! i = Some e ->
            ollama_script w_late_no_model (backend_calls w_late_no_model + i)%nat
            = OllamaRaises e).
  { intros [|i] e H; simpl in H; try discriminate; injection H as <-; reflexivity. }
  split; [exact Hall|]. split; [simpl; lia|]. split; [exact Hscript|].
  split; [reflexivity|].
  apply (ollama_missing_model_not_retried chat (7 # 10) 1000 w_late_no_model
           [connection_refused] None);
    [exact Hall|simpl; lia|exact Hscript|reflexivity].
Defined.


(** X16, witness: Item 1 in a store whose prompts were never
    loaded. *)
Lemma process_email_without_categorization_prompt_witness :
  emails (w_db w_without_prompts) !! 1 = Some email1
  /\ (forall p, prompts (w_db w_without_prompts) !! "categorization" = Some p ->
                is_active p = false)
  /\ exists w',
       EmailProcessor.process_email example_runtime 3 Ollama 1 w_without_prompts
       = (Ret false, w')
       /\ backend_calls w' = backend_calls w_without_prompts
       /\ emails (w_db w') = emails (w_db w_without_prompts)
       /\ trace w'
          = trace w_without_prompts
            ++ [ EvDb (DbGetEmail 1);
                 EvDb (DbGetPrompt "categorization");
                 EvDb (DbInsertLog
                         {| log_email_id := 1; operation := "categorization";
                            status := "failed"; llm_response := None;
                            error_message := Some "LLM categorization failed" |}) ].
Proof.
  assert (Hget : emails (w_db w_without_prompts) !! 1 = Some email1)
    by (vm_compute; reflexivity).
  assert (Hp : forall p, prompts (w_db w_without_prompts) !! "categorization" = Some p ->
                         is_active p = false).
  { intros p H. vm_compute in H. discriminate H. }
  split; [exact Hget|]. split; [exact Hp|].
  apply (process_email_without_categorization_prompt example_runtime 3 Ollama 1 email1
           w_without_prompts Hget Hp).
Defined.

(** X17, witness: Item 1 with the model that names a category and
    lists one task. *)
Lemma process_email_success_witness :
  EmailProcessor.process_email example_runtime 3 Ollama 1 w_tasks
  = (Ret true, (EmailProcessor.process_email example_runtime 3 Ollama 1 w_tasks).2)
  /\ exists email c items w1 w2,
       emails (w_db w_tasks) !! 1 = Some email
       /\ EmailProcessor._categorize_email example_runtime 3 Ollama email
            (Db.get_email 1 w_tasks).2 = (Ret (Some c), w1)
       /\ c <> EmptyString
       /\ EmailProcessor._extract_action_items example_runtime 3 Ollama email w1
          = (Ret items, w2)
       /\ emails (w_db (EmailProcessor.process_email example_runtime 3 Ollama 1 w_tasks).2)
          !! 1
          = Some (Db.set_fields (Some c) (Some items) (Some true) email)
       /\ forall id, id <> 1 ->
            emails (w_db (EmailProcessor.process_email example_runtime 3 Ollama 1 w_tasks).2)
            !! id
            = emails (w_db w_tasks) !! id.
Proof.
  assert (H : EmailProcessor.process_email example_runtime 3 Ollama 1 w_tasks
              = (Ret true,
                 (EmailProcessor.process_email example_runtime 3 Ollama 1 w_tasks).2)).
  { vm_compute. reflexivity. }
  split; [exact H|].
  apply (process_email_success example_runtime 3 Ollama 1 w_tasks _ H).
Defined.

(** X18, witness: Item 1 in a store that holds the
    categorization prompt only, and that accepts every write. *)
Lemma process_email_without_extraction_prompt_witness :
  let w1 := (EmailProcessor._categorize_email example_runtime 3 Ollama email1
               (Db.get_email 1 w_without_extraction).2).2 in
  emails (w_db w_without_extraction) !! 1 = Some email1
  /\ - 2 ^ 63 <= 1 < 2 ^ 63
  /\ (forall p, prompts (w_db w_without_extraction) !! "action_extraction" = Some p ->
                is_active p = false)
  /\ EmailProcessor._categorize_email example_runtime 3 Ollama email1
       (Db.get_email 1 w_without_extraction).2 = (Ret (Some "Important"), w1)
  /\ "Important" <> EmptyString
  /\ write_fails w1 (db_writes w1) = None
  /\ exists b w' evs,
       EmailProcessor.process_email example_runtime 3 Ollama 1 w_without_extraction
       = (Ret b, w')
       /\ trace w'
          = trace w1 ++ EvDb (DbGetPrompt "action_extraction")
                     :: EvDb (DbUpdateEmail 1 (Some "Important") (Some []) (Some true))
                     :: evs
       /\ Forall (fun e => exists entry, e = EvDb (DbInsertLog entry)) evs
       /\ backend_calls w' = backend_calls w1
       /\ match write_fails w1 (db_writes w1) with
          | None =>
              b = true
              /\ emails (w_db w') !! 1
                 = Some (Db.set_fields (Some "Important") (Some []) (Some true) email1)
          | Some _ =>
              b = false /\ emails (w_db w') !! 1 = Some email1
          end.
Proof.
  cbn zeta.
  assert (Hget : emails (w_db w_without_extraction) !! 1 = Some email1)
    by (vm_compute; reflexivity).
  assert (Hp : forall p,
            prompts (w_db w_without_extraction) !! "action_extraction" = Some p ->
            is_active p = false).
  { intros p H. vm_compute in H. discriminate H. }
  assert (Hcat : EmailProcessor._categorize_email example_runtime 3 Ollama email1
                   (Db.get_email 1 w_without_extraction).2
                 = (Ret (Some "Important"),
                    (EmailProcessor._categorize_email example_runtime 3 Ollama email1
                       (Db.get_email 1 w_without_extraction).2).2)).
  { vm_compute. reflexivity. }
  assert (Hrange : - 2 ^ 63 <= 1 < 2 ^ 63) by lia.
  split; [exact Hget|]. split; [exact Hrange|]. split; [exact Hp|]. split; [exact Hcat|].
  split; [discriminate|]. split; [reflexivity|].
  apply (process_email_without_extraction_prompt example_runtime 3 Ollama 1 email1
           w_without_extraction _ "Important" Hget Hrange Hp Hcat).
  discriminate.
Defined.

(** X10, witness: a template with one placeholder between two
    texts. *)
Lemma providers_build_the_same_prompt_witness :
  Forall brace_free ["Categorize this email: "; " Answer with one word."]
  /\ PyFormat.format example_runtime
       (PyStr.join "{email_content}" ["Categorize this email: "; " Answer with one word."])
       "hello"
     = Ret (PyStr.join "hello" ["Categorize this email: "; " Answer with one word."])
  /\ PyStr.replace
       (PyStr.join "{email_content}" ["Categorize this email: "; " Answer with one word."])
       "{email_content}" "hello"
     = PyStr.join "hello" ["Categorize this email: "; " Answer with one word."].
Proof.
  assert (H : Forall brace_free ["Categorize this email: "; " Answer with one word."]).
  { repeat constructor; vm_compute; reflexivity. }
  split; [exact H|].
  apply (providers_build_the_same_prompt example_runtime
           ["Categorize this email: "; " Answer with one word."] "hello" H).
Defined.

(** X22, witness: a greeting, with the focused id 0. *)
Lemma unfocused_plain_query_gets_no_context_witness :
  EmailAgent.truthy_id (Some 0) = None
  /\ EmailAgent.is_inbox_query "Hello there" = false
  /\ exists s evs,
       (EmailAgent.handle_query example_runtime 3 Ollama "Hello there" (Some 0) None
          w_tasks).1 = Ret s
       /\ s <> EmptyString
       /\ trace (EmailAgent.handle_query example_runtime 3 Ollama "Hello there" (Some 0)
                   None w_tasks).2
          = trace w_tasks ++ EvIsInboxQuery "Hello there"
              :: EvLLM (OpAnswer "Hello there" None (EmailAgent.recent_messages None))
              :: evs
       /\ Forall transport_event evs.
Proof.
  split; [reflexivity|]. split; [vm_compute; reflexivity|].
  apply (unfocused_plain_query_gets_no_context example_runtime 3 Ollama "Hello there"
           (Some 0) None w_tasks); [reflexivity|vm_compute; reflexivity].
Defined.

(** X23, witness: a query with the keywords show and all, on a
    store without Items. *)
Lemma inbox_query_on_empty_store_witness :
  EmailAgent.truthy_id None = None
  /\ EmailAgent.is_inbox_query "Show me all emails" = true
  /\ emails (w_db w_empty) = empty
  /\ exists s evs,
       (EmailAgent.handle_query example_runtime 3 Ollama "Show me all emails" None None
          w_empty).1 = Ret s
       /\ s <> EmptyString
       /\ trace (EmailAgent.handle_query example_runtime 3 Ollama "Show me all emails" None
                   None w_empty).2
          = trace w_empty ++ EvIsInboxQuery "Show me all emails"
              :: EvDb (DbGetAllEmails 100)
              :: EvLLM (OpAnswer "Show me all emails" (Some "Inbox is empty.")
                          (EmailAgent.recent_messages None))
              :: evs
       /\ Forall transport_event evs.
Proof.
  split; [reflexivity|]. split; [vm_compute; reflexivity|]. split; [reflexivity|].
  apply (inbox_query_on_empty_store example_runtime 3 Ollama "Show me all emails" None None
           w_empty); [reflexivity|vm_compute; reflexivity|reflexivity].
Defined.

(** X24, witness: a conversation of six messages and its last five. *)
Lemma router_forgets_old_history_witness :
  length last_five = 5%nat
  /\ EmailAgent.handle_query example_runtime 3 Ollama "And then?" (Some 2)
       (Some ([turn 1] ++ last_five)) w_tasks
     = EmailAgent.handle_query example_runtime 3 Ollama "And then?" (Some 2)
         (Some last_five) w_tasks.
Proof.
  split; [reflexivity|].
  apply (router_forgets_old_history example_runtime 3 Ollama "And then?" (Some 2) [turn 1]
           last_five w_tasks).
  reflexivity.
Defined.

(** X29, witness: the provider name with capital letters, no
    key and no local server. *)
Lemma validate_accepts_what_select_rejects_witness :
  "OpenAI" <> "openai"
  /\ "OpenAI" <> "ollama"
  /\ Config.validate "OpenAI" "" "http://localhost:11434" (Ret tt)
       (Exc connection_refused) = Ret (true, EmptyString)
  /\ UnifiedLLMService.select "OpenAI"
     = Exc (PyExc ValueError ("Unknown LLM provider: " +:+ "OpenAI")).
Proof.
  split; [discriminate|]. split; [discriminate|].
  apply (validate_accepts_what_select_rejects "OpenAI" "" "http://localhost:11434"
           (Exc connection_refused)); discriminate.
Defined.

(** X26, witness: a store with four Items, three of them received at the
    same second. *)
Lemma inbox_context_counts_witness :
  let all_emails := [same_second 4; same_second 3; same_second (-5); email1] in
  (Db.get_all_emails 100 w_same_second).1 = Ret all_emails
  /\ all_emails <> []
  /\ exists (categories : list (string * nat)) (total_actions : nat),
       (EmailAgent._build_inbox_context "show all" w_same_second).1
       = Ret (PyStr.join "
" ([ "Total Emails: " +:+ pretty (length all_emails);
     "Categories: "
       +:+ PyStr.join ", " (map (fun kv => fst kv +:+ ": " +:+ pretty (snd kv)) categories);
     "Total Action Items: " +:+ pretty total_actions;
     "
Recent Emails:" ]
   ++ map (fun email => "  - [" +:+ EmailAgent.or_default (category email) "N/A" +:+ "] "
                        +:+ subject email +:+ " from " +:+ sender email)
          (take 5 all_emails)))
       /\ total_actions = sum_list_with (fun e => length (action_items e)) all_emails
       /\ NoDup (categories.*1)
       /\ (forall k v, elem_of (k, v) categories ->
                       v = labelled k all_emails /\ (0 < v)%nat)
       /\ (forall e, elem_of e all_emails -> elem_of (category_label e) (categories.*1))
       /\ sum_list_with snd categories = length all_emails.
Proof.
  cbn zeta.
  assert (Hrows : (Db.get_all_emails 100 w_same_second).1
                  = Ret [same_second 4; same_second 3; same_second (-5); email1]).
  { vm_compute. reflexivity. }
  split; [exact Hrows|]. split; [discriminate|].
  apply (inbox_context_counts "show all" w_same_second _ Hrows). discriminate.
Defined.
